(** * aster-agent: risk engine, position monitor and cycle orchestrator

    A shallow embedding of the trading core of the repository:

    - [RiskManager]      (utils/risk-manager.ts)
    - [Agent2Optimizer]  (agents/agent2-optimizer.ts, the admission gates)
    - [Agent3Executor]   (agents/agent3-executor.ts, the position monitor)
    - [AgentOrchestrator] (orchestrator.ts, the cycle pipeline)

    Numbers.  The source computes with JavaScript numbers, which are IEEE
    binary64 numbers.  What is stated about the values it computes (the
    risk score and the decision drawn from it, the stop and target
    prices, the daily P&L as it is added up, the order quantity, the
    caps on the strategy of agent 1) is
    stated on binary64 numbers, in [Binary64], with the rounding, the NaN
    and the signed zeros of the source.  The machinery around these
    values (the gates and overrides, the position monitor, the cycle) is
    embedded on exact rationals [Q], where equality of numbers is [Qeq]
    (written [==]): what is stated there rests on the comparisons the
    source makes and on the order of its steps.

    Time.  Every [new Date()] of the source is an explicit argument. *)

From Stdlib Require Import QArith Qround Qabs Qminmax Lqa ZArith Lia Sorted.
From Stdlib Require Import Floats.
From stdpp Require Import gmap strings list fin_maps sorting.

Set Warnings "-inexact-float".

Open Scope Q_scope.

(** ** Numbers and dates *)

(** [a > b] and [a >= b] on JavaScript numbers. *)
Definition Qgtb (a b : Q) : bool := negb (Qle_bool a b).
Definition Qgeb (a b : Q) : bool := Qle_bool b a.
Definition Qltb (a b : Q) : bool := negb (Qle_bool b a).

(** [Math.min], [Math.floor], [Math.round] (half-way cases round up). *)
Definition Math_min (a b : Q) : Q := if Qle_bool a b then a else b.
Definition Math_floor (a : Q) : Q := inject_Z (Qfloor a).
Definition Math_round (a : Q) : Q := inject_Z (Qfloor (a + 0.5)).

(** A [Date], by its local calendar fields; [getMonth] counts from 0 as in
    JavaScript and [getDate] is the day of the month. *)
Record Date := mkDate {
  getFullYear : Z;
  getMonth : Z;
  getDate : Z;
}.

(** Calendar order on dates: [date_ltb a b] when [a] is an earlier day
    than [b]. *)
Definition date_ltb (a b : Date) : bool :=
  (getFullYear a <? getFullYear b)%Z
  || ((getFullYear a =? getFullYear b)%Z
      && ((getMonth a <? getMonth b)%Z
          || ((getMonth a =? getMonth b)%Z && (getDate a <? getDate b)%Z))).

Definition same_day (a b : Date) : bool :=
  (getFullYear a =? getFullYear b)%Z
  && (getMonth a =? getMonth b)%Z
  && (getDate a =? getDate b)%Z.

Definition is_leap (y : Z) : bool :=
  ((y mod 4 =? 0)%Z && negb (y mod 100 =? 0)%Z) || (y mod 400 =? 0)%Z.

Definition days_in_month (y m : Z) : Z :=
  (if m =? 1 then (if is_leap y then 29 else 28)
   else if (m =? 3) || (m =? 5) || (m =? 8) || (m =? 10) then 30
   else 31)%Z.

(** The dates a JavaScript [Date] can show. *)
Definition valid_date (d : Date) : bool :=
  (0 <=? getMonth d)%Z && (getMonth d <=? 11)%Z
  && (1 <=? getDate d)%Z
  && (getDate d <=? days_in_month (getFullYear d) (getMonth d))%Z.

(** ** types/index.ts *)

Inductive AgentType := agent1 | agent2 | agent3.
Inductive AgentStatus := IDLE | RUNNING | SUCCESS | ERROR | WAITING.
Inductive PositionSide := LONG | SHORT.
Inductive StopLossType := FIXED | TRAILING | ATR_BASED.
Inductive TakeProfitType := TP_FIXED | TP_PARTIAL.
Inductive Recommendation := APPROVE | REJECT | REDUCE_SIZE.

#[global] Instance PositionSide_eq_dec : EqDecision PositionSide.
Proof. solve_decision. Defined.
#[global] Instance Recommendation_eq_dec : EqDecision Recommendation.
Proof. solve_decision. Defined.
#[global] Instance AgentType_eq_dec : EqDecision AgentType.
Proof. solve_decision. Defined.

Record StopLossConfig := mkStopLossConfig {
  sl_type : StopLossType;
  sl_percentage : Q;
}.

Record TakeProfitConfig := mkTakeProfitConfig {
  tp_type : TakeProfitType;
  tp_percentage : Q;
}.

Record TradingStrategy := mkStrategy {
  symbol : string;
  side : PositionSide;
  entryPrice : Q;
  leverage : Q;
  positionSize : Q;
  stopLoss : StopLossConfig;
  takeProfit : TakeProfitConfig;
  confidence : Q;
  riskScore : Q;
}.

(** [Position]; the field names of the source carry the prefix [pos_]
    because [TradingStrategy] uses the same names. *)
Record Position := mkPosition {
  pos_symbol : string;
  pos_side : PositionSide;
  pos_entryPrice : Q;
  pos_currentPrice : Q;
  pos_size : Q;
  pos_leverage : Q;
  pos_unrealizedPnL : Q;
  pos_realizedPnL : Q;
  pos_stopLoss : Q;
  pos_takeProfit : Q;
  pos_isTrailingSL : bool;
  pos_openTime : Z;
  pos_lastUpdateTime : Z;
}.

Record Factor := mkFactor {
  name : string;
  value : Q;
  weight : Q;
}.

(** The entries of [RiskAssessment.reasons].  Each constructor is one of
    the message templates of the source, with the values it interpolates:

    - [RiskScoreTooHigh]        'Risk score too high (>8/10)'
    - [ModerateHighRisk]        'Moderate-high risk detected'
    - [SuggestReduceSize]       'Suggest reducing position size by 50%'
    - [DailyLossLimitExceeded]  'Daily loss limit exceeded'
    - [LeverageExceedsMax m]    `Leverage exceeds max (${m}x)`
    - [PositionSizeExceedsMax m] `Position size exceeds max ($${m})`
    - [MaxPositionsReached n]   `Maximum concurrent positions reached (${n})`
    - [AlreadyHavePosition s]   `Already have position for ${s}`
    - [AllChecksPassed]         'All risk checks passed'
    - [TotalRiskScore x]        `Total risk score: ${x.toFixed(2)}/10`
    - [MaxPositionsAlreadyOpen n]
                     `Maximum concurrent positions (${n}) already open`
    - [AlreadyHaveOpenPosition s] `Already have open position for ${s}`
    - [SymbolNotAllowed s l]
                     `Symbol ${s} not allowed. Only trade: ${l.join(', ')}` *)
Inductive Reason :=
| RiskScoreTooHigh
| ModerateHighRisk
| SuggestReduceSize
| DailyLossLimitExceeded
| LeverageExceedsMax (m : Q)
| PositionSizeExceedsMax (m : Q)
| MaxPositionsReached (n : Z)
| AlreadyHavePosition (s : string)
| AllChecksPassed
| TotalRiskScore (x : Q)
| MaxPositionsAlreadyOpen (n : Z)
| AlreadyHaveOpenPosition (s : string)
| SymbolNotAllowed (s : string) (l : list string).

Record RiskAssessment := mkAssessment {
  score : Q;
  factors : list Factor;
  recommendation : Recommendation;
  reasons : list Reason;
}.

(** ** config/index.ts *)

(** [config.trading], after the environment has been read. *)
Record TradingConfig := mkTradingConfig {
  maxConcurrentPositions : Z;
  positionSizePercent : Q;
  maxLeverage : Q;
  maxPositionSize : Q;
  defaultStopLoss : Q;
  defaultTakeProfit : Q;
  maxDailyLoss : Q;
  slippageTolerance : Q;
  allowedSymbols : list string;
}.

(** The one environment variable the risk manager reads on its own:
    [Some n] when [MAX_CONCURRENT_POSITIONS] is set and [parseInt] reads
    the integer [n], [None] when it is unset or empty. *)
Record ProcessEnv := mkProcessEnv {
  MAX_CONCURRENT_POSITIONS : option Z;
}.

(** [config.trading] as built from the environment ([||] defaults); only
    the variable above is kept symbolic, the others take their defaults. *)
Definition config_trading (env : ProcessEnv) : TradingConfig :=
  {| maxConcurrentPositions := default 3%Z (MAX_CONCURRENT_POSITIONS env);
     positionSizePercent := 20;
     maxLeverage := 5;
     maxPositionSize := 100;
     defaultStopLoss := 2;
     defaultTakeProfit := 4;
     maxDailyLoss := 3;
     slippageTolerance := 0.5;
     allowedSymbols := ["BTCUSDT"; "ETHUSDT"; "BNBUSDT"; "SOLUSDT"]%string |}.

Definition env_unset : ProcessEnv := {| MAX_CONCURRENT_POSITIONS := None |}.

(** ** utils/risk-manager.ts *)

Module RiskManager.

Record t := mk {
  dailyPnL : Q;
  dailyTrades : Z;
  lastResetDate : Date;
}.

(** [new RiskManager()] at date [now]. *)
Definition new (now : Date) : t :=
  {| dailyPnL := 0; dailyTrades := 0%Z; lastResetDate := now |}.

Definition resetDailyCounters (now : Date) (rm : t) : t :=
  if negb (getDate now =? getDate (lastResetDate rm))%Z
  then {| dailyPnL := 0; dailyTrades := 0%Z; lastResetDate := now |}
  else rm.

Definition isDailyLossLimitExceeded
    (cfg : TradingConfig) (now : Date) (rm : t) : bool * t :=
  let rm := resetDailyCounters now rm in
  let lossLimit := maxDailyLoss cfg in
  let currentLossPercent := Qabs (dailyPnL rm) in
  (Qgeb currentLossPercent lossLimit, rm).

Definition updateDailyPnL (now : Date) (pnl : Q) (rm : t) : t :=
  let rm := resetDailyCounters now rm in
  {| dailyPnL := dailyPnL rm + pnl;
     dailyTrades := dailyTrades rm;
     lastResetDate := lastResetDate rm |}.

Definition getDailyStats (now : Date) (rm : t) : (Q * Z) * t :=
  let rm := resetDailyCounters now rm in
  ((dailyPnL rm, dailyTrades rm), rm).

(** The five factors pushed by [assessRisk], in order. *)
Definition riskFactors (cfg : TradingConfig)
    (strategy : TradingStrategy) (currentPositions : list Position)
    : list Factor :=
  let leverageRisk := leverage strategy / maxLeverage cfg in
  let sizeRisk := positionSize strategy / maxPositionSize cfg in
  let confidenceRisk := 1 - (confidence strategy / 100) in
  let marketRisk := riskScore strategy / 10 in
  let concentrationRisk :=
    inject_Z (Z.of_nat (length currentPositions)) / 5 in
  [ {| name := "Leverage"; value := leverageRisk; weight := 0.3 |};
    {| name := "Position Size"; value := sizeRisk; weight := 0.2 |};
    {| name := "Confidence"; value := confidenceRisk; weight := 0.15 |};
    {| name := "Market Conditions"; value := marketRisk; weight := 0.25 |};
    {| name := "Concentration"; value := Math_min concentrationRisk 1;
       weight := 0.1 |} ].

(** [factors.reduce((sum, factor) => sum + factor.value*factor.weight*10, 0)] *)
Definition totalScore (fs : list Factor) : Q :=
  fold_left (fun sum factor => sum + (value factor * weight factor * 10))
            fs 0.

(** The score-based decision (first [if] chain of [assessRisk]). *)
Definition scoreDecision (total : Q) : Recommendation * list Reason :=
  if Qgtb total 8 then (REJECT, [RiskScoreTooHigh])
  else if Qgtb total 6 then (REDUCE_SIZE, [ModerateHighRisk; SuggestReduceSize])
  else (APPROVE, []).

(** One "additional check": when [cond] holds the recommendation
    becomes REJECT and [reason] is pushed. *)
Definition override (cond : bool) (reason : Reason)
    (st : Recommendation * list Reason) : Recommendation * list Reason :=
  if cond then (REJECT, st.2 ++ [reason]) else st.

(** [parseInt(process.env.MAX_CONCURRENT_POSITIONS || '4')] *)
Definition maxPositions (env : ProcessEnv) : Z :=
  default 4%Z (MAX_CONCURRENT_POSITIONS env).

Definition hasDuplicate (strategy : TradingStrategy)
    (currentPositions : list Position) : bool :=
  existsb (fun p => bool_decide (pos_symbol p = symbol strategy))
          currentPositions.

Definition assessRisk (cfg : TradingConfig) (env : ProcessEnv) (now : Date)
    (strategy : TradingStrategy) (currentPositions : list Position)
    (rm : t) : RiskAssessment * t :=
  let factors := riskFactors cfg strategy currentPositions in
  let total := totalScore factors in
  let st := scoreDecision total in
  (* Additional checks *)
  let '(exceeded, rm) := isDailyLossLimitExceeded cfg now rm in
  let st := override exceeded DailyLossLimitExceeded st in
  let st := override (Qgtb (leverage strategy) (maxLeverage cfg))
              (LeverageExceedsMax (maxLeverage cfg)) st in
  let st := override (Qgtb (positionSize strategy) (maxPositionSize cfg))
              (PositionSizeExceedsMax (maxPositionSize cfg)) st in
  let st := override
              (Z.of_nat (length currentPositions) >=? maxPositions env)%Z
              (MaxPositionsReached (maxPositions env)) st in
  let st := override (hasDuplicate strategy currentPositions)
              (AlreadyHavePosition (symbol strategy)) st in
  let st :=
    if bool_decide (st.1 = APPROVE)
    then (st.1, st.2 ++ [AllChecksPassed; TotalRiskScore total])
    else st in
  ({| score := total; factors := factors;
      recommendation := st.1; reasons := st.2 |}, rm).

(** The decision of [assessRisk] after its five additional checks and
    before the closing "all checks passed" block. *)
Definition checked (cfg : TradingConfig) (env : ProcessEnv) (now : Date)
    (strategy : TradingStrategy) (currentPositions : list Position)
    (rm : t) : Recommendation * list Reason :=
  override (hasDuplicate strategy currentPositions)
    (AlreadyHavePosition (symbol strategy))
    (override (Z.of_nat (length currentPositions) >=? maxPositions env)%Z
       (MaxPositionsReached (maxPositions env))
       (override (Qgtb (positionSize strategy) (maxPositionSize cfg))
          (PositionSizeExceedsMax (maxPositionSize cfg))
          (override (Qgtb (leverage strategy) (maxLeverage cfg))
             (LeverageExceedsMax (maxLeverage cfg))
             (override (isDailyLossLimitExceeded cfg now rm).1
                DailyLossLimitExceeded
                (scoreDecision
                   (totalScore (riskFactors cfg strategy currentPositions))))))).

Definition calculateStopLoss
    (entryPrice : Q) (side : PositionSide) (percentage : Q) : Q :=
  match side with
  | LONG => entryPrice * (1 - percentage / 100)
  | SHORT => entryPrice * (1 + percentage / 100)
  end.

Definition calculateTakeProfit
    (entryPrice : Q) (side : PositionSide) (percentage : Q) : Q :=
  match side with
  | LONG => entryPrice * (1 + percentage / 100)
  | SHORT => entryPrice * (1 - percentage / 100)
  end.

Definition calculateTrailingStopLoss
    (currentPrice entryPrice : Q) (side : PositionSide)
    (trailingDistance : Q) : Q :=
  match side with
  | LONG => currentPrice * (1 - trailingDistance / 100)
  | SHORT => currentPrice * (1 + trailingDistance / 100)
  end.

Definition shouldTriggerStopLoss
    (currentPrice stopLoss : Q) (side : PositionSide) : bool :=
  match side with
  | LONG => Qle_bool currentPrice stopLoss
  | SHORT => Qgeb currentPrice stopLoss
  end.

Definition shouldTriggerTakeProfit
    (currentPrice takeProfit : Q) (side : PositionSide) : bool :=
  match side with
  | LONG => Qgeb currentPrice takeProfit
  | SHORT => Qle_bool currentPrice takeProfit
  end.

Definition calculatePnL
    (entryPrice currentPrice size leverage : Q) (side : PositionSide) : Q :=
  let priceChange :=
    match side with
    | LONG => (currentPrice - entryPrice) / entryPrice
    | SHORT => (entryPrice - currentPrice) / entryPrice
    end in
  priceChange * leverage * 100.

(** Successive calls of [assessRisk] on one manager, each with the date
    at which it is made; the assessments are returned in order. *)
Fixpoint assessAll (cfg : TradingConfig) (env : ProcessEnv)
    (calls : list (Date * TradingStrategy * list Position)) (rm : t)
    : list RiskAssessment :=
  match calls with
  | [] => []
  | (now, strategy, currentPositions) :: calls =>
      let '(assessment, rm) :=
        assessRisk cfg env now strategy currentPositions rm in
      assessment :: assessAll cfg env calls rm
  end.

End RiskManager.

(** ** Outcome of a call that may throw *)

Inductive result (A : Type) :=
| Ok (a : A)
| Throw (msg : string).
Arguments Ok {A} a.
Arguments Throw {A} msg.

(** ** agents/agent2-optimizer.ts *)

Module Agent2Optimizer.

(** [Agent2Output], restricted to the two fields the orchestrator reads. *)
Record Output := mkOutput {
  optimizedStrategy : TradingStrategy;
  riskAssessment : RiskAssessment;
}.

(** The assessment returned by each of the three early [return]s. *)
Definition rejected (reason : Reason) : RiskAssessment :=
  {| score := 10; factors := []; recommendation := REJECT;
     reasons := [reason] |}.

(** [if (walletBalance)]: a number that is neither missing nor zero. *)
Definition truthy (walletBalance : option Q) : option Q :=
  match walletBalance with
  | Some b => if Qeq_bool b 0 then None else Some b
  | None => None
  end.

Definition setPositionSize (s : TradingStrategy) (x : Q) : TradingStrategy :=
  {| symbol := symbol s; side := side s; entryPrice := entryPrice s;
     leverage := leverage s; positionSize := x; stopLoss := stopLoss s;
     takeProfit := takeProfit s; confidence := confidence s;
     riskScore := riskScore s |}.

Section Execute.
(** [claudeService.optimizeStrategy], the oracle; it may throw.  Its
    answer is a complete strategy: an answer of the model without a
    [stopLoss] or [takeProfit] object makes the source throw a TypeError
    in [calculateTPSL], a path that is not part of [execute] below.  The
    source assigns the adjusted size to the candidate object itself;
    [execute] below passes the adjusted candidate on. *)
Variable optimizeStrategy :
  TradingStrategy -> list Position -> result TradingStrategy.

Definition execute (cfg : TradingConfig) (env : ProcessEnv) (now : Date)
    (initialStrategy : TradingStrategy) (currentPositions : list Position)
    (walletBalance : option Q) (rm : RiskManager.t)
    : result Output * RiskManager.t :=
  (* Check 1: Maximum concurrent positions *)
  if (Z.of_nat (length currentPositions) >=? maxConcurrentPositions cfg)%Z
  then (Ok {| optimizedStrategy := initialStrategy;
              riskAssessment :=
                rejected (MaxPositionsAlreadyOpen
                            (maxConcurrentPositions cfg)) |}, rm)
  else
  (* Check 2: No duplicate positions for same symbol *)
  match find (fun p => bool_decide (pos_symbol p = symbol initialStrategy))
             currentPositions with
  | Some _ =>
      (Ok {| optimizedStrategy := initialStrategy;
             riskAssessment :=
               rejected (AlreadyHaveOpenPosition
                           (symbol initialStrategy)) |}, rm)
  | None =>
  (* Check 3: Symbol whitelist *)
  if negb (bool_decide (symbol initialStrategy ∈ allowedSymbols cfg))
  then (Ok {| optimizedStrategy := initialStrategy;
              riskAssessment :=
                rejected (SymbolNotAllowed (symbol initialStrategy)
                                           (allowedSymbols cfg)) |}, rm)
  else
    (* Step 1: Auto-optimize based on wallet balance *)
    let initialStrategy :=
      match truthy walletBalance with
      | Some walletBalance =>
          let positionPercent := positionSizePercent cfg / 100 in
          let maxSafePosition :=
            Math_min (walletBalance * positionPercent)
                     (maxPositionSize cfg) in
          setPositionSize initialStrategy maxSafePosition
      | None => initialStrategy
      end in
    let '(riskAssessment, rm) :=
      RiskManager.assessRisk cfg env now initialStrategy
                             currentPositions rm in
    match optimizeStrategy initialStrategy currentPositions with
    | Ok optimizedStrategy =>
        (Ok {| optimizedStrategy := optimizedStrategy;
               riskAssessment := riskAssessment |}, rm)
    | Throw e => (Throw e, rm)
    end
  end.
End Execute.

(** The candidate object after [execute]: Step 1 assigns the adjusted
    size to [initialStrategy.positionSize] itself, so whoever holds the
    object sees the new size, whether the call then returns or throws.
    When a gate fires the object is left as it is. *)
Definition candidate (cfg : TradingConfig)
    (initialStrategy : TradingStrategy) (currentPositions : list Position)
    (walletBalance : option Q) : TradingStrategy :=
  if (Z.of_nat (length currentPositions) >=? maxConcurrentPositions cfg)%Z
  then initialStrategy
  else
  match find (fun p => bool_decide (pos_symbol p = symbol initialStrategy))
             currentPositions with
  | Some _ => initialStrategy
  | None =>
  if negb (bool_decide (symbol initialStrategy ∈ allowedSymbols cfg))
  then initialStrategy
  else
    match truthy walletBalance with
    | Some walletBalance =>
        let positionPercent := positionSizePercent cfg / 100 in
        let maxSafePosition :=
          Math_min (walletBalance * positionPercent)
                   (maxPositionSize cfg) in
        setPositionSize initialStrategy maxSafePosition
    | None => initialStrategy
    end
  end.

End Agent2Optimizer.

(** ** agents/agent3-executor.ts *)

Module Agent3Executor.

(** The [reason] argument of [closePosition]. *)
Inductive CloseReason := STOP_LOSS | TAKE_PROFIT.

(** The two maps of the class; a timer handle is a number. *)
Record t := mk {
  activeMonitoring : gmap string Z;
  activePositions : gmap string Position;
}.

(** The executor with the collaborators it acts on:
    - [subscriptions]: the keys of [asterService.subscriptions];
    - [intervals]: the timers armed by [setInterval] and not yet cleared;
    - [closing]: the calls of [closePosition] that found a position
      (console line `Closing ${symbol} position (Reason: ${reason})`);
    - [orders]: the requests [asterService.closePosition(symbol, side)]
      sent to the exchange, oldest first;
    - [risk]: the [riskManager] singleton. *)
Record World := mkWorld {
  agent : t;
  subscriptions : gset string;
  intervals : gset Z;
  closing : list (string * CloseReason);
  orders : list (string * PositionSide);
  risk : RiskManager.t;
}.

Definition setAgent (a : t) (w : World) : World :=
  {| agent := a; subscriptions := subscriptions w;
     intervals := intervals w; closing := closing w;
     orders := orders w; risk := risk w |}.

Definition setPosition (symbol : string) (p : Position) (w : World) : World :=
  setAgent {| activeMonitoring := activeMonitoring (agent w);
              activePositions := <[symbol := p]> (activePositions (agent w)) |}
           w.

(** [`ticker.${symbol}`] *)
Definition channel (symbol : string) : string := "ticker." +:+ symbol.

(** The [Position] built by [executeTrade] once the order is placed. *)
Definition newPosition (now : Z) (strategy : TradingStrategy) : Position :=
  {| pos_symbol := symbol strategy;
     pos_side := side strategy;
     pos_entryPrice := entryPrice strategy;
     pos_currentPrice := entryPrice strategy;
     pos_size := positionSize strategy;
     pos_leverage := leverage strategy;
     pos_unrealizedPnL := 0;
     pos_realizedPnL := 0;
     pos_stopLoss :=
       RiskManager.calculateStopLoss (entryPrice strategy) (side strategy)
         (sl_percentage (stopLoss strategy));
     pos_takeProfit :=
       RiskManager.calculateTakeProfit (entryPrice strategy) (side strategy)
         (tp_percentage (takeProfit strategy));
     pos_isTrailingSL :=
       match sl_type (stopLoss strategy) with TRAILING => true | _ => false end;
     pos_openTime := now;
     pos_lastUpdateTime := now |}.

(** [startMonitoring]: subscribe to the price channel and arm the
    periodic check, whose fresh timer handle is [id]. *)
Definition startMonitoring (id : Z) (symbol : string) (w : World) : World :=
  {| agent := {| activeMonitoring := <[symbol := id]> (activeMonitoring (agent w));
                 activePositions := activePositions (agent w) |};
     subscriptions := {[ channel symbol ]} ∪ subscriptions w;
     intervals := {[ id ]} ∪ intervals w;
     closing := closing w; orders := orders w; risk := risk w |}.

Definition stopMonitoring (symbol : string) (w : World) : World :=
  let w :=
    match activeMonitoring (agent w) !! symbol with
    | Some intervalId =>
        {| agent := {| activeMonitoring := delete symbol (activeMonitoring (agent w));
                       activePositions := activePositions (agent w) |};
           subscriptions := subscriptions w;
           intervals := intervals w ∖ {[ intervalId ]};
           closing := closing w; orders := orders w; risk := risk w |}
    | None => w
    end in
  (* asterService.unsubscribeFromPrice(symbol) *)
  {| agent := agent w;
     subscriptions := subscriptions w ∖ {[ channel symbol ]};
     intervals := intervals w;
     closing := closing w; orders := orders w; risk := risk w |}.

(** [closePosition] up to its [await]: look the position up and send the
    close request to the exchange.  The captured position is returned for
    the continuation. *)
Definition closePosition (symbol : string) (reason : CloseReason) (w : World)
    : option Position * World :=
  match activePositions (agent w) !! symbol with
  | None => (None, w)
  | Some position =>
      (Some position,
       {| agent := agent w; subscriptions := subscriptions w;
          intervals := intervals w;
          closing := closing w ++ [(symbol, reason)];
          orders := orders w ++ [(symbol, pos_side position)];
          risk := risk w |})
  end.

(** [closePosition] after its [await], given the outcome of the request
    and the captured position object as it is by then. *)
Definition closePosition_resume (now : Date) (symbol : string)
    (position : Position) (outcome : result unit) (w : World) : World :=
  match outcome with
  | Ok _ =>
      let w :=
        {| agent := agent w; subscriptions := subscriptions w;
           intervals := intervals w; closing := closing w;
           orders := orders w;
           risk := RiskManager.updateDailyPnL now
                     (pos_unrealizedPnL position) (risk w) |} in
      let w := stopMonitoring symbol w in
      setAgent {| activeMonitoring := activeMonitoring (agent w);
                  activePositions := delete symbol (activePositions (agent w)) |}
               w
  | Throw _ => w
  end.

(** [checkPositionStatus], given the symbols of the positions that
    [asterService.getPositions()] returned. *)
Definition checkPositionStatus (positions : list string) (symbol : string)
    (w : World) : World :=
  match find (fun p => bool_decide (p = symbol)) positions with
  | None => stopMonitoring symbol w
  | Some _ => w
  end.

Definition getActivePositions (a : t) : list Position :=
  (map_to_list (activePositions a)).*2.

(** The first three assignments of [onPriceUpdate]. *)
Definition updatePrice (now : Z) (currentPrice : Q) (p : Position) : Position :=
  {| pos_symbol := pos_symbol p; pos_side := pos_side p;
     pos_entryPrice := pos_entryPrice p;
     pos_currentPrice := currentPrice;
     pos_size := pos_size p; pos_leverage := pos_leverage p;
     pos_unrealizedPnL :=
       RiskManager.calculatePnL (pos_entryPrice p) currentPrice
         (pos_size p) (pos_leverage p) (pos_side p);
     pos_realizedPnL := pos_realizedPnL p;
     pos_stopLoss := pos_stopLoss p; pos_takeProfit := pos_takeProfit p;
     pos_isTrailingSL := pos_isTrailingSL p;
     pos_openTime := pos_openTime p;
     pos_lastUpdateTime := now |}.

Definition setStopLoss (x : Q) (p : Position) : Position :=
  {| pos_symbol := pos_symbol p; pos_side := pos_side p;
     pos_entryPrice := pos_entryPrice p;
     pos_currentPrice := pos_currentPrice p;
     pos_size := pos_size p; pos_leverage := pos_leverage p;
     pos_unrealizedPnL := pos_unrealizedPnL p;
     pos_realizedPnL := pos_realizedPnL p;
     pos_stopLoss := x; pos_takeProfit := pos_takeProfit p;
     pos_isTrailingSL := pos_isTrailingSL p;
     pos_openTime := pos_openTime p;
     pos_lastUpdateTime := pos_lastUpdateTime p |}.

(** The trailing-stop block of [onPriceUpdate]. *)
Definition trailStop (currentPrice : Q) (position : Position) : Position :=
  if pos_isTrailingSL position && Qgtb (pos_unrealizedPnL position) 5
  then
    let newStopLoss :=
      RiskManager.calculateTrailingStopLoss currentPrice
        (pos_entryPrice position) (pos_side position) 3 in
    match pos_side position with
    | LONG =>
        if Qgtb newStopLoss (pos_stopLoss position)
        then setStopLoss newStopLoss position else position
    | SHORT =>
        if Qltb newStopLoss (pos_stopLoss position)
        then setStopLoss newStopLoss position else position
    end
  else position.

Definition onPriceUpdate (now : Z) (symbol : string) (currentPrice : Q)
    (w : World) : World :=
  match activePositions (agent w) !! symbol with
  | None => w
  | Some position =>
      (* Update position *)
      let position := updatePrice now currentPrice position in
      let w := setPosition symbol position w in
      (* Check stop loss *)
      if RiskManager.shouldTriggerStopLoss currentPrice
           (pos_stopLoss position) (pos_side position)
      then (closePosition symbol STOP_LOSS w).2
      (* Check take profit *)
      else if RiskManager.shouldTriggerTakeProfit currentPrice
                (pos_takeProfit position) (pos_side position)
      then (closePosition symbol TAKE_PROFIT w).2
      (* Update trailing stop loss if applicable *)
      else setPosition symbol (trailStop currentPrice position) w
  end.

(** The position that [onPriceUpdate] leaves stored for a symbol whose
    position was [p] (see [onPriceUpdate_lookup]): the price is updated,
    and the trailing block runs only when neither trigger fired. *)
Definition afterTick (now : Z) (price : Q) (p : Position) : Position :=
  let q := updatePrice now price p in
  if RiskManager.shouldTriggerStopLoss price (pos_stopLoss q) (pos_side q) then q
  else if RiskManager.shouldTriggerTakeProfit price (pos_takeProfit q) (pos_side q) then q
  else trailStop price q.

(** The stop stored for [symbol] after each tick of a sequence of price
    ticks (time and price) handled in order. *)
Fixpoint stopHistory (symbol : string) (ticks : list (Z * Q)) (w : World)
    : list Q :=
  match ticks with
  | [] => []
  | (now, currentPrice) :: ticks =>
      let w := onPriceUpdate now symbol currentPrice w in
      match activePositions (agent w) !! symbol with
      | Some position => pos_stopLoss position :: stopHistory symbol ticks w
      | None => []
      end
  end.

(** [calculateQuantity] *)
Definition calculateQuantity (strategy : TradingStrategy) : Q :=
  let notionalValue := positionSize strategy in
  let rawQuantity := notionalValue / entryPrice strategy in
  let precision :=
    if bool_decide (symbol strategy = "BTCUSDT") then 3%Z else 3%Z in
  let stepSize :=
    if bool_decide (symbol strategy = "BTCUSDT") then 0.001 else 0.001 in
  let minQuantity :=
    if bool_decide (symbol strategy = "BTCUSDT") then 0.001 else 0.001 in
  let roundedQuantity := Math_floor (rawQuantity / stepSize) * stepSize in
  let roundedQuantity :=
    if Qltb roundedQuantity minQuantity then minQuantity
    else roundedQuantity in
  let finalQuantity :=
    Math_round (roundedQuantity * Qpower 10 precision) / Qpower 10 precision in
  finalQuantity.

End Agent3Executor.

(** ** orchestrator.ts *)

Module AgentOrchestrator.

(** The [data] payload of an [AgentMessage]. *)
Inductive Payload :=
| Agent1Data (initialStrategy : TradingStrategy)
| Agent2Data (output : Agent2Optimizer.Output)
| Agent3Data
| NullData.

Record AgentMessage := mkMessage {
  msg_agent : AgentType;
  msg_timestamp : Z;
  msg_status : AgentStatus;
  msg_data : Payload;
  msg_nextAgent : option AgentType;
  msg_error : option string;
}.

(** The orchestrator, the file behind [HistoryManager]
    (data/conversations.json, [fileWritable] telling whether a write
    succeeds), what [console.error] printed for a failed cycle, and the
    singletons the cycle works on.

    [conversationHistory] holds the objects that were logged, not copies
    of them: an entry shows its payload as the payload is now (see
    [amendLogged]).  [conversationsFile] holds each entry as it was
    written when it was logged. *)
Record t := mk {
  isRunning : bool;
  conversationHistory : list AgentMessage;
  conversationsFile : list AgentMessage;
  fileWritable : bool;
  cycleFailures : list string;
  world : Agent3Executor.World;
}.

(** Computations of the cycle: they read and write the state and
    either return or throw. *)
Definition M (A : Type) : Type := t -> result A * t.

Definition ret {A} (a : A) : M A := fun s => (Ok a, s).
Definition throw {A} (msg : string) : M A := fun s => (Throw msg, s).
Definition bind {A B} (m : M A) (k : A -> M B) : M B :=
  fun s =>
    match m s with
    | (Ok a, s) => k a s
    | (Throw e, s) => (Throw e, s)
    end.
(** [try { m } catch (error) { handler error }] *)
Definition try_catch {A} (m : M A) (handler : string -> M A) : M A :=
  fun s =>
    match m s with
    | (Ok a, s) => (Ok a, s)
    | (Throw e, s) => handler e s
    end.
(** The outcome of awaiting a collaborator. *)
Definition await {A} (r : result A) : M A := fun s => (r, s).

Notation "'let*' x ':=' m 'in' k" := (bind m (fun x => k))
  (at level 10, x name, m at level 100, k at level 200).
Notation "m '>>' k" := (bind m (fun _ => k))
  (at level 61, left associativity).

(** [HistoryManager.saveConversation] (database/history.ts): append to the
    file and keep the last 1000 entries; a failed write is swallowed. *)
Definition saveConversation (message : AgentMessage) (s : t) : t :=
  if fileWritable s then
    let conversations := conversationsFile s ++ [message] in
    let conversations :=
      if (1000 <? length conversations)%nat
      then drop (length conversations - 1000) conversations
      else conversations in
    {| isRunning := isRunning s;
       conversationHistory := conversationHistory s;
       conversationsFile := conversations;
       fileWritable := fileWritable s;
       cycleFailures := cycleFailures s;
       world := world s |}
  else s.

Definition logConversation (message : AgentMessage) : M unit :=
  fun s =>
    let s := {| isRunning := isRunning s;
                conversationHistory := conversationHistory s ++ [message];
                conversationsFile := conversationsFile s;
                fileWritable := fileWritable s;
                cycleFailures := cycleFailures s;
                world := world s |} in
    (Ok tt, saveConversation message s).

Definition setData (data : Payload) (m : AgentMessage) : AgentMessage :=
  {| msg_agent := msg_agent m; msg_timestamp := msg_timestamp m;
     msg_status := msg_status m; msg_data := data;
     msg_nextAgent := msg_nextAgent m; msg_error := msg_error m |}.

(** An assignment to a field of the object that the entry pushed last
    holds as its [data]: the entry in memory shows [data] from now on;
    the history file is not written. *)
Definition amendLogged (data : Payload) : M unit :=
  fun s =>
    let history := conversationHistory s in
    (Ok tt,
     {| isRunning := isRunning s;
        conversationHistory :=
          alter (setData data) (pred (length history)) history;
        conversationsFile := conversationsFile s;
        fileWritable := fileWritable s;
        cycleFailures := cycleFailures s;
        world := world s |}).

(** [console.error] of the cycle's [catch]. *)
Definition reportCycleFailed (error : string) : M unit :=
  fun s =>
    (Ok tt, {| isRunning := isRunning s;
               conversationHistory := conversationHistory s;
               conversationsFile := conversationsFile s;
               fileWritable := fileWritable s;
               cycleFailures := cycleFailures s ++ [error];
               world := world s |}).

Definition getWorld : M Agent3Executor.World := fun s => (Ok (world s), s).
Definition putWorld (w : Agent3Executor.World) : M unit :=
  fun s =>
    (Ok tt, {| isRunning := isRunning s;
               conversationHistory := conversationHistory s;
               conversationsFile := conversationsFile s;
               fileWritable := fileWritable s;
               cycleFailures := cycleFailures s;
               world := w |}).

Section Cycle.
(** The collaborators of one cycle:
    - [agent1_execute symbol]: the outcome of [agent1.execute], kept to
      the candidate strategy of its output;
    - [getWalletBalance]: the outcome of [bscService.getWalletInfo()],
      as the number [parseFloat(walletInfo.usdtBalance || '0')];
    - [optimizeStrategy]: the oracle called by [agent2.execute];
    - [agent3_execute]: [agent3.execute], acting on the executor;
    - [clock a]: the [new Date()] of the message logged for agent [a];
    - [today]: the date the risk manager sees during the cycle. *)
Variable agent1_execute : string -> result TradingStrategy.
Variable getWalletBalance : result Q.
Variable optimizeStrategy :
  TradingStrategy -> list Position -> result TradingStrategy.
Variable agent3_execute :
  TradingStrategy -> Agent3Executor.World ->
  result unit * Agent3Executor.World.
Variable clock : AgentType -> Z.
Variable today : Date.
Variable cfg : TradingConfig.
Variable env : ProcessEnv.
Variable manualApprovalRequired : bool.

(** [agent2.execute(agent1Output.initialStrategy, ...)]: the candidate
    passed is the object held by the entry that stage 1 has just logged,
    and [execute] may assign to its [positionSize]. *)
Definition agent2_execute (initialStrategy : TradingStrategy)
    (currentPositions : list Position) (walletBalance : Q)
    : M Agent2Optimizer.Output :=
  let* w := getWorld in
  let '(r, rm) :=
    Agent2Optimizer.execute optimizeStrategy cfg env today initialStrategy
      currentPositions (Some walletBalance) (Agent3Executor.risk w) in
  putWorld {| Agent3Executor.agent := Agent3Executor.agent w;
              Agent3Executor.subscriptions := Agent3Executor.subscriptions w;
              Agent3Executor.intervals := Agent3Executor.intervals w;
              Agent3Executor.closing := Agent3Executor.closing w;
              Agent3Executor.orders := Agent3Executor.orders w;
              Agent3Executor.risk := rm |} >>
  amendLogged
    (Agent1Data (Agent2Optimizer.candidate cfg initialStrategy
                   currentPositions (Some walletBalance))) >>
  await r.

Definition stage3 (strategy : TradingStrategy) : M unit :=
  try_catch
    (let* w := getWorld in
     let '(r, w) := agent3_execute strategy w in
     putWorld w >>
     await r >>
     logConversation
       {| msg_agent := agent3; msg_timestamp := clock agent3;
          msg_status := SUCCESS; msg_data := Agent3Data;
          msg_nextAgent := None; msg_error := None |})
    (fun error =>
       (* Still log the failure *)
       logConversation
         {| msg_agent := agent3; msg_timestamp := clock agent3;
            msg_status := ERROR; msg_data := NullData;
            msg_nextAgent := None; msg_error := Some error |}).

Definition runCycle (symbol : string) : M unit :=
  try_catch
    ((* STAGE 1: Data Collection *)
     let* initialStrategy := await (agent1_execute symbol) in
     logConversation
       {| msg_agent := agent1; msg_timestamp := clock agent1;
          msg_status := SUCCESS; msg_data := Agent1Data initialStrategy;
          msg_nextAgent := Some agent2; msg_error := None |} >>
     (* STAGE 2: Strategy Optimization *)
     let* w := getWorld in
     let currentPositions :=
       Agent3Executor.getActivePositions (Agent3Executor.agent w) in
     let* walletBalance := await getWalletBalance in
     let* agent2Output :=
       agent2_execute initialStrategy currentPositions walletBalance in
     logConversation
       {| msg_agent := agent2; msg_timestamp := clock agent2;
          msg_status := SUCCESS; msg_data := Agent2Data agent2Output;
          msg_nextAgent := Some agent3; msg_error := None |} >>
     let recommendation :=
       recommendation (Agent2Optimizer.riskAssessment agent2Output) in
     if bool_decide (recommendation = REJECT) then ret tt
     else
       (* Reduce size if recommended: the strategy object of the output,
          which the entry just logged holds, is halved in place *)
       let optimizedStrategy :=
         if bool_decide (recommendation = REDUCE_SIZE)
         then Agent2Optimizer.setPositionSize
                (Agent2Optimizer.optimizedStrategy agent2Output)
                (positionSize
                   (Agent2Optimizer.optimizedStrategy agent2Output) * 0.5)
         else Agent2Optimizer.optimizedStrategy agent2Output in
       amendLogged
         (Agent2Data
            {| Agent2Optimizer.optimizedStrategy := optimizedStrategy;
               Agent2Optimizer.riskAssessment :=
                 Agent2Optimizer.riskAssessment agent2Output |}) >>
       (* STAGE 3: Execution *)
       if manualApprovalRequired then ret tt
       else stage3 optimizedStrategy)
    (fun error => reportCycleFailed error).

End Cycle.

(** A fresh orchestrator next to a fresh executor. *)
Definition new (rm : RiskManager.t) : t :=
  {| isRunning := false;
     conversationHistory := [];
     conversationsFile := [];
     fileWritable := true;
     cycleFailures := [];
     world := {| Agent3Executor.agent :=
                   {| Agent3Executor.activeMonitoring := ∅;
                      Agent3Executor.activePositions := ∅ |};
                 Agent3Executor.subscriptions := ∅;
                 Agent3Executor.intervals := ∅;
                 Agent3Executor.closing := [];
                 Agent3Executor.orders := [];
                 Agent3Executor.risk := rm |} |}.

End AgentOrchestrator.

(** ** The numeric core on binary64 numbers *)

(** The functions of the source whose results depend on how JavaScript
    rounds, once more on IEEE binary64 numbers ([float]).  Sums, products,
    quotients and comparisons are the primitive ones, a literal is the
    double nearest to it, and NaN also stands for a missing number
    ([undefined]), which each operation used here turns into NaN (and each
    comparison into false). *)
Module Binary64.
#[local] Open Scope float_scope.

(** *** JavaScript numbers *)

(** [a > b] and [a >= b]. *)
Definition gtb (a b : float) : bool := b <? a.
Definition geb (a b : float) : bool := b <=? a.

(** [Math.min]: NaN if an argument is NaN, and -0 is below +0. *)
Definition Math_min (a b : float) : float :=
  if is_nan a || is_nan b then nan
  else if a <? b then a
  else if b <? a then b
  else if get_sign a then a else b.

(** [Math.floor].  A finite double is [m * 2^e] up to its sign; with
    [e >= 0] it is an integer, and otherwise the floor is an integer below
    2^53, which [of_uint63] represents exactly. *)
Definition Math_floor (x : float) : float :=
  match Prim2SF x with
  | S754_finite s m e =>
      if (0 <=? e)%Z then x
      else
        let d := (2 ^ (- e))%Z in
        let q := (Z.pos m / d)%Z in
        if s then
          let n := if (Z.pos m mod d =? 0)%Z then q else (q + 1)%Z in
          - of_uint63 (Uint63.of_Z n)
        else of_uint63 (Uint63.of_Z q)
  | _ => x
  end.

(** [Math.round]: the nearest integer, the larger one of two equally near;
    the result keeps the sign of [x] when it is zero. *)
Definition Math_round (x : float) : float :=
  match Prim2SF x with
  | S754_finite s m e =>
      if (0 <=? e)%Z then x
      else
        let d := (2 ^ (- e))%Z in
        let v := if s then Z.neg m else Z.pos m in
        let n := ((2 * v + d) / (2 * d))%Z in
        if (n =? 0)%Z then (if s then neg_zero else zero)
        else if (n <? 0)%Z then - of_uint63 (Uint63.of_Z (- n))
        else of_uint63 (Uint63.of_Z n)
  | _ => x
  end.

(** [array.length] as a number. *)
Definition ofLength (n : nat) : float := of_uint63 (Uint63.of_Z (Z.of_nat n)).

(** *** types/index.ts and config/index.ts *)

(** [TradingStrategy], by the fields that [assessRisk],
    [calculateQuantity] and the price functions read. *)
Record TradingStrategy := mkStrategy {
  symbol : string;
  side : PositionSide;
  entryPrice : float;
  leverage : float;
  positionSize : float;
  stopLossPercentage : float;
  takeProfitPercentage : float;
  confidence : float;
  riskScore : float;
}.

Record Position := mkPosition {
  pos_symbol : string;
  pos_side : PositionSide;
  pos_entryPrice : float;
  pos_currentPrice : float;
  pos_size : float;
  pos_leverage : float;
  pos_unrealizedPnL : float;
  pos_realizedPnL : float;
  pos_stopLoss : float;
  pos_takeProfit : float;
  pos_isTrailingSL : bool;
  pos_openTime : Z;
  pos_lastUpdateTime : Z;
}.

Record Factor := mkFactor {
  name : string;
  value : float;
  weight : float;
}.

(** The entries of [RiskAssessment.reasons] that [assessRisk] pushes; the
    message templates are those listed for the reasons above. *)
Inductive Reason :=
| RiskScoreTooHigh
| ModerateHighRisk
| SuggestReduceSize
| DailyLossLimitExceeded
| LeverageExceedsMax (m : float)
| PositionSizeExceedsMax (m : float)
| MaxPositionsReached (n : Z)
| AlreadyHavePosition (s : string)
| AllChecksPassed
| TotalRiskScore (x : float).

Record RiskAssessment := mkAssessment {
  score : float;
  factors : list Factor;
  recommendation : Recommendation;
  reasons : list Reason;
}.

(** [config.trading], by the three limits the risk manager reads. *)
Record TradingConfig := mkTradingConfig {
  maxLeverage : float;
  maxPositionSize : float;
  maxDailyLoss : float;
}.

(** The defaults of [config.trading]. *)
Definition config_trading : TradingConfig :=
  {| maxLeverage := 5; maxPositionSize := 100; maxDailyLoss := 3 |}.

(** *** utils/risk-manager.ts *)

Module RiskManager.

Record t := mk {
  dailyPnL : float;
  dailyTrades : Z;
  lastResetDate : Date;
}.

Definition new (now : Date) : t :=
  {| dailyPnL := 0; dailyTrades := 0%Z; lastResetDate := now |}.

Definition resetDailyCounters (now : Date) (rm : t) : t :=
  if negb (getDate now =? getDate (lastResetDate rm))%Z
  then {| dailyPnL := 0; dailyTrades := 0%Z; lastResetDate := now |}
  else rm.

Definition isDailyLossLimitExceeded
    (cfg : TradingConfig) (now : Date) (rm : t) : bool * t :=
  let rm := resetDailyCounters now rm in
  let lossLimit := maxDailyLoss cfg in
  let currentLossPercent := abs (dailyPnL rm) in
  (geb currentLossPercent lossLimit, rm).

Definition updateDailyPnL (now : Date) (pnl : float) (rm : t) : t :=
  let rm := resetDailyCounters now rm in
  {| dailyPnL := dailyPnL rm + pnl;
     dailyTrades := dailyTrades rm;
     lastResetDate := lastResetDate rm |}.

Definition getDailyStats (now : Date) (rm : t) : (float * Z) * t :=
  let rm := resetDailyCounters now rm in
  ((dailyPnL rm, dailyTrades rm), rm).

(** The five factors pushed by [assessRisk], in order. *)
Definition riskFactors (cfg : TradingConfig)
    (strategy : TradingStrategy) (currentPositions : list Position)
    : list Factor :=
  let leverageRisk := leverage strategy / maxLeverage cfg in
  let sizeRisk := positionSize strategy / maxPositionSize cfg in
  let confidenceRisk := 1 - (confidence strategy / 100) in
  let marketRisk := riskScore strategy / 10 in
  let concentrationRisk := ofLength (length currentPositions) / 5 in
  [ {| name := "Leverage"; value := leverageRisk; weight := 0.3 |};
    {| name := "Position Size"; value := sizeRisk; weight := 0.2 |};
    {| name := "Confidence"; value := confidenceRisk; weight := 0.15 |};
    {| name := "Market Conditions"; value := marketRisk; weight := 0.25 |};
    {| name := "Concentration"; value := Math_min concentrationRisk 1;
       weight := 0.1 |} ].

(** [factors.reduce((sum, factor) => sum + factor.value*factor.weight*10, 0)] *)
Definition totalScore (fs : list Factor) : float :=
  fold_left (fun sum factor => sum + (value factor * weight factor * 10))
            fs 0.

(** The score-based decision (first [if] chain of [assessRisk]). *)
Definition scoreDecision (total : float) : Recommendation * list Reason :=
  if gtb total 8 then (REJECT, [RiskScoreTooHigh])
  else if gtb total 6 then (REDUCE_SIZE, [ModerateHighRisk; SuggestReduceSize])
  else (APPROVE, []).

(** One "additional check": when [cond] holds the recommendation
    becomes REJECT and [reason] is pushed. *)
Definition override (cond : bool) (reason : Reason)
    (st : Recommendation * list Reason) : Recommendation * list Reason :=
  if cond then (REJECT, st.2 ++ [reason]) else st.

(** [parseInt(process.env.MAX_CONCURRENT_POSITIONS || '4')] *)
Definition maxPositions (env : ProcessEnv) : Z :=
  default 4%Z (MAX_CONCURRENT_POSITIONS env).

Definition hasDuplicate (strategy : TradingStrategy)
    (currentPositions : list Position) : bool :=
  existsb (fun p => bool_decide (pos_symbol p = symbol strategy))
          currentPositions.

Definition assessRisk (cfg : TradingConfig) (env : ProcessEnv) (now : Date)
    (strategy : TradingStrategy) (currentPositions : list Position)
    (rm : t) : RiskAssessment * t :=
  let factors := riskFactors cfg strategy currentPositions in
  let total := totalScore factors in
  let st := scoreDecision total in
  (* Additional checks *)
  let '(exceeded, rm) := isDailyLossLimitExceeded cfg now rm in
  let st := override exceeded DailyLossLimitExceeded st in
  let st := override (gtb (leverage strategy) (maxLeverage cfg))
              (LeverageExceedsMax (maxLeverage cfg)) st in
  let st := override (gtb (positionSize strategy) (maxPositionSize cfg))
              (PositionSizeExceedsMax (maxPositionSize cfg)) st in
  let st := override
              (Z.of_nat (length currentPositions) >=? maxPositions env)%Z
              (MaxPositionsReached (maxPositions env)) st in
  let st := override (hasDuplicate strategy currentPositions)
              (AlreadyHavePosition (symbol strategy)) st in
  let st :=
    if bool_decide (st.1 = APPROVE)
    then (st.1, st.2 ++ [AllChecksPassed; TotalRiskScore total])
    else st in
  ({| score := total; factors := factors;
      recommendation := st.1; reasons := st.2 |}, rm).

Definition calculateStopLoss
    (entryPrice : float) (side : PositionSide) (percentage : float) : float :=
  match side with
  | LONG => entryPrice * (1 - percentage / 100)
  | SHORT => entryPrice * (1 + percentage / 100)
  end.

Definition calculateTakeProfit
    (entryPrice : float) (side : PositionSide) (percentage : float) : float :=
  match side with
  | LONG => entryPrice * (1 + percentage / 100)
  | SHORT => entryPrice * (1 - percentage / 100)
  end.

Definition shouldTriggerStopLoss
    (currentPrice stopLoss : float) (side : PositionSide) : bool :=
  match side with
  | LONG => currentPrice <=? stopLoss
  | SHORT => geb currentPrice stopLoss
  end.

Definition shouldTriggerTakeProfit
    (currentPrice takeProfit : float) (side : PositionSide) : bool :=
  match side with
  | LONG => geb currentPrice takeProfit
  | SHORT => currentPrice <=? takeProfit
  end.

End RiskManager.

(** *** Sequences of calls on the risk manager *)

(** The public methods of [RiskManager] that touch the daily counters. *)
Inductive Call :=
| IsDailyLossLimitExceeded
| UpdateDailyPnL (pnl : float)
| AssessRisk (strategy : TradingStrategy) (currentPositions : list Position)
| GetDailyStats.

(** The manager after one call made at date [now]. *)
Definition call (cfg : TradingConfig) (env : ProcessEnv) (now : Date)
    (c : Call) (rm : RiskManager.t) : RiskManager.t :=
  match c with
  | IsDailyLossLimitExceeded =>
      (RiskManager.isDailyLossLimitExceeded cfg now rm).2
  | UpdateDailyPnL pnl => RiskManager.updateDailyPnL now pnl rm
  | AssessRisk strategy currentPositions =>
      (RiskManager.assessRisk cfg env now strategy currentPositions rm).2
  | GetDailyStats => (RiskManager.getDailyStats now rm).2
  end.

(** The manager after a sequence of dated calls. *)
Fixpoint run (cfg : TradingConfig) (env : ProcessEnv)
    (calls : list (Date * Call)) (rm : RiskManager.t) : RiskManager.t :=
  match calls with
  | [] => rm
  | (now, c) :: calls => run cfg env calls (call cfg env now c rm)
  end.

(** The amounts passed to [updateDailyPnL] by the calls, in order. *)
Fixpoint booked (calls : list (Date * Call)) : list float :=
  match calls with
  | [] => []
  | (_, UpdateDailyPnL pnl) :: calls => pnl :: booked calls
  | _ :: calls => booked calls
  end.

(** [dailyPnL += pnl] for each amount in turn. *)
Definition accumulate (start : float) (amounts : list float) : float :=
  fold_left (fun dailyPnL pnl => dailyPnL + pnl) amounts start.

(** *** agents/agent3-executor.ts *)

(** [calculateQuantity]; [Math.pow(10, 3)] is 1000. *)
Definition calculateQuantity (strategy : TradingStrategy) : float :=
  let notionalValue := positionSize strategy in
  let rawQuantity := notionalValue / entryPrice strategy in
  let stepSize :=
    if bool_decide (symbol strategy = "BTCUSDT") then 0.001 else 0.001 in
  let minQuantity :=
    if bool_decide (symbol strategy = "BTCUSDT") then 0.001 else 0.001 in
  (* Round down to step size to avoid exceeding position size *)
  let roundedQuantity := Math_floor (rawQuantity / stepSize) * stepSize in
  (* Ensure minimum quantity *)
  let roundedQuantity :=
    if roundedQuantity <? minQuantity then minQuantity
    else roundedQuantity in
  (* Round to precision *)
  let finalQuantity := Math_round (roundedQuantity * 1000) / 1000 in
  finalQuantity.

(** [actualNotional] of [calculateQuantity]: what the order is worth. *)
Definition actualNotional (strategy : TradingStrategy) : float :=
  calculateQuantity strategy * entryPrice strategy.

(** *** services/claude.service.ts *)

Module ClaudeService.

(** [MarketData], by the fields the strategy builder reads. *)
Record MarketData := mkMarketData {
  md_symbol : string;
  md_price : float;
  md_fundingRate : float;
}.

(** The object parsed from the model's answer to agent 1, by the fields
    read.  Nothing checks it: a numeric field is the number it converts to
    where the code computes with it, NaN when it is absent or not
    numeric; [side] is taken to be one of the two sides the prompt asks
    for. *)
Record StrategyData := mkStrategyData {
  sd_side : PositionSide;
  sd_entryPrice : float;
  sd_leverage : float;
  sd_positionSize : float;
  sd_stopLossPercentage : float;
  sd_takeProfitPercentage : float;
  sd_confidence : float;
  sd_riskScore : float;
}.

(** The fallback of the inner [catch]. *)
Definition fallbackStrategy (marketData : MarketData) : StrategyData :=
  {| sd_side := if gtb (md_fundingRate marketData) 0 then LONG else SHORT;
     sd_entryPrice := md_price marketData;
     sd_leverage := 5;
     sd_positionSize := 100;
     sd_stopLossPercentage := 3;
     sd_takeProfitPercentage := 6;
     sd_confidence := 60;
     sd_riskScore := 5 |}.

(** [analyzeMarketAndGenerateStrategy], given what came back from the
    model: [Throw] when the request fails or the content is not text,
    [Ok None] when no JSON object can be parsed from the text, [Ok (Some d)]
    when one can. *)
Definition analyzeMarketAndGenerateStrategy (cfg : TradingConfig)
    (marketData : MarketData) (response : result (option StrategyData))
    : result TradingStrategy :=
  match response with
  | Throw error => Throw error
  | Ok parsed =>
      let strategyData :=
        match parsed with
        | Some strategyData => strategyData
        | None => fallbackStrategy marketData
        end in
      Ok {| symbol := md_symbol marketData;
            side := sd_side strategyData;
            entryPrice := sd_entryPrice strategyData;
            leverage := Math_min (sd_leverage strategyData) (maxLeverage cfg);
            positionSize :=
              Math_min (sd_positionSize strategyData) (maxPositionSize cfg);
            stopLossPercentage := sd_stopLossPercentage strategyData;
            takeProfitPercentage := sd_takeProfitPercentage strategyData;
            confidence := sd_confidence strategyData;
            riskScore := sd_riskScore strategyData |}
  end.

End ClaudeService.

End Binary64.

(** Sample data on binary64 numbers. *)
Module Scenario64.
Import Binary64.
#[local] Open Scope float_scope.



(** A strategy whose position size is not a number, as after halving the
    size of an optimizer answer that carries none. *)
Definition unsized : TradingStrategy :=
  {| symbol := "BTCUSDT"; side := LONG; entryPrice := 100; leverage := 2;
     positionSize := nan; stopLossPercentage := 2;
     takeProfitPercentage := 4; confidence := 80; riskScore := 3 |}.

Definition sized (positionSize entryPrice : float) : TradingStrategy :=
  {| symbol := "BTCUSDT"; side := LONG; entryPrice := entryPrice;
     leverage := 2; positionSize := positionSize; stopLossPercentage := 2;
     takeProfitPercentage := 4; confidence := 80; riskScore := 3 |}.

Definition market : ClaudeService.MarketData :=
  {| ClaudeService.md_symbol := "BTCUSDT";
     ClaudeService.md_price := 100;
     ClaudeService.md_fundingRate := 0.0001 |}.

(** An answer of the model that names no leverage and asks for twice the
    maximum notional. *)
Definition answer_without_leverage : ClaudeService.StrategyData :=
  {| ClaudeService.sd_side := LONG;
     ClaudeService.sd_entryPrice := 100;
     ClaudeService.sd_leverage := nan;
     ClaudeService.sd_positionSize := 200;
     ClaudeService.sd_stopLossPercentage := 3;
     ClaudeService.sd_takeProfitPercentage := 6;
     ClaudeService.sd_confidence := 70;
     ClaudeService.sd_riskScore := 4 |}.

(** The strategy built from it. *)
Definition built_without_leverage : TradingStrategy :=
  {| symbol := "BTCUSDT"; side := LONG; entryPrice := 100; leverage := nan;
     positionSize := 100; stopLossPercentage := 3;
     takeProfitPercentage := 6; confidence := 70; riskScore := 4 |}.

End Scenario64.

(** ** Sample data *)

Module Scenario.

Definition jan15 : Date := {| getFullYear := 2024; getMonth := 0; getDate := 15 |}.
Definition feb15 : Date := {| getFullYear := 2024; getMonth := 1; getDate := 15 |}.

(** The default configuration: no environment variable set. *)
Definition cfg : TradingConfig := config_trading env_unset.

Definition btc_long : TradingStrategy :=
  {| symbol := "BTCUSDT"; side := LONG; entryPrice := 100; leverage := 2;
     positionSize := 50;
     stopLoss := {| sl_type := TRAILING; sl_percentage := 2 |};
     takeProfit := {| tp_type := TP_FIXED; tp_percentage := 40 |};
     confidence := 80; riskScore := 3 |}.

(** A candidate for a symbol outside [allowedSymbols]. *)
Definition doge_long : TradingStrategy :=
  {| symbol := "DOGEUSDT"; side := LONG; entryPrice := 100; leverage := 2;
     positionSize := 50;
     stopLoss := {| sl_type := FIXED; sl_percentage := 2 |};
     takeProfit := {| tp_type := TP_FIXED; tp_percentage := 4 |};
     confidence := 80; riskScore := 3 |}.

(** A candidate that breaks both ceilings of the default configuration
    (leverage 10 above 5, notional 150 above 100). *)
Definition doge_oversized : TradingStrategy :=
  {| symbol := "DOGEUSDT"; side := LONG; entryPrice := 100; leverage := 10;
     positionSize := 150;
     stopLoss := {| sl_type := FIXED; sl_percentage := 2 |};
     takeProfit := {| tp_type := TP_FIXED; tp_percentage := 4 |};
     confidence := 80; riskScore := 3 |}.

Definition eth_long : TradingStrategy :=
  {| symbol := "ETHUSDT"; side := LONG; entryPrice := 4000; leverage := 2;
     positionSize := 50;
     stopLoss := {| sl_type := FIXED; sl_percentage := 2 |};
     takeProfit := {| tp_type := TP_FIXED; tp_percentage := 4 |};
     confidence := 80; riskScore := 3 |}.

Definition sol_long : TradingStrategy :=
  {| symbol := "SOLUSDT"; side := LONG; entryPrice := 180; leverage := 2;
     positionSize := 50;
     stopLoss := {| sl_type := FIXED; sl_percentage := 2 |};
     takeProfit := {| tp_type := TP_FIXED; tp_percentage := 4 |};
     confidence := 80; riskScore := 3 |}.

(** Four open positions, one of them for DOGEUSDT. *)
Definition four_positions : list Position :=
  [ Agent3Executor.newPosition 0 doge_long;
    Agent3Executor.newPosition 0 btc_long;
    Agent3Executor.newPosition 0 eth_long;
    Agent3Executor.newPosition 0 sol_long ].

(** The executor right after [btc_long] was executed at time 0 and its
    monitoring started with timer handle 1. *)
Definition monitoring_btc : Agent3Executor.World :=
  Agent3Executor.startMonitoring 1 "BTCUSDT"
    {| Agent3Executor.agent :=
         {| Agent3Executor.activeMonitoring := ∅;
            Agent3Executor.activePositions :=
              {[ "BTCUSDT"%string := Agent3Executor.newPosition 0 btc_long ]} |};
       Agent3Executor.subscriptions := ∅;
       Agent3Executor.intervals := ∅;
       Agent3Executor.closing := [];
       Agent3Executor.orders := [];
       Agent3Executor.risk := RiskManager.new jan15 |}.

(** A long position whose stop (98) lies above its target (97): at a price
    between the two both triggers hold. *)
Definition crossed : Position :=
  {| pos_symbol := "BTCUSDT"; pos_side := LONG; pos_entryPrice := 100;
     pos_currentPrice := 100; pos_size := 50; pos_leverage := 2;
     pos_unrealizedPnL := 0; pos_realizedPnL := 0;
     pos_stopLoss := 98; pos_takeProfit := 97;
     pos_isTrailingSL := false; pos_openTime := 0; pos_lastUpdateTime := 0 |}.

Definition monitoring_crossed : Agent3Executor.World :=
  Agent3Executor.setPosition "BTCUSDT" crossed monitoring_btc.

(** Collaborators of a cycle: an oracle that is down, one that proposes
    [btc_long], a wallet of 1000, an optimizer that keeps the candidate,
    an executor that does nothing, a clock that stands still. *)
Definition oracle_down (symbol : string) : result TradingStrategy :=
  Throw "oracle unavailable".
Definition oracle_btc (symbol : string) : result TradingStrategy :=
  Ok btc_long.
Definition wallet : result Q := Ok 1000.
Definition keep (strategy : TradingStrategy) (positions : list Position)
    : result TradingStrategy := Ok strategy.
Definition oracle_fails (strategy : TradingStrategy)
    (positions : list Position) : result TradingStrategy :=
  Throw "model unavailable".
Definition idle (strategy : TradingStrategy) (w : Agent3Executor.World)
    : result unit * Agent3Executor.World := (Ok tt, w).
Definition broken (strategy : TradingStrategy) (w : Agent3Executor.World)
    : result unit * Agent3Executor.World := (Throw "order refused", w).
Definition still (a : AgentType) : Z := 0%Z.

End Scenario.

(** * Further code *)

(** ** Sequences of calls on the risk manager *)

Module RiskManagerCalls.

(** The public methods of [RiskManager] that touch the daily counters. *)
Inductive Call :=
| IsDailyLossLimitExceeded
| UpdateDailyPnL (pnl : Q)
| AssessRisk (strategy : TradingStrategy) (currentPositions : list Position)
| GetDailyStats.

(** The manager after one call made at date [now]. *)
Definition call (cfg : TradingConfig) (env : ProcessEnv) (now : Date)
    (c : Call) (rm : RiskManager.t) : RiskManager.t :=
  match c with
  | IsDailyLossLimitExceeded =>
      (RiskManager.isDailyLossLimitExceeded cfg now rm).2
  | UpdateDailyPnL pnl => RiskManager.updateDailyPnL now pnl rm
  | AssessRisk strategy currentPositions =>
      (RiskManager.assessRisk cfg env now strategy currentPositions rm).2
  | GetDailyStats => (RiskManager.getDailyStats now rm).2
  end.

(** The manager after a sequence of dated calls. *)
Fixpoint run (cfg : TradingConfig) (env : ProcessEnv)
    (calls : list (Date * Call)) (rm : RiskManager.t) : RiskManager.t :=
  match calls with
  | [] => rm
  | (now, c) :: calls => run cfg env calls (call cfg env now c rm)
  end.

End RiskManagerCalls.

(** ** services/claude.service.ts *)

Module ClaudeService.

(** [optimizationData.optimizations] of the model's answer to agent 2. *)
Record Optimizations := mkOptimizations {
  opt_entryPrice : Q;
  opt_leverage : Q;
  opt_positionSize : Q;
  opt_stopLoss : StopLossConfig;
  opt_takeProfit : TakeProfitConfig;
}.

(** [optimizeStrategy], given what came back from the model: [Throw] when
    the request fails, the content is not text or no JSON can be parsed
    (nothing is caught here), [Ok o] otherwise. *)
Definition optimizeStrategy (initialStrategy : TradingStrategy)
    (response : result Optimizations) : result TradingStrategy :=
  match response with
  | Throw error => Throw error
  | Ok optimizations =>
      Ok {| symbol := symbol initialStrategy;
            side := side initialStrategy;
            entryPrice := opt_entryPrice optimizations;
            leverage := opt_leverage optimizations;
            positionSize := opt_positionSize optimizations;
            stopLoss := opt_stopLoss optimizations;
            takeProfit := opt_takeProfit optimizations;
            confidence := confidence initialStrategy;
            riskScore := riskScore initialStrategy |}
  end.

End ClaudeService.

(** ** agents/agent2-optimizer.ts, continued *)

(** [Math.max] and [Math.ceil]. *)
Definition Math_max (a b : Q) : Q := if Qle_bool a b then b else a.
Definition Math_ceil (a : Q) : Q := inject_Z (Qceiling a).

Module Agent2Steps.

(** The first gate of [execute] that fires, with the reason it returns. *)
Definition gate (cfg : TradingConfig) (initialStrategy : TradingStrategy)
    (currentPositions : list Position) : option Reason :=
  if (Z.of_nat (length currentPositions) >=? maxConcurrentPositions cfg)%Z
  then Some (MaxPositionsAlreadyOpen (maxConcurrentPositions cfg))
  else if RiskManager.hasDuplicate initialStrategy currentPositions
  then Some (AlreadyHaveOpenPosition (symbol initialStrategy))
  else if negb (bool_decide (symbol initialStrategy ∈ allowedSymbols cfg))
  then Some (SymbolNotAllowed (symbol initialStrategy) (allowedSymbols cfg))
  else None.

(** The candidate after Step 1 of [execute] (auto-adjusted size). *)
Definition sized (cfg : TradingConfig) (initialStrategy : TradingStrategy)
    (walletBalance : option Q) : TradingStrategy :=
  match Agent2Optimizer.truthy walletBalance with
  | Some walletBalance =>
      Agent2Optimizer.setPositionSize initialStrategy
        (Math_min (walletBalance * (positionSizePercent cfg / 100))
                  (maxPositionSize cfg))
  | None => initialStrategy
  end.

(** [calculateTPSL]: the two protective prices of a strategy. *)
Definition calculateTPSL (strategy : TradingStrategy) : Q * Q :=
  (RiskManager.calculateStopLoss (entryPrice strategy) (side strategy)
     (sl_percentage (stopLoss strategy)),
   RiskManager.calculateTakeProfit (entryPrice strategy) (side strategy)
     (tp_percentage (takeProfit strategy))).

(** [{ ...strategy, leverage, positionSize, stopLoss: { ...,
    percentage }, takeProfit: { ..., percentage } }] *)
Definition variant (strategy : TradingStrategy)
    (leverage' positionSize' sl tp : Q) : TradingStrategy :=
  {| symbol := symbol strategy; side := side strategy;
     entryPrice := entryPrice strategy;
     leverage := leverage'; positionSize := positionSize';
     stopLoss := {| sl_type := sl_type (stopLoss strategy);
                    sl_percentage := sl |};
     takeProfit := {| tp_type := tp_type (takeProfit strategy);
                      tp_percentage := tp |};
     confidence := confidence strategy; riskScore := riskScore strategy |}.

Definition generateAlternatives (strategy : TradingStrategy)
    : list TradingStrategy :=
  (* Alternative 1: Conservative *)
  let conservative :=
    variant strategy
      (Math_max 1 (Math_floor (leverage strategy / 2)))
      (positionSize strategy * 0.75)
      (sl_percentage (stopLoss strategy) * 0.75)
      (tp_percentage (takeProfit strategy) * 0.75) in
  (* Alternative 2: Aggressive *)
  let aggressive :=
    variant strategy
      (Math_min 20 (Math_ceil (leverage strategy * 1.5)))
      (positionSize strategy * 1.25)
      (sl_percentage (stopLoss strategy) * 1.25)
      (tp_percentage (takeProfit strategy) * 1.5) in
  conservative
  :: (if Qltb (leverage strategy) 15 then [aggressive] else []).

End Agent2Steps.

(** ** More sample data *)

Module Samples.

(** An answer of the optimizing model: tighter entry, a trailing stop. *)
Definition optimizations : ClaudeService.Optimizations :=
  {| ClaudeService.opt_entryPrice := 101;
     ClaudeService.opt_leverage := 3;
     ClaudeService.opt_positionSize := 40;
     ClaudeService.opt_stopLoss := {| sl_type := TRAILING; sl_percentage := 2 |};
     ClaudeService.opt_takeProfit := {| tp_type := TP_FIXED; tp_percentage := 5 |} |}.

Definition answer (s : TradingStrategy) (ps : list Position)
    : result ClaudeService.Optimizations := Ok optimizations.

Definition jan16 : Date := {| getFullYear := 2024; getMonth := 0; getDate := 16 |}.

End Samples.

(** ** agents/agent3-executor.ts, continued *)

Module Agent3Trading.
Import Agent3Executor.

Inductive OrderSide := BUY | SELL.
Inductive OrderType := MARKET | LIMIT | STOP_MARKET | TAKE_PROFIT_MARKET.

(** [AsterOrder], as passed to [asterService.createOrder]; [timeInForce]
    is 'GTC' when present. *)
Record AsterOrder := mkOrder {
  o_symbol : string;
  o_side : OrderSide;
  o_type : OrderType;
  o_quantity : Q;
  o_price : option Q;
  o_stopPrice : option Q;
  o_reduceOnly : bool;
  o_timeInForce : bool;
}.

(** The execution plan of the model, by the fields read; a missing
    [executionType] or [limitPrice] is [None]. *)
Record ExecutionPlan := mkPlan {
  shouldExecute : bool;
  executionType : option OrderType;
  limitPrice : option Q;
}.

Record Trade := mkTrade {
  t_orderId : string;
  t_symbol : string;
  t_side : OrderSide;
  t_type : OrderType;
  t_price : Q;
  t_quantity : Q;
}.

(** [Agent3Output], by its trades, its position and [monitoringStatus.isActive]. *)
Record Output := mkOutput {
  executedTrades : list Trade;
  activePosition : option Position;
  isActive : bool;
}.

(** The executor and the orders handed to [asterService.createOrder],
    oldest first. *)
Record Desk := mkDesk {
  world : World;
  placed : list AsterOrder;
}.

(** What the exchange answers during one [execute]:
    - [plan]: the outcome of [claudeService.generateExecutionPlan];
    - [existing]: the positions returned by [getPositions], as symbol and
      [parseFloat(positionAmt)];
    - [entryOrder], [stopOrder], [targetOrder]: the outcomes of the three
      [createOrder] calls (the order id when placed);
    - [timer]: the handle that [setInterval] returns;
    - [clock]: the time of the [new Date()] calls. *)
Record Answers := mkAnswers {
  plan : result ExecutionPlan;
  existing : list (string * Q);
  entryOrder : result string;
  stopOrder : result string;
  targetOrder : result string;
  timer : Z;
  clock : Z;
}.

Definition entrySide (side : PositionSide) : OrderSide :=
  match side with LONG => BUY | SHORT => SELL end.

Definition exitSide (side : PositionSide) : OrderSide :=
  match side with LONG => SELL | SHORT => BUY end.

Definition place (order : AsterOrder) (d : Desk) : Desk :=
  {| world := world d; placed := placed d ++ [order] |}.

(** The main order of [executeTrade]. *)
Definition entryOrderParams (strategy : TradingStrategy)
    (executionPlan : ExecutionPlan) : AsterOrder :=
  let limit :=
    match executionType executionPlan, limitPrice executionPlan with
    | Some LIMIT, Some p => if Qeq_bool p 0 then None else Some p
    | _, _ => None
    end in
  {| o_symbol := symbol strategy;
     o_side := entrySide (side strategy);
     o_type := default MARKET (executionType executionPlan);
     o_quantity := calculateQuantity strategy;
     o_price := limit;
     o_stopPrice := None;
     o_reduceOnly := false;
     o_timeInForce := match limit with Some _ => true | None => false end |}.

Definition hasExistingPosition (strategy : TradingStrategy)
    (existingPositions : list (string * Q)) : bool :=
  existsb (fun pos => bool_decide (pos.1 = symbol strategy)
                      && Qgtb (Qabs pos.2) 0)
          existingPositions.

Definition executeTrade (strategy : TradingStrategy)
    (executionPlan : ExecutionPlan) (a : Answers) (d : Desk)
    : result (list Trade) * Desk :=
  if hasExistingPosition strategy (existing a)
  then (Throw ("Already have position for " +:+ symbol strategy
               +:+ ", skipping to avoid duplicate orders"), d)
  else
    let d := place (entryOrderParams strategy executionPlan) d in
    match entryOrder a with
    | Throw e => (Throw e, d)
    | Ok orderId =>
        let trade :=
          {| t_orderId := orderId;
             t_symbol := symbol strategy;
             t_side := entrySide (side strategy);
             t_type := default MARKET (executionType executionPlan);
             t_price := entryPrice strategy;
             t_quantity := calculateQuantity strategy |} in
        let position := newPosition (clock a) strategy in
        (Ok [trade],
         {| world := setPosition (symbol strategy) position (world d);
            placed := placed d |})
    end.

Definition stopLossOrder (strategy : TradingStrategy) : AsterOrder :=
  {| o_symbol := symbol strategy;
     o_side := exitSide (side strategy);
     o_type := STOP_MARKET;
     o_quantity := calculateQuantity strategy;
     o_price := None;
     o_stopPrice :=
       Some (RiskManager.calculateStopLoss (entryPrice strategy)
               (side strategy) (sl_percentage (stopLoss strategy)));
     o_reduceOnly := true;
     o_timeInForce := true |}.

Definition takeProfitOrder (strategy : TradingStrategy) : AsterOrder :=
  {| o_symbol := symbol strategy;
     o_side := exitSide (side strategy);
     o_type := TAKE_PROFIT_MARKET;
     o_quantity := calculateQuantity strategy;
     o_price := None;
     o_stopPrice :=
       Some (RiskManager.calculateTakeProfit (entryPrice strategy)
               (side strategy) (tp_percentage (takeProfit strategy)));
     o_reduceOnly := true;
     o_timeInForce := true |}.

(** [setupTPSL]: both orders are placed inside one [try]; a failure is
    logged and swallowed. *)
Definition setupTPSL (strategy : TradingStrategy) (a : Answers) (d : Desk)
    : Desk :=
  let d := place (stopLossOrder strategy) d in
  match stopOrder a with
  | Throw _ => d
  | Ok _ => place (takeProfitOrder strategy) d
  end.

Definition execute (strategy : TradingStrategy) (a : Answers) (d : Desk)
    : result Output * Desk :=
  match plan a with
  | Throw e => (Throw e, d)
  | Ok executionPlan =>
      if negb (shouldExecute executionPlan)
      then (Ok {| executedTrades := []; activePosition := None;
                  isActive := false |}, d)
      else
        match executeTrade strategy executionPlan a d with
        | (Throw e, d) => (Throw e, d)
        | (Ok executedTrades, d) =>
            let d := setupTPSL strategy a d in
            let d :=
              {| world := startMonitoring (timer a) (symbol strategy) (world d);
                 placed := placed d |} in
            (Ok {| executedTrades := executedTrades;
                   activePosition :=
                     activePositions (agent (world d)) !! symbol strategy;
                   isActive := true |}, d)
        end
  end.

(** [stopAllMonitoring]: [stopMonitoring] for every monitored symbol. *)
Definition stopAllMonitoring (w : World) : World :=
  fold_left (fun w entry => stopMonitoring entry.1 w)
            (map_to_list (activeMonitoring (agent w))) w.

(** A sequence of price ticks of one symbol, handled in order. *)
Definition onPriceUpdates (symbol : string) (ticks : list (Z * Q)) (w : World)
    : World :=
  fold_left (fun w tick => onPriceUpdate tick.1 symbol tick.2 w) ticks w.

End Agent3Trading.

Module Samples3.

Definition empty_world : Agent3Executor.World :=
  {| Agent3Executor.agent :=
       {| Agent3Executor.activeMonitoring := ∅;
          Agent3Executor.activePositions := ∅ |};
     Agent3Executor.subscriptions := ∅;
     Agent3Executor.intervals := ∅;
     Agent3Executor.closing := [];
     Agent3Executor.orders := [];
     Agent3Executor.risk := RiskManager.new Scenario.jan15 |}.

Definition empty_desk : Agent3Trading.Desk :=
  {| Agent3Trading.world := empty_world; Agent3Trading.placed := [] |}.

(** The exchange accepts the entry order and refuses the stop order. *)
Definition stop_refused : Agent3Trading.Answers :=
  {| Agent3Trading.plan :=
       Ok {| Agent3Trading.shouldExecute := true;
             Agent3Trading.executionType := None;
             Agent3Trading.limitPrice := None |};
     Agent3Trading.existing := [];
     Agent3Trading.entryOrder := Ok "1001";
     Agent3Trading.stopOrder := Throw "Order would immediately trigger";
     Agent3Trading.targetOrder := Ok "1003";
     Agent3Trading.timer := 7;
     Agent3Trading.clock := 0 |}.

End Samples3.

(** ** orchestrator.ts, continued *)

Module Orchestration.
Import AgentOrchestrator.

(** [Array.prototype.findIndex]; [None] stands for -1. *)
Fixpoint findIndex {A} (f : A -> bool) (l : list A) : option nat :=
  match l with
  | [] => None
  | x :: l => if f x then Some 0%nat else S <$> findIndex f l
  end.

(** [Array.prototype.filter] with the index argument; [index] is the
    index of the head of [l]. *)
Fixpoint filterIndexed {A} (f : A -> nat -> bool) (index : nat) (l : list A)
    : list A :=
  match l with
  | [] => []
  | x :: l =>
      if f x index then x :: filterIndexed f (S index) l
      else filterIndexed f (S index) l
  end.

(** Remove duplicates by timestamp: an entry is kept when its index is the
    first index of an entry with its timestamp. *)
Definition unique (allHistory : list AgentMessage) : list AgentMessage :=
  filterIndexed
    (fun msg index =>
       bool_decide
         (findIndex (fun m => (msg_timestamp m =? msg_timestamp msg)%Z)
                    allHistory
          = Some index))
    0 allHistory.

(** The order of [unique.sort((a, b) => time(b) - time(a))]: newest first. *)
Definition newerFirst (a b : AgentMessage) : Prop :=
  (msg_timestamp b <= msg_timestamp a)%Z.

#[global] Instance newerFirst_dec a b : Decision (newerFirst a b).
Proof. unfold newerFirst. apply _. Defined.

(** [getConversationHistory]: the entries of the history file followed by
    those of the session, without duplicate timestamps, newest first.  The
    source sorts with [Array.prototype.sort]; the entries it sorts have
    distinct timestamps, so the sorted array does not depend on the
    algorithm. *)
Definition getConversationHistory (s : t) : list AgentMessage :=
  let persistentHistory := conversationsFile s in
  let allHistory := persistentHistory ++ conversationHistory s in
  merge_sort newerFirst (unique allHistory).

(** The orchestrator with the handle of its cycle timer. *)
Record Service := mkService {
  core : t;
  cycleInterval : option Z;
}.

Definition setRunning (b : bool) (s : t) : t :=
  {| isRunning := b;
     conversationHistory := conversationHistory s;
     conversationsFile := conversationsFile s;
     fileWritable := fileWritable s;
     cycleFailures := cycleFailures s;
     world := world s |}.

Definition setWorld (w : Agent3Executor.World) (s : t) : t :=
  {| isRunning := isRunning s;
     conversationHistory := conversationHistory s;
     conversationsFile := conversationsFile s;
     fileWritable := fileWritable s;
     cycleFailures := cycleFailures s;
     world := w |}.

Section Lifecycle.
(** One cycle, as [runCycle symbol] with its collaborators supplied. *)
Variable cycle : string -> M unit.
(** [config.agents.autoTradingEnabled] and the handle [setInterval]
    returns. *)
Variable autoTradingEnabled : bool.
Variable timer : Z.

Definition start (symbol : string) (v : Service) : result unit * Service :=
  if isRunning (core v) then (Ok tt, v)
  else
    let '(r, s) := cycle symbol (setRunning true (core v)) in
    match r with
    | Throw e => (Throw e, {| core := s; cycleInterval := cycleInterval v |})
    | Ok _ =>
        (Ok tt,
         {| core := s;
            cycleInterval :=
              if autoTradingEnabled then Some timer else cycleInterval v |})
    end.

Definition stop (v : Service) : Service :=
  if negb (isRunning (core v)) then v
  else
    {| core :=
         setRunning false
           (setWorld (Agent3Trading.stopAllMonitoring (world (core v)))
                     (core v));
       cycleInterval := None |}.

End Lifecycle.

End Orchestration.

(** ** The history of positions (database/history.ts) *)

Module HistoryManager.
Import Orchestration.

(** The values of the fields read or written here: strings and numbers. *)
Inductive Value := Str (s : string) | Num (q : Q).

(** A stored position is a JSON object: the map of its fields. *)
Abbreviation Entry := (gmap string Value).

(** [a === b] on the value of a field; [None] is [undefined]. *)
Definition strictEq (a b : option Value) : bool :=
  match a, b with
  | None, None => true
  | Some (Str s), Some (Str s') => bool_decide (s = s')
  | Some (Num q), Some (Num q') => Qeq_bool q q'
  | _, _ => false
  end.

(** data/positions.json, and whether a write to it succeeds. *)
Record t := mk {
  positionsFile : list Entry;
  fileWritable : bool;
}.

Definition getPositions (h : t) : list Entry := positionsFile h.

(** [fs.writeFileSync] inside the [try]: a failed write is swallowed. *)
Definition writeFile (positions : list Entry) (h : t) : t :=
  if fileWritable h
  then {| positionsFile := positions; fileWritable := fileWritable h |}
  else h.

(** [savePosition(position)] at time [now] (an ISO string). *)
Definition savePosition (now : string) (position : Entry) (h : t) : t :=
  let positions := getPositions h in
  (* Check if position already exists *)
  let existingIndex :=
    findIndex (fun p => strictEq (p !! "id") (position !! "id")) positions in
  let positions :=
    match existingIndex with
    | Some existingIndex =>
        <[existingIndex := <["updatedAt" := Str now]> position]> positions
    | None => positions ++ [<["createdAt" := Str now]> position]
    end in
  (* Keep last 500 positions *)
  let positions :=
    if (500 <? length positions)%nat
    then drop (length positions - 500) positions
    else positions in
  writeFile positions h.

(** [closePosition(positionId, finalPnL)] at time [now]: the first stored
    position with this id is marked, in place, and the file rewritten. *)
Definition closePosition (now : string) (positionId : string) (finalPnL : Q)
    (h : t) : t :=
  let positions := getPositions h in
  let found :=
    findIndex (fun p => strictEq (p !! "id") (Some (Str positionId)))
              positions in
  match found with
  | Some index =>
      writeFile
        (alter (fun position =>
                  <["closedAt" := Str now]>
                    (<["finalPnL" := Num finalPnL]>
                       (<["status" := Str "CLOSED"]> position)))
               index positions)
        h
  | None => h
  end.

End HistoryManager.

(** ** Placing an order (services/aster.service.ts) *)

Module AsterService.
Import Agent3Trading.

(** The outcome of one POST /fapi/v1/order: the order id of the response,
    or the error of the request with [error.response?.data?.code] and
    [error.message]. *)
Inductive Reply :=
| Placed (orderId : string)
| Refused (code : option Z) (message : string).

(** [error.response?.data?.code] of a reply, [None] when there is none. *)
Definition refusalCode (r : Reply) : option Z :=
  match r with
  | Placed _ => None
  | Refused code _ => code
  end.

(** What [createOrder] throws:
    - [RequestError]: the error of a request, rethrown as it is;
    - [BalanceError b]: the error raised when the available balance [b]
      is below 20;
    - [MarginError cause]: the new error whose message is the margin
      notice followed by the message of [cause]. *)
Inductive Error :=
| RequestError (code : option Z) (message : string)
| BalanceError (availableBalance : Q)
| MarginError (cause : Error).

(** A quantity or a price of an order: [number | string] in the source
    (the executor passes strings). *)
Inductive Amount :=
| Number (x : float)
| Text (s : string).

(** The truthiness of an amount: a number other than 0, -0 and NaN, a
    string other than the empty one. *)
Definition truthy (v : Amount) : bool :=
  match v with
  | Number x => negb (is_zero x || is_nan x)
  | Text s => negb (bool_decide (s = EmptyString))
  end.

(** [AsterOrder]; [ord_timeInForce] tells whether 'GTC' is set. *)
Record AsterOrder := mkAsterOrder {
  ord_symbol : string;
  ord_side : OrderSide;
  ord_type : OrderType;
  ord_quantity : Amount;
  ord_price : option Amount;
  ord_stopPrice : option Amount;
  ord_timeInForce : bool;
  ord_reduceOnly : bool;
  ord_postOnly : bool;
}.

(** [...(x && { field: x })]: the field is copied when it is set and
    truthy. *)
Definition whenTruthy (x : option Amount) : option Amount :=
  match x with
  | Some v => if truthy v then Some v else None
  | None => None
  end.

(** The parameters sent for an order. *)
Definition orderParams (order : AsterOrder) : AsterOrder :=
  {| ord_symbol := ord_symbol order;
     ord_side := ord_side order;
     ord_type := ord_type order;
     ord_quantity := ord_quantity order;
     ord_price := whenTruthy (ord_price order);
     ord_stopPrice := whenTruthy (ord_stopPrice order);
     ord_timeInForce := ord_timeInForce order;
     ord_reduceOnly := ord_reduceOnly order;
     ord_postOnly := ord_postOnly order |}.

(** [orderParams.quantity = '0.001'] *)
Definition setMinimumQuantity (p : AsterOrder) : AsterOrder :=
  {| ord_symbol := ord_symbol p;
     ord_side := ord_side p;
     ord_type := ord_type p;
     ord_quantity := Text "0.001";
     ord_price := ord_price p;
     ord_stopPrice := ord_stopPrice p;
     ord_timeInForce := ord_timeInForce p;
     ord_reduceOnly := ord_reduceOnly p;
     ord_postOnly := ord_postOnly p |}.

Section CreateOrder.
(** The exchange during one [createOrder]:
    - [replies n]: the outcome of the order request sent after [n]
      earlier ones;
    - [availableBalance]: the number
      [parseFloat(accountInfo?.availableBalance || '0')] read after a
      margin refusal, which is 0 when [getAccountInfo] failed or the
      field is missing, and [None] when it is NaN. *)
Variable replies : nat -> Reply.
Variable availableBalance : option Q.
(** [parseFloat(x.toString()).toFixed(2)]: the string that the source
    writes for a price when it retries after a precision error. *)
Variable toFixed2 : Amount -> string.

(** [if (orderParams.price) orderParams.price = ...toFixed(2)], and the
    same for [stopPrice]. *)
Definition adjust (x : option Amount) : option Amount :=
  match x with
  | Some v => if truthy v then Some (Text (toFixed2 v)) else Some v
  | None => None
  end.

Definition adjustPrecision (p : AsterOrder) : AsterOrder :=
  {| ord_symbol := ord_symbol p;
     ord_side := ord_side p;
     ord_type := ord_type p;
     ord_quantity := ord_quantity p;
     ord_price := adjust (ord_price p);
     ord_stopPrice := adjust (ord_stopPrice p);
     ord_timeInForce := ord_timeInForce p;
     ord_reduceOnly := ord_reduceOnly p;
     ord_postOnly := ord_postOnly p |}.

(** [authenticatedRequest('POST', '/fapi/v1/order', params)]; [posted] is
    the list of the order requests sent, oldest first. *)
Definition post (params : AsterOrder) (posted : list AsterOrder)
    : Reply * list AsterOrder :=
  (replies (length posted), posted ++ [params]).

Definition createOrder (order : AsterOrder) (posted : list AsterOrder)
    : (string + Error) * list AsterOrder :=
  let params := orderParams order in
  match post params posted with
  | (Placed orderId, posted) => (inl orderId, posted)
  | (Refused code message, posted) =>
      if bool_decide (code = Some (-2019)%Z) then
        (* Insufficient margin: check the balance, retry with minimum size *)
        match availableBalance with
        | Some balance =>
            if Qltb balance 20
            then (inr (MarginError (BalanceError balance)), posted)
            else
              match post (setMinimumQuantity params) posted with
              | (Placed orderId, posted) => (inl orderId, posted)
              | (Refused code message, posted) =>
                  (inr (MarginError (RequestError code message)), posted)
              end
        | None =>
            match post (setMinimumQuantity params) posted with
            | (Placed orderId, posted) => (inl orderId, posted)
            | (Refused code message, posted) =>
                (inr (MarginError (RequestError code message)), posted)
            end
        end
      else if bool_decide (code = Some (-1111)%Z) then
        (* Price precision error: round the prices and retry *)
        match post (adjustPrecision params) posted with
        | (Placed orderId, posted) => (inl orderId, posted)
        | (Refused code message, posted) =>
            (inr (RequestError code message), posted)
        end
      else (inr (RequestError code message), posted)
  end.

End CreateOrder.

End AsterService.

(** * Properties *)

(** ** Comparisons and rounding *)

Lemma Qgtb_true (a b : Q) : Qgtb a b = true <-> b < a.
Proof.
  unfold Qgtb. rewrite negb_true_iff, <- not_true_iff_false, Qle_bool_iff.
  split; [apply Qnot_le_lt | apply Qlt_not_le].
Qed.

Lemma Qgtb_false (a b : Q) : Qgtb a b = false <-> a <= b.
Proof. unfold Qgtb. rewrite negb_false_iff. apply Qle_bool_iff. Qed.

Lemma Qltb_true (a b : Q) : Qltb a b = true <-> a < b.
Proof. apply (Qgtb_true b a). Qed.

Lemma Qltb_false (a b : Q) : Qltb a b = false <-> b <= a.
Proof. apply (Qgtb_false b a). Qed.

Lemma Qgeb_true (a b : Q) : Qgeb a b = true <-> b <= a.
Proof. apply Qle_bool_iff. Qed.

(** ** Order on binary64 numbers *)

Section FloatOrder.

Lemma SFcompare_antisym (x y : spec_float) :
  SFcompare y x = option_map CompOpp (SFcompare x y).
Proof.
  destruct x as [sx|sx| |sx mx ex], y as [sy|sy| |sy my ey]; simpl;
    try reflexivity;
    try (destruct sx; reflexivity); try (destruct sy; reflexivity);
    try (destruct sx, sy; reflexivity).
  pose proof (Pos.compare_cont_antisym mx my Eq) as Hm. simpl in Hm.
  destruct sx, sy; simpl; try reflexivity;
    rewrite (Z.compare_antisym ex ey);
    destruct (ex ?= ey)%Z; simpl; try reflexivity;
    rewrite <- Hm; by destruct (Pos.compare_cont Eq mx my).
Qed.

Lemma SFcompare_refl (x : spec_float) :
  SFcompare x x = match x with S754_nan => None | _ => Some Eq end.
Proof.
  destruct x as [s|s| |s m e]; simpl; try reflexivity;
    try (destruct s; reflexivity).
  rewrite Z.compare_refl, Pos.compare_cont_refl. by destruct s.
Qed.


(** A number that is below another one is not NaN, nor is the other. *)
Lemma ltb_is_nan (x y : float) :
  (x <? y)%float = true -> is_nan x = false /\ is_nan y = false.
Proof.
  unfold is_nan. rewrite ltb_spec, !FloatAxioms.eqb_spec.
  unfold SFltb, SFeqb. rewrite !SFcompare_refl.
  destruct (Prim2SF x), (Prim2SF y); simpl; try discriminate; by split.
Qed.

(** Two numbers other than NaN are comparable. *)
Lemma not_ltb_leb (x y : float) :
  is_nan x = false -> is_nan y = false ->
  (y <? x)%float = false -> (x <=? y)%float = true.
Proof.
  unfold is_nan. rewrite leb_spec, ltb_spec, !FloatAxioms.eqb_spec.
  unfold SFleb, SFltb, SFeqb. rewrite !SFcompare_refl.
  rewrite (SFcompare_antisym (Prim2SF x) (Prim2SF y)).
  destruct (Prim2SF x) eqn:Ex, (Prim2SF y) eqn:Ey; try discriminate;
    intros _ _;
    match goal with
    | |- context [SFcompare ?a ?b] =>
        assert (H : is_Some (SFcompare a b))
          by (simpl; repeat case_match; by eexists);
        destruct H as [c ->]; by destruct c
    end.
Qed.

End FloatOrder.

(** ** Stop and target prices *)

Section Prices.
Import Binary64 Binary64.RiskManager.
#[local] Open Scope float_scope.

(** C7.  On the numbers of the source (binary64), for every entry price
    [e] and percentage [p], [calculateStopLoss e LONG p] is
    [e * (1 - p / 100)] and [calculateTakeProfit e LONG p] is
    [e * (1 + p / 100)], with the signs inverted for SHORT, each
    operation rounded as the source rounds it.  For entry 100, LONG, stop
    2% and target 4% the stop price is exactly 98 and the target price
    exactly 104; a tick at 97.50 satisfies the stop trigger
    (price <= stop) and a tick at 104.50 the target trigger
    (price >= target). *)
Theorem stop_and_target_prices (e p : float) :
  calculateStopLoss e LONG p = e * (1 - p / 100)
  /\ calculateTakeProfit e LONG p = e * (1 + p / 100)
  /\ calculateStopLoss e SHORT p = e * (1 + p / 100)
  /\ calculateTakeProfit e SHORT p = e * (1 - p / 100)
  /\ calculateStopLoss 100 LONG 2 = 98
  /\ calculateTakeProfit 100 LONG 4 = 104
  /\ shouldTriggerStopLoss 97.5 (calculateStopLoss 100 LONG 2) LONG = true
  /\ shouldTriggerTakeProfit 104.5 (calculateTakeProfit 100 LONG 4) LONG = true
  /\ (forall price stop : float,
        shouldTriggerStopLoss price stop LONG = (price <=? stop))
  /\ (forall price target : float,
        shouldTriggerTakeProfit price target LONG = (target <=? price)).
Proof.
  repeat apply conj; try reflexivity; intros; reflexivity.
Qed.

(** The products are the rounded ones: 4% below 180 is the double
    172.79999999999998, which a tick at 172.8 does not reach. *)
Example stop_price_is_rounded :
  calculateStopLoss 180 LONG 4 = 172.79999999999998
  /\ shouldTriggerStopLoss 172.8 (calculateStopLoss 180 LONG 4) LONG = false.
Proof. split; reflexivity. Qed.

End Prices.

(** ** The position monitor: one price tick *)

Section Ticks.
Import RiskManager Agent3Executor.

Lemma trailStop_side price p : pos_side (trailStop price p) = pos_side p.
Proof.
  unfold trailStop.
  destruct (pos_isTrailingSL p && Qgtb (pos_unrealizedPnL p) 5); [|done].
  destruct (pos_side p) eqn:E;
    match goal with |- context [if ?b then _ else _] => destruct b end;
    simpl; congruence.
Qed.

(** What the trailing block does to the stored stop: it keeps it, or it
    replaces it by the recomputed value, and then only for a trailing
    position whose unrealized P&L is above 5 and whose recomputed stop is
    strictly better (higher for LONG, lower for SHORT). *)
Lemma trailStop_cases price p :
  let newStopLoss :=
    calculateTrailingStopLoss price (pos_entryPrice p) (pos_side p) 3 in
  pos_stopLoss (trailStop price p) = pos_stopLoss p
  \/ (pos_stopLoss (trailStop price p) = newStopLoss
      /\ pos_isTrailingSL p = true
      /\ 5 < pos_unrealizedPnL p
      /\ match pos_side p with
         | LONG => pos_stopLoss p < newStopLoss
         | SHORT => newStopLoss < pos_stopLoss p
         end).
Proof.
  intros newStopLoss. unfold trailStop. fold newStopLoss.
  destruct (pos_isTrailingSL p) eqn:Et; simpl; [|by left].
  destruct (Qgtb (pos_unrealizedPnL p) 5) eqn:Ep; [|by left].
  apply Qgtb_true in Ep.
  destruct (pos_side p) eqn:Es.
  - destruct (Qgtb newStopLoss (pos_stopLoss p)) eqn:En; [|by left].
    apply Qgtb_true in En. by right.
  - destruct (Qltb newStopLoss (pos_stopLoss p)) eqn:En; [|by left].
    apply Qltb_true in En. by right.
Qed.

Lemma onPriceUpdate_lookup now symbol price w p :
  activePositions (agent w) !! symbol = Some p ->
  activePositions (agent (onPriceUpdate now symbol price w)) !! symbol
  = Some (afterTick now price p).
Proof.
  intros Hp. unfold onPriceUpdate, afterTick. rewrite Hp.
  set (q := updatePrice now price p).
  destruct (shouldTriggerStopLoss price (pos_stopLoss q) (pos_side q)).
  { unfold closePosition. simpl. rewrite lookup_insert_eq. simpl.
    by rewrite lookup_insert_eq. }
  destruct (shouldTriggerTakeProfit price (pos_takeProfit q) (pos_side q)).
  { unfold closePosition. simpl. rewrite lookup_insert_eq. simpl.
    by rewrite lookup_insert_eq. }
  simpl. by rewrite lookup_insert_eq.
Qed.

Lemma onPriceUpdate_absent now symbol price w :
  activePositions (agent w) !! symbol = None ->
  onPriceUpdate now symbol price w = w.
Proof. intros Hp. unfold onPriceUpdate. by rewrite Hp. Qed.

Lemma afterTick_side now price p : pos_side (afterTick now price p) = pos_side p.
Proof.
  unfold afterTick.
  repeat match goal with |- context [if ?b then _ else _] => destruct b end;
    try reflexivity.
  by rewrite trailStop_side.
Qed.

Lemma afterTick_cases now price p :
  let q := updatePrice now price p in
  let newStopLoss :=
    calculateTrailingStopLoss price (pos_entryPrice p) (pos_side p) 3 in
  pos_stopLoss (afterTick now price p) = pos_stopLoss p
  \/ (pos_stopLoss (afterTick now price p) = newStopLoss
      /\ pos_isTrailingSL p = true
      /\ 5 < pos_unrealizedPnL q
      /\ match pos_side p with
         | LONG => pos_stopLoss p < newStopLoss
         | SHORT => newStopLoss < pos_stopLoss p
         end).
Proof.
  intros q newStopLoss. unfold afterTick. fold q.
  destruct (shouldTriggerStopLoss _ _ _); [by left|].
  destruct (shouldTriggerTakeProfit _ _ _); [by left|].
  apply (trailStop_cases price q).
Qed.

Lemma afterTick_long_monotone now price p :
  pos_side p = LONG -> pos_stopLoss p <= pos_stopLoss (afterTick now price p).
Proof.
  intros Hs. pose proof (afterTick_cases now price p) as H. cbv zeta in H.
  destruct H as [E|(E & _ & _ & H)]; rewrite E.
  - apply Qle_refl.
  - rewrite Hs in H |- *. apply Qlt_le_weak, H.
Qed.

Lemma afterTick_short_monotone now price p :
  pos_side p = SHORT -> pos_stopLoss (afterTick now price p) <= pos_stopLoss p.
Proof.
  intros Hs. pose proof (afterTick_cases now price p) as H. cbv zeta in H.
  destruct H as [E|(E & _ & _ & H)]; rewrite E.
  - apply Qle_refl.
  - rewrite Hs in H |- *. apply Qlt_le_weak, H.
Qed.

End Ticks.

(** ** The position monitor: sequences of ticks *)

Section TickSequences.
Import RiskManager Agent3Executor.

Lemma stopHistory_long symbol ticks : forall w p,
  activePositions (agent w) !! symbol = Some p ->
  pos_side p = LONG ->
  length (stopHistory symbol ticks w) = length ticks
  /\ StronglySorted Qle (pos_stopLoss p :: stopHistory symbol ticks w).
Proof.
  induction ticks as [|[now price] ticks IH]; intros w p Hp Hs; simpl.
  { split; [done|]. repeat constructor. }
  rewrite (onPriceUpdate_lookup now symbol price w p Hp).
  destruct (IH _ _ (onPriceUpdate_lookup now symbol price w p Hp)) as [Hl Hsorted].
  { by rewrite afterTick_side. }
  split; [simpl; by rewrite Hl|].
  pose proof (afterTick_long_monotone now price p Hs) as Hle.
  constructor; [exact Hsorted|].
  constructor; [exact Hle|].
  apply StronglySorted_inv in Hsorted as [_ Hall].
  eapply Forall_impl; [exact Hall|].
  intros x Hx. simpl in Hx. eapply Qle_trans; eassumption.
Qed.

Lemma stopHistory_short symbol ticks : forall w p,
  activePositions (agent w) !! symbol = Some p ->
  pos_side p = SHORT ->
  length (stopHistory symbol ticks w) = length ticks
  /\ StronglySorted (flip Qle) (pos_stopLoss p :: stopHistory symbol ticks w).
Proof.
  induction ticks as [|[now price] ticks IH]; intros w p Hp Hs; simpl.
  { split; [done|]. repeat constructor. }
  rewrite (onPriceUpdate_lookup now symbol price w p Hp).
  destruct (IH _ _ (onPriceUpdate_lookup now symbol price w p Hp)) as [Hl Hsorted].
  { by rewrite afterTick_side. }
  split; [simpl; by rewrite Hl|].
  pose proof (afterTick_short_monotone now price p Hs) as Hle.
  constructor; [exact Hsorted|].
  constructor; [exact Hle|].
  apply StronglySorted_inv in Hsorted as [_ Hall].
  eapply Forall_impl; [exact Hall|].
  intros x Hx. unfold flip in *. eapply Qle_trans; eassumption.
Qed.

(** C5.  For a monitored position and every sequence of price ticks
    handled by [onPriceUpdate], the stored stop is recorded after every
    tick and the record, starting from the initial stop, is non-decreasing
    for a LONG position and non-increasing for a SHORT one.  On each tick
    the stop is either kept or replaced by the recomputed trailing stop,
    and it is replaced only for a trailing position whose unrealized P&L
    is above 5 (percent) and whose recomputed stop is strictly higher
    (LONG) or strictly lower (SHORT) than the stored one. *)
Theorem trailing_stop_never_loosens symbol (ticks : list (Z * Q)) w p :
  activePositions (agent w) !! symbol = Some p ->
  length (stopHistory symbol ticks w) = length ticks
  /\ match pos_side p with
     | LONG => StronglySorted Qle (pos_stopLoss p :: stopHistory symbol ticks w)
     | SHORT => StronglySorted (flip Qle) (pos_stopLoss p :: stopHistory symbol ticks w)
     end
  /\ forall now price,
       exists p',
         activePositions (agent (onPriceUpdate now symbol price w)) !! symbol
         = Some p'
         /\ (pos_stopLoss p' = pos_stopLoss p
             \/ (pos_isTrailingSL p = true
                 /\ 5 < pos_unrealizedPnL p'
                 /\ match pos_side p with
                    | LONG =>
                        pos_stopLoss p' = price * (1 - 3 / 100)
                        /\ pos_stopLoss p < pos_stopLoss p'
                    | SHORT =>
                        pos_stopLoss p' = price * (1 + 3 / 100)
                        /\ pos_stopLoss p' < pos_stopLoss p
                    end)).
Proof.
  intros Hp.
  assert (Hhist :
    length (stopHistory symbol ticks w) = length ticks
    /\ match pos_side p with
       | LONG => StronglySorted Qle (pos_stopLoss p :: stopHistory symbol ticks w)
       | SHORT => StronglySorted (flip Qle) (pos_stopLoss p :: stopHistory symbol ticks w)
       end).
  { destruct (pos_side p) eqn:Hs.
    - by apply stopHistory_long.
    - by apply stopHistory_short. }
  destruct Hhist as [Hl Hsorted]. split; [exact Hl|]. split; [exact Hsorted|].
  intros now price. exists (afterTick now price p).
  split; [by apply onPriceUpdate_lookup|].
  pose proof (afterTick_cases now price p) as H. cbv zeta in H.
  destruct H as [E|(E & Ht & Hpnl & Hcmp)]; [by left|right].
  split; [exact Ht|]. split.
  { unfold afterTick.
    repeat match goal with |- context [if ?b then _ else _] => destruct b end;
      try exact Hpnl.
    unfold trailStop.
    repeat match goal with |- context [if ?b then _ else _] => destruct b end;
      try exact Hpnl;
      destruct (pos_side (updatePrice now price p)); simpl;
      repeat match goal with |- context [if ?b then _ else _] => destruct b end;
      exact Hpnl. }
  rewrite E. destruct (pos_side p); simpl; split; try reflexivity; exact Hcmp.
Qed.

(** C6.  On a tick at which both the stop trigger and the take-profit
    trigger hold for the monitored position, [onPriceUpdate] starts exactly
    one close, with reason STOP_LOSS: one close request is sent to the
    exchange and no TAKE_PROFIT close is started on that tick. *)
Theorem stop_takes_priority now symbol price w p :
  activePositions (agent w) !! symbol = Some p ->
  shouldTriggerStopLoss price (pos_stopLoss p) (pos_side p) = true ->
  shouldTriggerTakeProfit price (pos_takeProfit p) (pos_side p) = true ->
  let w' := onPriceUpdate now symbol price w in
  closing w' = closing w ++ [(symbol, STOP_LOSS)]
  /\ orders w' = orders w ++ [(symbol, pos_side p)]
  /\ (symbol, TAKE_PROFIT) ∉ drop (length (closing w)) (closing w').
Proof.
  intros Hp Hstop _ w'. subst w'. unfold onPriceUpdate. rewrite Hp.
  simpl. rewrite Hstop. unfold closePosition. simpl.
  rewrite lookup_insert_eq. simpl. split; [done|]. split; [done|].
  rewrite drop_app_length. intros H. apply list_elem_of_singleton in H.
  discriminate.
Qed.

End TickSequences.

Section TickWitnesses.
Import RiskManager Agent3Executor Scenario.

Lemma monitoring_btc_lookup :
  activePositions (agent monitoring_btc) !! "BTCUSDT"%string
  = Some (newPosition 0 btc_long).
Proof. reflexivity. Qed.

Lemma monitoring_crossed_lookup :
  activePositions (agent monitoring_crossed) !! "BTCUSDT"%string = Some crossed.
Proof. reflexivity. Qed.

(** Three ticks on the trailing long position of [monitoring_btc]
    (entry 100, leverage 2): at 102 the P&L is 4, the stop stays at 98; at
    105 the P&L is 10 and the stop rises to 101.85; it stays there when the
    price falls back to 103. *)
Example stopHistory_rising_prices :
  Forall2 Qeq
    (stopHistory "BTCUSDT" [(1%Z, 102); (2%Z, 105); (3%Z, 103)] monitoring_btc)
    [98; 101.85; 101.85].
Proof. vm_compute. repeat constructor. Qed.

Lemma trailing_stop_never_loosens_witness :
  StronglySorted Qle
    (pos_stopLoss (newPosition 0 btc_long)
     :: stopHistory "BTCUSDT" [(1%Z, 102); (2%Z, 105); (3%Z, 103)]
          monitoring_btc).
Proof.
  exact (proj1 (proj2 (trailing_stop_never_loosens "BTCUSDT"
                         [(1%Z, 102); (2%Z, 105); (3%Z, 103)]
                         monitoring_btc (newPosition 0 btc_long)
                         monitoring_btc_lookup))).
Defined.

Lemma stop_takes_priority_witness :
  closing (onPriceUpdate 1 "BTCUSDT" 97.5 monitoring_crossed)
  = [("BTCUSDT"%string, STOP_LOSS)].
Proof.
  exact (proj1 (stop_takes_priority 1 "BTCUSDT" 97.5 monitoring_crossed crossed
                  monitoring_crossed_lookup eq_refl eq_refl)).
Defined.

End TickWitnesses.

(** ** The risk engine: admission *)

Section Admission.
Import RiskManager.

Lemma override_fires cond reason st :
  cond = true ->
  (override cond reason st).1 = REJECT /\ reason ∈ (override cond reason st).2.
Proof.
  intros ->. simpl. split; [done|]. apply elem_of_app. right.
  by apply list_elem_of_singleton.
Qed.

Lemma override_keeps_reject cond reason st :
  st.1 = REJECT -> (override cond reason st).1 = REJECT.
Proof. unfold override. by destruct cond. Qed.

Lemma override_keeps_reasons cond reason st r :
  r ∈ st.2 -> r ∈ (override cond reason st).2.
Proof.
  unfold override. destruct cond; [|done]. simpl. intros H.
  apply elem_of_app. by left.
Qed.

Lemma override_not_approve cond reason st :
  st.1 <> APPROVE -> (override cond reason st).1 <> APPROVE.
Proof. unfold override. by destruct cond. Qed.

Lemma assessRisk_unfold cfg env now strategy currentPositions rm :
  let st := checked cfg env now strategy currentPositions rm in
  let ra := (assessRisk cfg env now strategy currentPositions rm).1 in
  score ra = totalScore (riskFactors cfg strategy currentPositions)
  /\ factors ra = riskFactors cfg strategy currentPositions
  /\ recommendation ra = st.1
  /\ (forall r, r ∈ st.2 -> r ∈ reasons ra)
  /\ (assessRisk cfg env now strategy currentPositions rm).2
     = resetDailyCounters now rm.
Proof.
  intros st ra. subst st ra. unfold assessRisk, checked. simpl.
  repeat split; try reflexivity.
  - by destruct (bool_decide _).
  - intros r Hr. destruct (bool_decide _); simpl; [|done].
    apply elem_of_app. by left.
Qed.

Lemma hasDuplicate_true strategy currentPositions :
  hasDuplicate strategy currentPositions = true
  <-> exists p, p ∈ currentPositions /\ pos_symbol p = symbol strategy.
Proof.
  unfold hasDuplicate. rewrite existsb_exists. split.
  - intros (p & Hin & Hp). exists p. split; [by apply list_elem_of_In|].
    by apply bool_decide_eq_true in Hp.
  - intros (p & Hin & Hp). exists p. split; [by apply list_elem_of_In|].
    by apply bool_decide_eq_true.
Qed.

End Admission.

Section AdmissionTheorems.
Import RiskManager Scenario.

(** A check of [assessRisk] whose condition holds forces REJECT and its
    reason is among the reasons returned, whatever the checks after it. *)
Lemma checked_overrides cfg env now strategy currentPositions rm :
  let st := checked cfg env now strategy currentPositions rm in
  ((isDailyLossLimitExceeded cfg now rm).1 = true ->
     st.1 = REJECT /\ DailyLossLimitExceeded ∈ st.2)
  /\ (Qgtb (leverage strategy) (maxLeverage cfg) = true ->
        st.1 = REJECT /\ LeverageExceedsMax (maxLeverage cfg) ∈ st.2)
  /\ (Qgtb (positionSize strategy) (maxPositionSize cfg) = true ->
        st.1 = REJECT /\ PositionSizeExceedsMax (maxPositionSize cfg) ∈ st.2)
  /\ ((Z.of_nat (length currentPositions) >=? maxPositions env)%Z = true ->
        st.1 = REJECT /\ MaxPositionsReached (maxPositions env) ∈ st.2)
  /\ (hasDuplicate strategy currentPositions = true ->
        st.1 = REJECT /\ AlreadyHavePosition (symbol strategy) ∈ st.2).
Proof.
  intros st. subst st. unfold checked.
  repeat apply conj; intros H; split.
  all: repeat first
    [ apply (proj1 (override_fires _ _ _ H))
    | apply (proj2 (override_fires _ _ _ H))
    | apply override_keeps_reject
    | apply override_keeps_reasons ].
Qed.

Lemma find_absent {A} (f : A -> bool) (l : list A) :
  (forall x, x ∈ l -> f x = false) -> find f l = None.
Proof.
  induction l as [|a l IH]; intros H; [done|]. simpl.
  rewrite (H a) by apply list_elem_of_here.
  apply IH. intros x Hx. apply H. by apply list_elem_of_further.
Qed.

Lemma hasDuplicate_false strategy currentPositions :
  (forall p, p ∈ currentPositions -> pos_symbol p <> symbol strategy) ->
  hasDuplicate strategy currentPositions = false.
Proof.
  intros H. apply not_true_iff_false. rewrite hasDuplicate_true.
  intros (p & Hin & Hp). by apply (H p).
Qed.

(** The allow-list gate of [Agent2Optimizer.execute]: a candidate whose
    symbol is not in [allowedSymbols] is answered at one of the three gates,
    with REJECT, before the risk manager or the oracle is consulted. *)
Lemma execute_rejects_unlisted optimizeStrategy cfg env now strategy
    currentPositions walletBalance rm :
  symbol strategy ∉ allowedSymbols cfg ->
  exists out,
    Agent2Optimizer.execute optimizeStrategy cfg env now strategy
      currentPositions walletBalance rm = (Ok out, rm)
    /\ recommendation (Agent2Optimizer.riskAssessment out) = REJECT
    /\ ((Z.of_nat (length currentPositions) < maxConcurrentPositions cfg)%Z ->
        (forall p, p ∈ currentPositions -> pos_symbol p <> symbol strategy) ->
        reasons (Agent2Optimizer.riskAssessment out)
        = [SymbolNotAllowed (symbol strategy) (allowedSymbols cfg)]).
Proof.
  intros Hsym. unfold Agent2Optimizer.execute.
  destruct (Z.of_nat (length currentPositions) >=? maxConcurrentPositions cfg)%Z
    eqn:Hmax.
  { eexists. split; [reflexivity|]. split; [reflexivity|].
    intros Hlt _. apply Z.geb_le in Hmax. lia. }
  destruct (find _ currentPositions) as [q|] eqn:Hfind.
  { eexists. split; [reflexivity|]. split; [reflexivity|].
    intros _ Hdup. apply find_some in Hfind as [Hin Hq].
    apply bool_decide_eq_true in Hq. apply list_elem_of_In in Hin.
    by destruct (Hdup q Hin). }
  rewrite bool_decide_eq_false_2 by exact Hsym. simpl.
  eexists. split; [reflexivity|]. split; [reflexivity|]. reflexivity.
Qed.

(** C1 (as the code has it).  [assessRisk] applies five hard overrides:
    daily loss limit exceeded, leverage above [maxLeverage], notional
    above [maxPositionSize], at least [maxPositions] open positions, an
    open position for the same symbol.  Each forces REJECT and appends its
    own reason, and none loosens the score-based decision: a REJECT stays
    REJECT and a REDUCE_SIZE stays REDUCE_SIZE or becomes REJECT.  The
    allow-list is not a check of [assessRisk]; it is a gate of
    [Agent2Optimizer.execute], which answers a candidate whose symbol is
    not allow-listed with REJECT before [assessRisk] is called, with the
    reason [SymbolNotAllowed] when neither of its two earlier gates
    (maximum concurrent positions, duplicate symbol) fired. *)
Theorem hard_overrides_force_reject cfg env now strategy currentPositions rm :
  let ra := (assessRisk cfg env now strategy currentPositions rm).1 in
  let base := (scoreDecision (score ra)).1 in
  ((isDailyLossLimitExceeded cfg now rm).1 = true ->
     recommendation ra = REJECT /\ DailyLossLimitExceeded ∈ reasons ra)
  /\ (maxLeverage cfg < leverage strategy ->
        recommendation ra = REJECT
        /\ LeverageExceedsMax (maxLeverage cfg) ∈ reasons ra)
  /\ (maxPositionSize cfg < positionSize strategy ->
        recommendation ra = REJECT
        /\ PositionSizeExceedsMax (maxPositionSize cfg) ∈ reasons ra)
  /\ ((maxPositions env <= Z.of_nat (length currentPositions))%Z ->
        recommendation ra = REJECT
        /\ MaxPositionsReached (maxPositions env) ∈ reasons ra)
  /\ ((exists p, p ∈ currentPositions /\ pos_symbol p = symbol strategy) ->
        recommendation ra = REJECT
        /\ AlreadyHavePosition (symbol strategy) ∈ reasons ra)
  /\ (base = REJECT -> recommendation ra = REJECT)
  /\ (base = REDUCE_SIZE ->
        recommendation ra = REDUCE_SIZE \/ recommendation ra = REJECT)
  /\ (forall optimizeStrategy walletBalance,
        symbol strategy ∉ allowedSymbols cfg ->
        exists out,
          Agent2Optimizer.execute optimizeStrategy cfg env now strategy
            currentPositions walletBalance rm = (Ok out, rm)
          /\ recommendation (Agent2Optimizer.riskAssessment out) = REJECT
          /\ ((Z.of_nat (length currentPositions)
               < maxConcurrentPositions cfg)%Z ->
              (forall p, p ∈ currentPositions ->
                         pos_symbol p <> symbol strategy) ->
              reasons (Agent2Optimizer.riskAssessment out)
              = [SymbolNotAllowed (symbol strategy) (allowedSymbols cfg)])).
Proof.
  intros ra base.
  pose proof (assessRisk_unfold cfg env now strategy currentPositions rm) as U.
  cbv zeta in U. fold ra in U. destruct U as (Hscore & _ & Hrec & Hreasons & _).
  pose proof (checked_overrides cfg env now strategy currentPositions rm) as O.
  cbv zeta in O. destruct O as (O1 & O2 & O3 & O4 & O5).
  rewrite Hrec.
  split; [intros H; destruct (O1 H); auto|].
  split; [intros H; apply Qgtb_true in H; destruct (O2 H); auto|].
  split; [intros H; apply Qgtb_true in H; destruct (O3 H); auto|].
  split; [intros H; apply Z.geb_le in H; destruct (O4 H); auto|].
  split; [intros H; apply hasDuplicate_true in H; destruct (O5 H); auto|].
  subst base. rewrite Hscore.
  split; [|split].
  - intros H. unfold checked. by repeat apply override_keeps_reject.
  - intros H.
    assert (Hna : (checked cfg env now strategy currentPositions rm).1
                  <> APPROVE).
    { unfold checked. repeat apply override_not_approve. by rewrite H. }
    destruct (checked cfg env now strategy currentPositions rm).1; auto.
    by destruct Hna.
  - intros optimizeStrategy walletBalance.
    apply execute_rejects_unlisted.
Qed.

(** [assessRisk] itself does not look at the allow-list: a candidate for
    DOGEUSDT, which the default configuration does not list, is approved
    when its score is low and none of the five checks fires, and no reason
    about the allow-list is returned. *)
Lemma assessRisk_approves_unlisted_symbol :
  let ra := (assessRisk cfg env_unset jan15 doge_long [] (new jan15)).1 in
  (symbol doge_long ∉ allowedSymbols cfg)
  /\ recommendation ra = APPROVE
  /\ Forall (fun r => match r with SymbolNotAllowed _ _ => False | _ => True end)
            (reasons ra).
Proof.
  split; [|split].
  - apply (proj1 (bool_decide_eq_false
                    (symbol doge_long ∈ allowedSymbols cfg))).
    reflexivity.
  - reflexivity.
  - vm_compute. repeat constructor.
Qed.

(** All five checks at once: an oversized DOGEUSDT candidate, four open
    positions of which one for DOGEUSDT, and a day on which a loss of 3
    was booked. *)
Lemma hard_overrides_force_reject_witness :
  let rm := updateDailyPnL jan15 (-3) (new jan15) in
  let ra := (assessRisk cfg env_unset jan15 doge_oversized four_positions rm).1 in
  recommendation ra = REJECT
  /\ DailyLossLimitExceeded ∈ reasons ra
  /\ LeverageExceedsMax 5 ∈ reasons ra
  /\ PositionSizeExceedsMax 100 ∈ reasons ra
  /\ MaxPositionsReached 4 ∈ reasons ra
  /\ AlreadyHavePosition "DOGEUSDT" ∈ reasons ra.
Proof.
  intros rm ra.
  destruct (hard_overrides_force_reject cfg env_unset jan15 doge_oversized
              four_positions rm) as (H1 & H2 & H3 & H4 & H5 & H6 & _).
  split; [apply H6; reflexivity|].
  split; [apply H1; reflexivity|].
  split; [apply H2; reflexivity|].
  split; [apply H3; reflexivity|].
  split; [apply H4; vm_compute; discriminate|].
  apply H5. exists (Agent3Executor.newPosition 0 doge_long).
  split; [apply list_elem_of_here|reflexivity].
Defined.

End AdmissionTheorems.

Section Score.
Import Binary64 Binary64.RiskManager.
#[local] Open Scope float_scope.





End Score.

(** ** The strategy of agent 1 *)

Section Agent1Strategy.
Import Binary64 Binary64.RiskManager Binary64.ClaudeService.
#[local] Open Scope float_scope.

Lemma ltb_irrefl (x : float) : (x <? x) = false.
Proof.
  rewrite ltb_spec. unfold SFltb. rewrite SFcompare_refl.
  by destruct (Prim2SF x).
Qed.

Lemma ltb_asym (x y : float) : (x <? y) = true -> (y <? x) = false.
Proof.
  rewrite !ltb_spec. unfold SFltb.
  rewrite (SFcompare_antisym (Prim2SF x) (Prim2SF y)).
  by destruct (SFcompare (Prim2SF x) (Prim2SF y)) as [[]|].
Qed.

Lemma ltb_nan_r (x : float) : (x <? nan) = false.
Proof.
  destruct (x <? nan) eqn:E; [|done].
  apply ltb_is_nan in E as [_ E]. discriminate.
Qed.

(** [Math.min(a, b) > b] is false, whatever the arguments. *)
Lemma Math_min_not_above (a b : float) : gtb (Math_min a b) b = false.
Proof.
  unfold gtb, Math_min.
  destruct (is_nan a || is_nan b); [apply ltb_nan_r|].
  destruct (a <? b) eqn:Hab; [by apply ltb_asym|].
  destruct (b <? a) eqn:Hba; [apply ltb_irrefl|].
  destruct (get_sign a); [exact Hba|apply ltb_irrefl].
Qed.

(** [Math.min(a, b)] is a number only if both arguments are, and is then
    at most [b]. *)
Lemma Math_min_number (a b : float) :
  is_nan (Math_min a b) = false ->
  is_nan a = false /\ is_nan b = false /\ (Math_min a b <=? b) = true.
Proof.
  intros Hmin.
  assert (Hab : is_nan a = false /\ is_nan b = false).
  { unfold Math_min in Hmin.
    destruct (is_nan a), (is_nan b); simpl in Hmin; try discriminate.
    by split. }
  destruct Hab as [Ha Hb]. split; [exact Ha|]. split; [exact Hb|].
  apply not_ltb_leb; [exact Hmin|exact Hb|]. apply Math_min_not_above.
Qed.

(** [Math.min(a, b)] is NaN exactly when an argument is. *)
Lemma Math_min_is_nan (a b : float) :
  is_nan (Math_min a b) = true <-> is_nan a || is_nan b = true.
Proof.
  unfold Math_min.
  destruct (is_nan a) eqn:Ha; [by split|].
  destruct (is_nan b) eqn:Hb; [by split|]. simpl.
  destruct (a <? b); [by rewrite Ha|].
  destruct (b <? a); [by rewrite Hb|].
  destruct (get_sign a); by rewrite ?Ha, ?Hb.
Qed.

Lemma override_reason_inv64 cond reason st r :
  r ∈ (override cond reason st).2 -> r ∈ st.2 \/ (cond = true /\ r = reason).
Proof.
  unfold override. destruct cond; [|by left]. simpl. intros H.
  apply elem_of_app in H as [H|H]; [by left|].
  apply list_elem_of_singleton in H. by right.
Qed.

Lemma scoreDecision_reasons64 total r :
  r ∈ (scoreDecision total).2 ->
  r = RiskScoreTooHigh \/ r = ModerateHighRisk \/ r = SuggestReduceSize.
Proof.
  unfold scoreDecision.
  destruct (gtb total 8); [|destruct (gtb total 6)]; simpl; intros H.
  - apply list_elem_of_singleton in H. by left.
  - apply elem_of_cons in H as [H|H]; [by right; left|].
    apply list_elem_of_singleton in H. by right; right.
  - by apply elem_of_nil in H.
Qed.

(** The leverage reason and the position-size reason are among the
    reasons of [assessRisk] only if the comparison of that check held. *)
Lemma assessRisk_limit_reasons cfg env now strategy currentPositions rm :
  let ra := (assessRisk cfg env now strategy currentPositions rm).1 in
  (forall m, LeverageExceedsMax m ∈ reasons ra ->
             gtb (leverage strategy) (maxLeverage cfg) = true)
  /\ (forall m, PositionSizeExceedsMax m ∈ reasons ra ->
                gtb (positionSize strategy) (maxPositionSize cfg) = true).
Proof.
  intros ra.
  assert (Hinv : forall r, r ∈ reasons ra ->
            (exists m, r = LeverageExceedsMax m) \/
            (exists m, r = PositionSizeExceedsMax m) ->
            (forall m, r = LeverageExceedsMax m ->
                       gtb (leverage strategy) (maxLeverage cfg) = true)
            /\ (forall m, r = PositionSizeExceedsMax m ->
                  gtb (positionSize strategy) (maxPositionSize cfg) = true)).
  { intros r Hr Hkind. subst ra. unfold assessRisk in Hr. simpl in Hr.
    match type of Hr with
    | r ∈ (if bool_decide ?c then _ else ?st).2 =>
        assert (Hst : r ∈ st.2);
        [ destruct (bool_decide c); [|exact Hr];
          simpl in Hr; apply elem_of_app in Hr as [Hr|Hr]; [exact Hr|];
          apply elem_of_cons in Hr as [->|Hr];
          [ destruct Hkind as [[? ?]|[? ?]]; discriminate |];
          apply list_elem_of_singleton in Hr; subst r;
          destruct Hkind as [[? ?]|[? ?]]; discriminate
        | clear Hr ]
    end.
    apply override_reason_inv64 in Hst as [Hst|[Hc ->]];
      [|destruct Hkind as [[? ?]|[? ?]]; discriminate].
    apply override_reason_inv64 in Hst as [Hst|[Hc ->]];
      [|destruct Hkind as [[? ?]|[? ?]]; discriminate].
    apply override_reason_inv64 in Hst as [Hst|[Hc ->]];
      [|split; intros; try discriminate; exact Hc].
    apply override_reason_inv64 in Hst as [Hst|[Hc ->]];
      [|split; intros; try discriminate; exact Hc].
    apply override_reason_inv64 in Hst as [Hst|[Hc ->]];
      [|destruct Hkind as [[? ?]|[? ?]]; discriminate].
    apply scoreDecision_reasons64 in Hst as [-> | [-> | ->]];
      destruct Hkind as [[? ?]|[? ?]]; discriminate. }
  split.
  - intros m H. eapply (Hinv _ H); eauto.
  - intros m H. eapply (Hinv _ H); eauto.
Qed.

(** X9.  [analyzeMarketAndGenerateStrategy] fails only when the request
    itself fails; an answer that cannot be parsed yields the strategy of
    the fallback.  The strategy it builds, from the model's unchecked JSON
    or from the fallback, is for the symbol of the market data, and its
    leverage and notional are never above the configured maxima: each is
    either at most the maximum or, when the answer names no such number
    (or the maximum is not a number), NaN.  So [assessRisk] never
    answers such a strategy with the leverage or the position-size reason,
    a NaN passing both checks. *)
Theorem agent1_strategy_never_above_limits cfg marketData response :
  (forall e,
     analyzeMarketAndGenerateStrategy cfg marketData response = Throw e
     <-> response = Throw e)
  /\ analyzeMarketAndGenerateStrategy cfg marketData (Ok None)
     = analyzeMarketAndGenerateStrategy cfg marketData
         (Ok (Some (fallbackStrategy marketData)))
  /\ forall strategy,
       analyzeMarketAndGenerateStrategy cfg marketData response
       = Ok strategy ->
       symbol strategy = md_symbol marketData
       /\ gtb (leverage strategy) (maxLeverage cfg) = false
       /\ gtb (positionSize strategy) (maxPositionSize cfg) = false
       /\ (is_nan (leverage strategy) = false ->
           (leverage strategy <=? maxLeverage cfg) = true)
       /\ (is_nan (positionSize strategy) = false ->
           (positionSize strategy <=? maxPositionSize cfg) = true)
       /\ (forall parsed, response = Ok (Some parsed) ->
           (is_nan (leverage strategy) = true
            <-> is_nan (sd_leverage parsed) || is_nan (maxLeverage cfg) = true)
           /\ (is_nan (positionSize strategy) = true
               <-> is_nan (sd_positionSize parsed)
                   || is_nan (maxPositionSize cfg) = true))
       /\ (forall env now currentPositions rm m,
             (LeverageExceedsMax m
              ∉ reasons (assessRisk cfg env now strategy currentPositions rm).1)
             /\ (PositionSizeExceedsMax m
                 ∉ reasons (assessRisk cfg env now strategy currentPositions rm).1)).
Proof.
  unfold analyzeMarketAndGenerateStrategy.
  destruct response as [parsed|e'].
  - split; [intros e; split; discriminate|].
    split; [reflexivity|].
    intros strategy [= <-]. cbn [symbol leverage positionSize].
    split; [reflexivity|]. split; [apply Math_min_not_above|].
    split; [apply Math_min_not_above|].
    split; [intros H; by apply Math_min_number in H as (_ & _ & H)|].
    split; [intros H; by apply Math_min_number in H as (_ & _ & H)|].
    split.
    + intros parsed' [= ->]. split; apply Math_min_is_nan.
    + intros env now currentPositions rm m.
      match goal with |- context [assessRisk cfg env now ?s _ _] =>
        pose proof (assessRisk_limit_reasons cfg env now s currentPositions rm)
          as H
      end.
      cbv zeta in H. destruct H as (Hlev & Hsize).
      cbn [leverage positionSize] in Hlev, Hsize.
      split; intros Hin.
      * apply Hlev in Hin. by rewrite Math_min_not_above in Hin.
      * apply Hsize in Hin. by rewrite Math_min_not_above in Hin.
  - split; [intros e; split; intros [= ->]; reflexivity|].
    split; [reflexivity|].
    intros strategy. discriminate.
Qed.

(** An answer without a leverage, asking for twice the maximum notional:
    the strategy built has NaN for its leverage, which is not above the
    maximum, and the maximum notional. *)
Lemma agent1_strategy_never_above_limits_witness :
  analyzeMarketAndGenerateStrategy config_trading Scenario64.market
    (Ok (Some Scenario64.answer_without_leverage))
  = Ok Scenario64.built_without_leverage
  /\ gtb (leverage Scenario64.built_without_leverage)
         (maxLeverage config_trading) = false
  /\ (positionSize Scenario64.built_without_leverage
      <=? maxPositionSize config_trading) = true.
Proof.
  split; [reflexivity|].
  destruct (proj2 (proj2 (agent1_strategy_never_above_limits config_trading
                     Scenario64.market
                     (Ok (Some Scenario64.answer_without_leverage))))
              Scenario64.built_without_leverage eq_refl)
    as (_ & Hlev & _ & _ & Hsize & _).
  split; [exact Hlev|]. apply Hsize. reflexivity.
Defined.

End Agent1Strategy.

(** ** The daily counters *)

Section DailyCounters.
Import RiskManager Scenario.

Lemma same_day_getDate (a b : Date) : same_day a b = true -> getDate a = getDate b.
Proof.
  unfold same_day. rewrite !andb_true_iff. intros [_ H]. by apply Z.eqb_eq.
Qed.

(** An access on the day of month of the stored reset date leaves the
    counters as they are. *)
Lemma resetDailyCounters_same now rm :
  getDate now = getDate (lastResetDate rm) -> resetDailyCounters now rm = rm.
Proof. intros H. unfold resetDailyCounters. by rewrite H, Z.eqb_refl. Qed.

(** An access on another day of month zeroes the counters and stores the
    date of the access. *)
Lemma resetDailyCounters_other now rm :
  getDate now <> getDate (lastResetDate rm) ->
  resetDailyCounters now rm = new now.
Proof.
  intros H. unfold resetDailyCounters.
  by rewrite (proj2 (Z.eqb_neq _ _) H).
Qed.

(** The rollover check is idempotent. *)
Lemma resetDailyCounters_idempotent now rm :
  resetDailyCounters now (resetDailyCounters now rm) = resetDailyCounters now rm.
Proof.
  apply resetDailyCounters_same. unfold resetDailyCounters.
  destruct (getDate now =? getDate (lastResetDate rm))%Z eqn:E; simpl; [|done].
  by apply Z.eqb_eq.
Qed.

Lemma isDailyLossLimitExceeded_iff cfg now rm :
  (isDailyLossLimitExceeded cfg now rm).1 = true
  <-> maxDailyLoss cfg <= Qabs (dailyPnL (resetDailyCounters now rm)).
Proof. apply Qgeb_true. Qed.

Lemma assessRisk_daily_limit cfg env now strategy currentPositions rm :
  getDate now = getDate (lastResetDate rm) ->
  maxDailyLoss cfg <= Qabs (dailyPnL rm) ->
  let r := assessRisk cfg env now strategy currentPositions rm in
  recommendation r.1 = REJECT
  /\ DailyLossLimitExceeded ∈ reasons r.1
  /\ r.2 = rm.
Proof.
  intros Hday Hloss r.
  assert (Hex : (isDailyLossLimitExceeded cfg now rm).1 = true).
  { apply isDailyLossLimitExceeded_iff.
    by rewrite (resetDailyCounters_same now rm Hday). }
  pose proof (assessRisk_unfold cfg env now strategy currentPositions rm) as U.
  cbv zeta in U. fold r in U. destruct U as (_ & _ & Hrec & Hreasons & Hrm).
  pose proof (checked_overrides cfg env now strategy currentPositions rm) as O.
  cbv zeta in O. destruct O as (O1 & _). destruct (O1 Hex) as [Hr Hin].
  split; [by rewrite Hrec|]. split; [by apply Hreasons|].
  by rewrite Hrm, (resetDailyCounters_same now rm Hday).
Qed.

Lemma assessAll_cons cfg env now strategy currentPositions calls rm :
  assessAll cfg env ((now, strategy, currentPositions) :: calls) rm
  = (assessRisk cfg env now strategy currentPositions rm).1
    :: assessAll cfg env calls
         (assessRisk cfg env now strategy currentPositions rm).2.
Proof. reflexivity. Qed.

Lemma assessAll_daily_limit cfg env calls : forall rm,
  Forall (fun c => getDate c.1.1 = getDate (lastResetDate rm)) calls ->
  maxDailyLoss cfg <= Qabs (dailyPnL rm) ->
  length (assessAll cfg env calls rm) = length calls
  /\ Forall (fun ra => recommendation ra = REJECT
                       /\ DailyLossLimitExceeded ∈ reasons ra)
            (assessAll cfg env calls rm).
Proof.
  induction calls as [|[[now strategy] currentPositions] calls IH];
    intros rm Hdays Hloss; [by split|].
  rewrite assessAll_cons.
  apply Forall_cons in Hdays as [Hday Hdays]. simpl in Hday.
  pose proof (assessRisk_daily_limit cfg env now strategy currentPositions rm
                Hday Hloss) as H. cbv zeta in H.
  destruct H as (Hrec & Hin & ->).
  destruct (IH rm Hdays Hloss) as [Hlen Hall].
  split; [by rewrite !length_cons, Hlen|]. by constructor.
Qed.

(** C4.  With a daily loss limit of 3, after two calls
    [updateDailyPnL(-1.5)] on the day the manager was created,
    [isDailyLossLimitExceeded] returns true on that day; it returns true
    exactly when the absolute value of the cumulative daily P&L is at
    least the limit; and every later [assessRisk] of that day, on any
    candidate and any positions, returns REJECT with the reason
    'Daily loss limit exceeded'. *)
Theorem daily_loss_limit_scenario cfg env (d0 d1 d2 d3 : Date)
    (calls : list (Date * TradingStrategy * list Position)) :
  maxDailyLoss cfg == 3 ->
  same_day d1 d0 = true -> same_day d2 d0 = true -> same_day d3 d0 = true ->
  Forall (fun c => same_day c.1.1 d0 = true) calls ->
  let rm := updateDailyPnL d2 (-1.5) (updateDailyPnL d1 (-1.5) (new d0)) in
  (isDailyLossLimitExceeded cfg d3 rm).1 = true
  /\ (forall now rm',
        (isDailyLossLimitExceeded cfg now rm').1 = true
        <-> maxDailyLoss cfg <= Qabs (dailyPnL (resetDailyCounters now rm')))
  /\ length (assessAll cfg env calls rm) = length calls
  /\ Forall (fun ra => recommendation ra = REJECT
                       /\ DailyLossLimitExceeded ∈ reasons ra)
            (assessAll cfg env calls rm).
Proof.
  intros Hlimit H1 H2 H3 Hcalls rm.
  apply same_day_getDate in H1, H2, H3.
  assert (Hrm : lastResetDate rm = d0 /\ dailyPnL rm = 0 + -1.5 + -1.5).
  { subst rm. unfold updateDailyPnL.
    rewrite (resetDailyCounters_same d1 (new d0)) by exact H1. simpl.
    rewrite resetDailyCounters_same by exact H2. by simpl. }
  destruct Hrm as [Hdate Hpnl].
  assert (Hloss : maxDailyLoss cfg <= Qabs (dailyPnL rm)).
  { rewrite Hpnl, Hlimit. vm_compute. discriminate. }
  split.
  { apply isDailyLossLimitExceeded_iff.
    rewrite resetDailyCounters_same by (by rewrite Hdate). exact Hloss. }
  split; [intros now rm'; apply isDailyLossLimitExceeded_iff|].
  apply assessAll_daily_limit; [|exact Hloss].
  eapply Forall_impl; [exact Hcalls|]. cbv beta. intros c Hc.
  apply same_day_getDate in Hc. by rewrite Hc, Hdate.
Qed.

Lemma daily_loss_limit_scenario_witness :
  let rm := updateDailyPnL jan15 (-1.5) (updateDailyPnL jan15 (-1.5) (new jan15)) in
  (isDailyLossLimitExceeded cfg jan15 rm).1 = true
  /\ Forall (fun ra => recommendation ra = REJECT
                       /\ DailyLossLimitExceeded ∈ reasons ra)
            (assessAll cfg env_unset [(jan15, btc_long, []); (jan15, doge_long, [])] rm).
Proof.
  destruct (daily_loss_limit_scenario cfg env_unset jan15 jan15 jan15 jan15
              [(jan15, btc_long, []); (jan15, doge_long, [])])
    as (H1 & _ & _ & H2).
  - reflexivity.
  - reflexivity.
  - reflexivity.
  - reflexivity.
  - repeat constructor.
  - split; assumption.
Defined.

(** C3 (the code at the failing input).  A loss of 3 is booked on 15
    January 2024; the next access is made on 15 February 2024, a later
    date with the same day of month.  The rollover check does not reset:
    the daily statistics still show the loss of January, the stored reset
    date is still 15 January, and the daily loss limit is still reported
    as exceeded. *)
Theorem rollover_misses_same_day_of_month :
  let rm := updateDailyPnL jan15 (-3) (new jan15) in
  valid_date jan15 = true /\ valid_date feb15 = true
  /\ date_ltb (lastResetDate rm) feb15 = true
  /\ resetDailyCounters feb15 rm = rm
  /\ (getDailyStats feb15 rm).1.1 == -3
  /\ lastResetDate (getDailyStats feb15 rm).2 = jan15
  /\ (isDailyLossLimitExceeded cfg feb15 rm).1 = true
  /\ recommendation (assessRisk cfg env_unset feb15 btc_long [] rm).1 = REJECT.
Proof. repeat split. Qed.

End DailyCounters.

(** ** Order quantity *)

Section Quantity.
Import Binary64 Scenario64.
#[local] Open Scope float_scope.

(** NaN is one value. *)
Lemma is_nan_eq (x : float) : is_nan x = true -> x = nan.
Proof.
  unfold is_nan. rewrite FloatAxioms.eqb_spec. unfold SFeqb.
  rewrite SFcompare_refl. intros H.
  rewrite <- (SF2Prim_Prim2SF x). by destruct (Prim2SF x).
Qed.

(** A quotient whose numerator is NaN is NaN. *)
Lemma div_nan (y : float) : nan / y = nan.
Proof.
  rewrite <- (SF2Prim_Prim2SF (nan / y)), div_spec.
  change (Prim2SF nan) with S754_nan. reflexivity.
Qed.

(** C10 (where the code departs from it).  For a strategy whose position
    size is not a number, whatever its entry price, [calculateQuantity]
    returns NaN: the quantity floored to the step is NaN, the test
    [roundedQuantity < minQuantity] of the step "Ensure minimum quantity"
    is false for it, and the rounding to three decimals keeps NaN.  The
    quantity returned is then not at least 0.001. *)
Theorem calculateQuantity_lets_NaN_through strategy :
  is_nan (positionSize strategy) = true ->
  let roundedQuantity :=
    Math_floor (positionSize strategy / entryPrice strategy / 0.001) * 0.001 in
  (roundedQuantity <? 0.001) = false
  /\ is_nan (calculateQuantity strategy) = true
  /\ (0.001 <=? calculateQuantity strategy) = false.
Proof.
  intros H. apply is_nan_eq in H. unfold calculateQuantity.
  rewrite H, div_nan, div_nan.
  by destruct (bool_decide (symbol strategy = "BTCUSDT")).
Qed.

(** An entry price of 100 and a position size that is not a number. *)
Lemma calculateQuantity_lets_NaN_through_witness :
  entryPrice unsized = 100
  /\ is_nan (calculateQuantity unsized) = true
  /\ (0.001 <=? calculateQuantity unsized) = false.
Proof.
  split; [reflexivity|].
  apply (calculateQuantity_lets_NaN_through unsized). reflexivity.
Defined.

(** On ordinary inputs: 35 dollars at a price of 100 are 349 steps, not
    350, since the quotient 0.35/0.001 is the double 349.99999999999994;
    50 dollars at a price of 107500 are less than one step, the order is
    for 0.001 and is worth 107.5 dollars. *)
Example calculateQuantity_examples :
  calculateQuantity (sized 35 100) = 0.349
  /\ calculateQuantity (sized 50 107500) = 0.001
  /\ actualNotional (sized 50 107500) = 107.5.
Proof. repeat split. Qed.

End Quantity.

(** ** The position monitor: reconciliation *)

Section Reconciliation.
Import Agent3Executor Scenario.

Lemma not_elem_of_removed `{Countable A} (x : A) (X : gset A) : x ∉ X ∖ {[ x ]}.
Proof.
  intros Hx. apply elem_of_difference in Hx as [_ Hx].
  apply Hx. by apply elem_of_singleton.
Qed.

(** [stopMonitoring] clears the timer of the symbol, forgets it and
    removes the price subscription; it sends nothing to the exchange and
    does not touch the positions or the daily counters. *)
Lemma stopMonitoring_effects symbol w :
  let w' := stopMonitoring symbol w in
  activeMonitoring (agent w') !! symbol = None
  /\ (channel symbol ∉ subscriptions w')
  /\ (forall id, activeMonitoring (agent w) !! symbol = Some id ->
                 id ∉ intervals w')
  /\ orders w' = orders w
  /\ closing w' = closing w
  /\ activePositions (agent w') = activePositions (agent w)
  /\ risk w' = risk w.
Proof.
  unfold stopMonitoring.
  destruct (activeMonitoring (agent w) !! symbol) as [id|] eqn:E; simpl.
  - rewrite lookup_delete_eq. split; [done|].
    split; [apply not_elem_of_removed|].
    split; [intros ? [= <-]; apply not_elem_of_removed|]. done.
  - split; [done|]. split; [apply not_elem_of_removed|].
    split; [intros ? [=]|]. done.
Qed.

(** The reconciliation pass for a symbol that the exchange no longer
    lists: no close is started and no order is sent, the timer and the
    subscription are torn down, and the stored positions are left as they
    are. *)
Lemma checkPositionStatus_absent positions symbol w :
  symbol ∉ positions ->
  let w' := checkPositionStatus positions symbol w in
  orders w' = orders w
  /\ closing w' = closing w
  /\ activeMonitoring (agent w') !! symbol = None
  /\ (channel symbol ∉ subscriptions w')
  /\ (forall id, activeMonitoring (agent w) !! symbol = Some id ->
                 id ∉ intervals w')
  /\ activePositions (agent w') = activePositions (agent w).
Proof.
  intros Habsent. unfold checkPositionStatus.
  rewrite find_absent.
  - pose proof (stopMonitoring_effects symbol w) as H. cbv zeta in H. tauto.
  - intros p Hp. apply bool_decide_eq_false. by intros ->.
Qed.

(** The sibling path: once the close request is confirmed,
    [closePosition] removes the position from the active positions. *)
Lemma closePosition_resume_removes now symbol position w :
  activePositions
    (agent (closePosition_resume now symbol position (Ok tt) w)) !! symbol
  = None.
Proof. unfold closePosition_resume. simpl. by rewrite lookup_delete_eq. Qed.

(** C9 (the code at the failing input).  The executor monitors its
    BTCUSDT position and the exchange returns an empty position list.
    The reconciliation pass sends no close order and tears the timer and
    the subscription down, but the position stays in the active positions:
    [getActivePositions] still returns it, and the next candidate for
    BTCUSDT is turned down for an open position that no longer exists. *)
Theorem reconciliation_keeps_position :
  let w' := checkPositionStatus [] "BTCUSDT" monitoring_btc in
  orders w' = [] /\ closing w' = []
  /\ activeMonitoring (agent w') = ∅
  /\ intervals w' = ∅
  /\ subscriptions w' = ∅
  /\ activePositions (agent w') !! "BTCUSDT"%string
     = Some (newPosition 0 btc_long)
  /\ getActivePositions (agent w') = [newPosition 0 btc_long]
  /\ (forall optimizeStrategy walletBalance,
        exists out,
          Agent2Optimizer.execute optimizeStrategy cfg env_unset jan15 btc_long
            (getActivePositions (agent w')) walletBalance (risk w')
          = (Ok out, risk w')
          /\ Agent2Optimizer.riskAssessment out
             = Agent2Optimizer.rejected (AlreadyHaveOpenPosition "BTCUSDT")).
Proof.
  repeat split; try reflexivity.
  intros optimizeStrategy walletBalance. eexists. split; reflexivity.
Qed.

End Reconciliation.

(** ** The cycle *)

Section CycleProperties.
Import AgentOrchestrator Scenario.

Lemma saveConversation_history message s :
  conversationHistory (saveConversation message s) = conversationHistory s.
Proof. unfold saveConversation. by destruct (fileWritable s). Qed.

Lemma logConversation_history message s :
  (logConversation message s).1 = Ok tt
  /\ conversationHistory (logConversation message s).2
     = conversationHistory s ++ [message].
Proof.
  unfold logConversation. simpl. by rewrite saveConversation_history.
Qed.

(** The collaborators of a cycle, arbitrary. *)
Variable agent1_execute : string -> result TradingStrategy.
Variable getWalletBalance : result Q.
Variable optimizeStrategy :
  TradingStrategy -> list Position -> result TradingStrategy.
Variable agent3_execute :
  TradingStrategy -> Agent3Executor.World -> result unit * Agent3Executor.World.
Variable clock : AgentType -> Z.
Variable today : Date.
Variable cfg : TradingConfig.
Variable env : ProcessEnv.
Variable manualApprovalRequired : bool.

Local Abbreviation cycle :=
  (runCycle agent1_execute getWalletBalance optimizeStrategy agent3_execute
            clock today cfg env manualApprovalRequired).

(** A cycle never throws: whatever its collaborators do, [runCycle]
    returns normally. *)
Lemma runCycle_never_throws symbol s : (cycle symbol s).1 = Ok tt.
Proof.
  unfold runCycle, try_catch.
  match goal with |- context [match ?m s with _ => _ end] =>
    destruct (m s) as [[[]|e] s1] end; reflexivity.
Qed.

(** When the oracle of stage 1 throws, the cycle ends in its [catch]: the
    failure is printed and nothing else changes; no entry is appended to
    the conversation history or to the history file. *)
Lemma runCycle_stage1_throws symbol e s :
  agent1_execute symbol = Throw e ->
  cycle symbol s
  = (Ok tt,
     {| isRunning := isRunning s;
        conversationHistory := conversationHistory s;
        conversationsFile := conversationsFile s;
        fileWritable := fileWritable s;
        cycleFailures := cycleFailures s ++ [e];
        world := world s |}).
Proof.
  intros H. unfold runCycle, try_catch, bind, await. by rewrite H.
Qed.

(** The sibling path: a failure of stage 3 is logged as an error entry. *)
Lemma stage3_failure_logged strategy e s w' :
  agent3_execute strategy (world s) = (Throw e, w') ->
  let r := stage3 agent3_execute clock strategy s in
  r.1 = Ok tt
  /\ conversationHistory r.2
     = conversationHistory s
       ++ [{| msg_agent := agent3; msg_timestamp := clock agent3;
              msg_status := ERROR; msg_data := NullData;
              msg_nextAgent := None; msg_error := Some e |}].
Proof.
  intros H. unfold stage3, try_catch, bind, getWorld. rewrite H. simpl.
  by rewrite saveConversation_history.
Qed.

End CycleProperties.

(** C8 (where the code departs from it).  The oracle of stage 1 throws
    in the first cycle of a fresh orchestrator.  The failure does not
    propagate: the cycle returns normally, and the [catch] of the cycle
    prints the error.  But the failed stage 1 leaves no entry: the
    conversation history and the history file are still empty after the
    cycle. *)
Theorem failed_stage1_leaves_no_entry :
  let s := AgentOrchestrator.new (RiskManager.new Scenario.jan15) in
  let r :=
    AgentOrchestrator.runCycle Scenario.oracle_down Scenario.wallet
      Scenario.keep Scenario.idle Scenario.still Scenario.jan15
      Scenario.cfg env_unset false "BTCUSDT" s in
  Scenario.oracle_down "BTCUSDT" = Throw "oracle unavailable"
  /\ r.1 = Ok tt
  /\ AgentOrchestrator.conversationHistory r.2 = []
  /\ AgentOrchestrator.conversationsFile r.2 = []
  /\ AgentOrchestrator.cycleFailures r.2 = ["oracle unavailable"%string].
Proof. repeat split. Qed.

(** The sibling path, with an executor that throws: stage 3 logs its
    failure, the last entry of the conversation history is the error
    entry of agent3, and the cycle does not report a failure. *)
Example failed_stage3_leaves_an_entry :
  let s := AgentOrchestrator.new (RiskManager.new Scenario.jan15) in
  let r :=
    AgentOrchestrator.runCycle Scenario.oracle_btc Scenario.wallet
      Scenario.keep Scenario.broken Scenario.still Scenario.jan15
      Scenario.cfg env_unset false "BTCUSDT" s in
  r.1 = Ok tt
  /\ last (AgentOrchestrator.conversationHistory r.2)
     = Some {| AgentOrchestrator.msg_agent := agent3;
               AgentOrchestrator.msg_timestamp := 0;
               AgentOrchestrator.msg_status := ERROR;
               AgentOrchestrator.msg_data := AgentOrchestrator.NullData;
               AgentOrchestrator.msg_nextAgent := None;
               AgentOrchestrator.msg_error := Some "order refused"%string |}
  /\ AgentOrchestrator.cycleFailures r.2 = [].
Proof. repeat split. Qed.

(** What an entry holds.  [btc_long] asks for 50 dollars; with a wallet
    of 1000 the optimizer sets the size of the candidate to 100.  The
    entry of stage 1 in memory holds the candidate object and shows 100
    after the cycle; the history file has the entry as it was written,
    with 50. *)
Example logged_candidate_is_shared :
  let s := AgentOrchestrator.new (RiskManager.new Scenario.jan15) in
  let r :=
    AgentOrchestrator.runCycle Scenario.oracle_btc Scenario.wallet
      Scenario.keep Scenario.idle Scenario.still Scenario.jan15
      Scenario.cfg env_unset false "BTCUSDT" s in
  AgentOrchestrator.msg_data <$> head (AgentOrchestrator.conversationHistory r.2)
  = Some (AgentOrchestrator.Agent1Data
            (Agent2Optimizer.setPositionSize Scenario.btc_long 100))
  /\ AgentOrchestrator.msg_data <$> head (AgentOrchestrator.conversationsFile r.2)
     = Some (AgentOrchestrator.Agent1Data Scenario.btc_long).
Proof. split; reflexivity. Qed.

(** * Properties of the further code *)

(** ** Profit and loss *)

Section ProfitAndLoss.
Import RiskManager.

(** X1.  The P&L percentage of a position opened at a positive price:
    it does not depend on the size, it is zero at the entry price, the
    P&L of a SHORT is the opposite of that of a LONG, and with a positive
    leverage a LONG gains exactly when the price is above the entry. *)
Theorem calculatePnL_properties (e c size size' lev : Q) :
  0 < e -> 0 < lev ->
  calculatePnL e c size lev LONG == calculatePnL e c size' lev LONG
  /\ calculatePnL e c size lev SHORT == calculatePnL e c size' lev SHORT
  /\ calculatePnL e e size lev LONG == 0
  /\ calculatePnL e e size lev SHORT == 0
  /\ calculatePnL e c size lev SHORT == - calculatePnL e c size lev LONG
  /\ (0 < calculatePnL e c size lev LONG <-> e < c)
  /\ (0 < calculatePnL e c size lev SHORT <-> c < e).
Proof.
  intros He Hlev. unfold calculatePnL.
  assert (Hne : ~ e == 0) by lra.
  split; [reflexivity|]. split; [reflexivity|].
  split; [field; exact Hne|]. split; [field; exact Hne|].
  split; [field; exact Hne|].
  assert (Hinv : 0 < / e) by (apply Qinv_lt_0_compat; exact He).
  assert (Hk : 0 < / e * lev * 100) by nra.
  set (k := / e * lev * 100) in *.
  assert (HL : (c - e) / e * lev * 100 == (c - e) * k).
  { subst k. field. exact Hne. }
  assert (HS : (e - c) / e * lev * 100 == (e - c) * k).
  { subst k. field. exact Hne. }
  rewrite HL, HS. clearbody k. split; split; intros H; nra.
Qed.

Lemma calculatePnL_properties_witness :
  0 < calculatePnL 100 105 50 2 LONG <-> 100 < 105.
Proof.
  apply (calculatePnL_properties 100 105 50 50 2); reflexivity.
Defined.

(** X3.  A trailing stop computed from a positive price with a positive
    distance is not triggered at that price. *)
Theorem trailing_stop_not_triggered_at_once (price e d : Q) (side : PositionSide) :
  0 < price -> 0 < d ->
  shouldTriggerStopLoss price (calculateTrailingStopLoss price e side d) side
  = false.
Proof.
  intros Hp Hd.
  assert (Hq : 0 < d / 100) by (apply Qlt_shift_div_l; lra).
  unfold shouldTriggerStopLoss, calculateTrailingStopLoss, Qgeb.
  set (q := d / 100) in *. clearbody q.
  destruct side; apply not_true_iff_false; rewrite Qle_bool_iff; nra.
Qed.

Lemma trailing_stop_not_triggered_at_once_witness :
  shouldTriggerStopLoss 105 (calculateTrailingStopLoss 105 100 LONG 3) LONG
  = false.
Proof.
  apply (trailing_stop_not_triggered_at_once 105 100 3 LONG); reflexivity.
Defined.

End ProfitAndLoss.

(** ** The daily counters over sequences of calls *)

Section DailyCalls.
Import RiskManager RiskManagerCalls.

Lemma call_unfold cfg env now c rm :
  call cfg env now c rm
  = match c with
    | UpdateDailyPnL pnl => updateDailyPnL now pnl rm
    | _ => resetDailyCounters now rm
    end.
Proof.
  destruct c; reflexivity.
Qed.

Lemma resetDailyCounters_trades now rm :
  dailyTrades rm = 0%Z -> dailyTrades (resetDailyCounters now rm) = 0%Z.
Proof.
  intros H. unfold resetDailyCounters. by destruct (negb _).
Qed.

(** X4.  The trade counter is never incremented: whatever calls are made
    on a new manager, at whatever dates, [getDailyStats] reports zero
    trades. *)
Theorem dailyTrades_stays_zero cfg env (calls : list (Date * Call))
    (created now : Date) :
  (getDailyStats now (run cfg env calls (new created))).1.2 = 0%Z.
Proof.
  assert (H : forall rm, dailyTrades rm = 0%Z ->
                         dailyTrades (run cfg env calls rm) = 0%Z).
  { induction calls as [|[d c] calls IH]; intros rm Hrm; [exact Hrm|].
    simpl. apply IH. rewrite call_unfold.
    destruct c; by apply resetDailyCounters_trades. }
  unfold getDailyStats. simpl. apply resetDailyCounters_trades, H. reflexivity.
Qed.

(** X7.  The daily loss limit does not tell gains from losses: once the
    gains booked on a day reach the limit, [isDailyLossLimitExceeded]
    holds and every [assessRisk] of that day is answered with REJECT and
    'Daily loss limit exceeded'. *)
Theorem daily_gain_trips_loss_limit cfg env (created now : Date) (gain : Q)
    strategy currentPositions :
  getDate now = getDate created ->
  maxDailyLoss cfg <= gain ->
  let rm := updateDailyPnL now gain (new created) in
  (isDailyLossLimitExceeded cfg now rm).1 = true
  /\ recommendation (assessRisk cfg env now strategy currentPositions rm).1
     = REJECT
  /\ DailyLossLimitExceeded
     ∈ reasons (assessRisk cfg env now strategy currentPositions rm).1.
Proof.
  intros Hday Hgain rm.
  assert (Hrm : lastResetDate rm = created /\ dailyPnL rm = 0 + gain).
  { subst rm. unfold updateDailyPnL.
    by rewrite (resetDailyCounters_same now (new created)) by exact Hday. }
  destruct Hrm as [Hdate Hpnl].
  assert (Hloss : maxDailyLoss cfg <= Qabs (dailyPnL rm)).
  { rewrite Hpnl. eapply Qle_trans; [exact Hgain|].
    eapply Qle_trans; [|apply Qle_Qabs]. lra. }
  assert (Hday' : getDate now = getDate (lastResetDate rm)) by (by rewrite Hdate).
  split.
  { apply isDailyLossLimitExceeded_iff.
    by rewrite (resetDailyCounters_same now rm Hday'). }
  pose proof (assessRisk_daily_limit cfg env now strategy currentPositions rm
                Hday' Hloss) as H. cbv zeta in H. tauto.
Qed.

Lemma daily_gain_trips_loss_limit_witness :
  let rm := updateDailyPnL Scenario.jan15 3 (new Scenario.jan15) in
  recommendation
    (assessRisk Scenario.cfg env_unset Scenario.jan15 Scenario.btc_long [] rm).1
  = REJECT.
Proof.
  intros rm.
  apply (daily_gain_trips_loss_limit Scenario.cfg env_unset Scenario.jan15
           Scenario.jan15 3 Scenario.btc_long []).
  - reflexivity.
  - vm_compute. discriminate.
Defined.

End DailyCalls.

(** ** The daily P&L as the source accumulates it *)

Section DailyCalls64.
Import Binary64 Binary64.RiskManager.
#[local] Open Scope float_scope.

Lemma resetDailyCounters_same64 now rm :
  getDate now = getDate (lastResetDate rm) -> resetDailyCounters now rm = rm.
Proof.
  intros H. unfold resetDailyCounters. by rewrite H, Z.eqb_refl.
Qed.

Lemma resetDailyCounters_other64 now rm :
  getDate now <> getDate (lastResetDate rm) ->
  resetDailyCounters now rm
  = {| dailyPnL := 0; dailyTrades := 0%Z; lastResetDate := now |}.
Proof.
  intros H. unfold resetDailyCounters.
  by rewrite (proj2 (Z.eqb_neq _ _) H).
Qed.

Lemma call_unfold64 cfg env now c rm :
  call cfg env now c rm
  = match c with
    | UpdateDailyPnL pnl => updateDailyPnL now pnl rm
    | _ => resetDailyCounters now rm
    end.
Proof.
  destruct c; reflexivity.
Qed.

Lemma run_same_day cfg env calls : forall rm,
  Forall (fun c => getDate c.1 = getDate (lastResetDate rm)) calls ->
  lastResetDate (run cfg env calls rm) = lastResetDate rm
  /\ dailyPnL (run cfg env calls rm)
     = accumulate (dailyPnL rm) (booked calls).
Proof.
  induction calls as [|[d c] calls IH]; intros rm Hdays; [by split|].
  apply Forall_cons in Hdays as [Hd Hdays]. simpl in Hd.
  change (run cfg env ((d, c) :: calls) rm)
    with (run cfg env calls (call cfg env d c rm)).
  rewrite call_unfold64.
  destruct c; unfold updateDailyPnL;
    rewrite (resetDailyCounters_same64 d rm Hd);
    match goal with
    | |- context [run cfg env calls ?rm'] =>
        destruct (IH rm') as [IHdate IHpnl]; [exact Hdays|];
        rewrite IHdate, IHpnl; by split
    end.
Qed.

(** X5.  Calls made on the day of month of the stored reset date never
    reset: the reset date stays, and the daily P&L is what it was with
    the amounts passed to [updateDailyPnL] added to it one after the
    other, each sum rounded as the source rounds it; the other methods
    leave it unchanged. *)
Theorem same_day_calls_accumulate cfg env (calls : list (Date * Call)) rm :
  Forall (fun c => getDate c.1 = getDate (lastResetDate rm)) calls ->
  lastResetDate (run cfg env calls rm) = lastResetDate rm
  /\ dailyPnL (run cfg env calls rm)
     = accumulate (dailyPnL rm) (booked calls).
Proof. apply run_same_day. Qed.

(** Three losses of 0.7, 1.4 and 0.9 booked on one day add up to the
    double -2.9999999999999996. *)
Lemma same_day_calls_accumulate_witness :
  dailyPnL (run config_trading env_unset
              [(Scenario.jan15, UpdateDailyPnL (-0.7));
               (Scenario.jan15, GetDailyStats);
               (Scenario.jan15, UpdateDailyPnL (-1.4));
               (Scenario.jan15, UpdateDailyPnL (-0.9))]
              (new Scenario.jan15))
  = accumulate 0 [-0.7; -1.4; -0.9].
Proof.
  apply (same_day_calls_accumulate config_trading env_unset
           [(Scenario.jan15, UpdateDailyPnL (-0.7));
            (Scenario.jan15, GetDailyStats);
            (Scenario.jan15, UpdateDailyPnL (-1.4));
            (Scenario.jan15, UpdateDailyPnL (-0.9))] (new Scenario.jan15)).
  repeat constructor.
Defined.

(** With these three losses the limit of 3 is not reached, and the next
    candidate is not rejected for the daily loss. *)
Example rounded_losses_stay_below_limit :
  let rm := run config_trading env_unset
              [(Scenario.jan15, UpdateDailyPnL (-0.7));
               (Scenario.jan15, UpdateDailyPnL (-1.4));
               (Scenario.jan15, UpdateDailyPnL (-0.9))]
              (new Scenario.jan15) in
  dailyPnL rm = -2.9999999999999996
  /\ (isDailyLossLimitExceeded config_trading Scenario.jan15 rm).1 = false.
Proof. split; reflexivity. Qed.

(** X6.  Rollover: when a call arrives on another day of month than the
    stored reset date, whatever was accumulated before is discarded; after
    that call and any further calls of the new day the daily P&L is what
    the amounts booked since the rollover add up to from 0, and the reset
    date is the date of the rollover call. *)
Theorem rollover_discards_earlier_pnl cfg env (now : Date) (c : Call)
    (calls : list (Date * Call)) rm :
  getDate now <> getDate (lastResetDate rm) ->
  Forall (fun c => getDate c.1 = getDate now) calls ->
  lastResetDate (run cfg env ((now, c) :: calls) rm) = now
  /\ dailyPnL (run cfg env ((now, c) :: calls) rm)
     = accumulate 0 (booked ((now, c) :: calls)).
Proof.
  intros Hother Hdays.
  change (run cfg env ((now, c) :: calls) rm)
    with (run cfg env calls (call cfg env now c rm)).
  rewrite call_unfold64.
  destruct c; unfold updateDailyPnL;
    rewrite (resetDailyCounters_other64 now rm Hother);
    match goal with
    | |- context [run cfg env calls ?rm'] =>
        destruct (run_same_day cfg env calls rm') as [Hd Hp];
          [exact Hdays|]; rewrite Hd, Hp; by split
    end.
Qed.

Lemma rollover_discards_earlier_pnl_witness :
  let rm := updateDailyPnL Scenario.jan15 (-3) (new Scenario.jan15) in
  let jan16 := {| getFullYear := 2024; getMonth := 0; getDate := 16 |} in
  dailyPnL (run config_trading env_unset
              [(jan16, GetDailyStats); (jan16, UpdateDailyPnL 1)] rm)
  = accumulate 0 [1].
Proof.
  intros rm jan16.
  apply (rollover_discards_earlier_pnl config_trading env_unset jan16
           GetDailyStats [(jan16, UpdateDailyPnL 1)] rm).
  - discriminate.
  - repeat constructor.
Defined.

End DailyCalls64.

(** ** The optimizer *)

Section Optimizer.
Import RiskManager Agent2Optimizer Agent2Steps.

Lemma find_hasDuplicate strategy currentPositions :
  find (fun p => bool_decide (pos_symbol p = symbol strategy)) currentPositions
  = None
  <-> hasDuplicate strategy currentPositions = false.
Proof.
  unfold hasDuplicate. induction currentPositions as [|p l IH]; [done|].
  simpl. destruct (bool_decide (pos_symbol p = symbol strategy)); simpl.
  - split; discriminate.
  - exact IH.
Qed.

(** [execute] by cases: the first gate that fires answers; otherwise the
    auto-sized candidate is assessed and handed to the oracle. *)
Lemma execute_cases optimizeStrategy cfg env now initialStrategy
    currentPositions walletBalance rm :
  execute optimizeStrategy cfg env now initialStrategy currentPositions
          walletBalance rm
  = match gate cfg initialStrategy currentPositions with
    | Some reason =>
        (Ok {| optimizedStrategy := initialStrategy;
               riskAssessment := rejected reason |}, rm)
    | None =>
        let candidate := sized cfg initialStrategy walletBalance in
        (match optimizeStrategy candidate currentPositions with
         | Ok optimized =>
             Ok {| optimizedStrategy := optimized;
                   riskAssessment :=
                     (assessRisk cfg env now candidate currentPositions rm).1 |}
         | Throw e => Throw e
         end,
         resetDailyCounters now rm)
    end.
Proof.
  unfold execute, gate.
  destruct (Z.of_nat (length currentPositions) >=? maxConcurrentPositions cfg)%Z;
    [reflexivity|].
  destruct (find _ currentPositions) as [q|] eqn:Hfind.
  - assert (Hdup : hasDuplicate initialStrategy currentPositions = true).
    { apply not_false_iff_true. rewrite <- find_hasDuplicate. by rewrite Hfind. }
    by rewrite Hdup.
  - apply find_hasDuplicate in Hfind. rewrite Hfind.
    destruct (negb _); [reflexivity|].
    unfold sized. cbv zeta.
    destruct (truthy walletBalance); simpl;
      match goal with |- context [optimizeStrategy ?s ?p] =>
        destruct (optimizeStrategy s p) end; reflexivity.
Qed.

(** X8.  [execute] and its oracle.  When a gate fires, [execute] returns
    the candidate with a REJECT of score 10 and the gate's reason, and
    leaves the risk manager as it was.  When no gate fires and the oracle
    throws on the auto-sized candidate, [execute] throws the oracle's
    error.  When no gate fires and it returns, the strategy it returns
    is the oracle's answer and the assessment is the one of the
    auto-sized candidate; so the assessment returned is the same whatever
    the oracle answered: the optimized strategy itself is never
    assessed. *)
Theorem execute_and_its_oracle optimizeStrategy optimizeStrategy'
    cfg env now initialStrategy currentPositions walletBalance rm :
  (forall reason,
     gate cfg initialStrategy currentPositions = Some reason ->
     execute optimizeStrategy cfg env now initialStrategy currentPositions
             walletBalance rm
     = (Ok {| optimizedStrategy := initialStrategy;
              riskAssessment :=
                {| score := 10; factors := []; recommendation := REJECT;
                   reasons := [reason] |} |}, rm))
  /\ (forall e,
        gate cfg initialStrategy currentPositions = None ->
        optimizeStrategy (sized cfg initialStrategy walletBalance)
                         currentPositions = Throw e ->
        (execute optimizeStrategy cfg env now initialStrategy currentPositions
                 walletBalance rm).1 = Throw e)
  /\ (forall out,
        gate cfg initialStrategy currentPositions = None ->
        (execute optimizeStrategy cfg env now initialStrategy currentPositions
                 walletBalance rm).1 = Ok out ->
        optimizeStrategy (sized cfg initialStrategy walletBalance)
                         currentPositions = Ok (optimizedStrategy out)
        /\ riskAssessment out
           = (assessRisk cfg env now (sized cfg initialStrategy walletBalance)
                         currentPositions rm).1)
  /\ (forall out out',
        (execute optimizeStrategy cfg env now initialStrategy currentPositions
                 walletBalance rm).1 = Ok out ->
        (execute optimizeStrategy' cfg env now initialStrategy currentPositions
                 walletBalance rm).1 = Ok out' ->
        riskAssessment out = riskAssessment out').
Proof.
  rewrite !execute_cases.
  destruct (gate cfg initialStrategy currentPositions) as [reason|]; simpl.
  - split; [by intros ? [= <-]|]. split; [discriminate|].
    split; [discriminate|].
    intros out out' [= <-] [= <-]. reflexivity.
  - split; [discriminate|]. split; [by intros e _ ->|]. split.
    + intros out _.
      destruct (optimizeStrategy _ currentPositions); [|discriminate].
      by intros [= <-].
    + intros out out'.
      destruct (optimizeStrategy _ currentPositions);
        destruct (optimizeStrategy' _ currentPositions); try discriminate.
      intros [= <-] [= <-]. reflexivity.
Qed.

Lemma execute_and_its_oracle_witness :
  (execute Scenario.oracle_fails Scenario.cfg env_unset Scenario.jan15
           Scenario.btc_long [] (Some 1000) (new Scenario.jan15)).1
  = Throw "model unavailable".
Proof.
  apply (execute_and_its_oracle Scenario.oracle_fails Scenario.keep
           Scenario.cfg env_unset Scenario.jan15 Scenario.btc_long []
           (Some 1000) (new Scenario.jan15)); reflexivity.
Defined.

Lemma override_reason_inv cond reason st r :
  r ∈ (override cond reason st).2 -> r ∈ st.2 \/ (cond = true /\ r = reason).
Proof.
  unfold override. destruct cond; [|by left]. simpl. intros H.
  apply elem_of_app in H as [H|H]; [by left|].
  apply list_elem_of_singleton in H. by right.
Qed.

Lemma scoreDecision_reasons total r :
  r ∈ (scoreDecision total).2 ->
  r = RiskScoreTooHigh \/ r = ModerateHighRisk \/ r = SuggestReduceSize.
Proof.
  unfold scoreDecision.
  destruct (Qgtb total 8); [|destruct (Qgtb total 6)]; simpl; intros H.
  - apply list_elem_of_singleton in H. by left.
  - apply elem_of_cons in H as [H|H]; [by right; left|].
    apply list_elem_of_singleton in H. by right; right.
  - by apply elem_of_nil in H.
Qed.

(** A reason about a hard check is among the reasons of [assessRisk] only
    if that check fired. *)
Lemma assessRisk_reason_inv cfg env now strategy currentPositions rm :
  let ra := (assessRisk cfg env now strategy currentPositions rm).1 in
  (forall m, LeverageExceedsMax m ∈ reasons ra ->
             maxLeverage cfg < leverage strategy)
  /\ (forall m, PositionSizeExceedsMax m ∈ reasons ra ->
                maxPositionSize cfg < positionSize strategy)
  /\ (forall n, MaxPositionsReached n ∈ reasons ra ->
                (maxPositions env <= Z.of_nat (length currentPositions))%Z)
  /\ (forall s, AlreadyHavePosition s ∈ reasons ra ->
                hasDuplicate strategy currentPositions = true).
Proof.
  intros ra.
  assert (Hinv : forall r, r ∈ reasons ra ->
            (exists m, r = LeverageExceedsMax m) \/
            (exists m, r = PositionSizeExceedsMax m) \/
            (exists n, r = MaxPositionsReached n) \/
            (exists s, r = AlreadyHavePosition s) ->
            (forall m, r = LeverageExceedsMax m ->
                       Qgtb (leverage strategy) (maxLeverage cfg) = true)
            /\ (forall m, r = PositionSizeExceedsMax m ->
                          Qgtb (positionSize strategy) (maxPositionSize cfg) = true)
            /\ (forall n, r = MaxPositionsReached n ->
                  (Z.of_nat (length currentPositions) >=? maxPositions env)%Z
                  = true)
            /\ (forall s, r = AlreadyHavePosition s ->
                          hasDuplicate strategy currentPositions = true)).
  { intros r Hr Hkind. subst ra. unfold assessRisk in Hr. simpl in Hr.
    match type of Hr with
    | r ∈ (if bool_decide ?c then _ else ?st).2 =>
        assert (Hst : r ∈ st.2);
        [ destruct (bool_decide c); [|exact Hr];
          simpl in Hr; apply elem_of_app in Hr as [Hr|Hr]; [exact Hr|];
          apply elem_of_cons in Hr as [->|Hr];
          [ destruct Hkind as [[? ?]|[[? ?]|[[? ?]|[? ?]]]]; discriminate |];
          apply list_elem_of_singleton in Hr; subst r;
          destruct Hkind as [[? ?]|[[? ?]|[[? ?]|[? ?]]]]; discriminate
        | clear Hr ]
    end.
    apply override_reason_inv in Hst as [Hst|[Hc ->]];
      [|repeat split; intros; try discriminate; exact Hc].
    apply override_reason_inv in Hst as [Hst|[Hc ->]];
      [|repeat split; intros; try discriminate; exact Hc].
    apply override_reason_inv in Hst as [Hst|[Hc ->]];
      [|repeat split; intros; try discriminate; exact Hc].
    apply override_reason_inv in Hst as [Hst|[Hc ->]];
      [|repeat split; intros; try discriminate; exact Hc].
    apply override_reason_inv in Hst as [Hst|[Hc ->]];
      [|destruct Hkind as [[? ?]|[[? ?]|[[? ?]|[? ?]]]]; discriminate].
    apply scoreDecision_reasons in Hst as [-> | [-> | ->]];
      destruct Hkind as [[? ?]|[[? ?]|[[? ?]|[? ?]]]]; discriminate. }
  repeat split.
  - intros m H. apply Qgtb_true. eapply (Hinv _ H); eauto.
  - intros m H. apply Qgtb_true. eapply (Hinv _ H); eauto 6.
  - intros n H. apply Z.geb_le. eapply (Hinv _ H); eauto 7.
  - intros s H. eapply (Hinv _ H); eauto 8.
Qed.

End Optimizer.

Section OptimizerGuarantees.
Import RiskManager Agent2Optimizer Agent2Steps.

Lemma Math_min_le_l (a b : Q) : Math_min a b <= a.
Proof.
  unfold Math_min. destruct (Qle_bool a b) eqn:E; [apply Qle_refl|].
  apply Qlt_le_weak, Qgtb_true. unfold Qgtb. by rewrite E.
Qed.

Lemma Math_min_le_r (a b : Q) : Math_min a b <= b.
Proof.
  unfold Math_min. destruct (Qle_bool a b) eqn:E; [|apply Qle_refl].
  by apply Qle_bool_iff.
Qed.

Lemma gate_none cfg initialStrategy currentPositions :
  gate cfg initialStrategy currentPositions = None
  <-> (Z.of_nat (length currentPositions) < maxConcurrentPositions cfg)%Z
      /\ hasDuplicate initialStrategy currentPositions = false
      /\ symbol initialStrategy ∈ allowedSymbols cfg.
Proof.
  unfold gate.
  destruct (Z.of_nat (length currentPositions) >=? maxConcurrentPositions cfg)%Z
    eqn:Hmax.
  { apply Z.geb_le in Hmax. split; [discriminate|]. intros [H _]. lia. }
  assert (Hlt : (Z.of_nat (length currentPositions)
                 < maxConcurrentPositions cfg)%Z).
  { apply not_true_iff_false in Hmax. rewrite Z.geb_le in Hmax. lia. }
  destruct (hasDuplicate initialStrategy currentPositions).
  { split; [discriminate|]. intros (_ & H & _). discriminate. }
  destruct (bool_decide (symbol initialStrategy ∈ allowedSymbols cfg)) eqn:Hsym;
    simpl.
  - apply bool_decide_eq_true in Hsym. by split.
  - apply bool_decide_eq_false in Hsym. split; [discriminate|].
    intros (_ & _ & H). by destruct Hsym.
Qed.

Lemma config_trading_max env :
  (maxConcurrentPositions (config_trading env) <= maxPositions env)%Z.
Proof.
  unfold maxPositions, config_trading. simpl.
  destruct (MAX_CONCURRENT_POSITIONS env); simpl; lia.
Qed.

(** X10.  Past its three gates [execute] assesses a candidate that has
    fewer open positions than the maximum and no open position for its
    symbol; with a non-zero wallet balance the candidate is also resized to
    at most the maximum notional.  So, with the limits of [config.trading]
    (where the gate's maximum is at most the risk manager's), the returned
    assessment never carries the maximum-positions reason, the
    duplicate-symbol reason or the position-size reason. *)
Theorem execute_checks_left optimizeStrategy cfg env now initialStrategy
    currentPositions (walletBalance : Q) rm out :
  (maxConcurrentPositions cfg <= maxPositions env)%Z ->
  ~ walletBalance == 0 ->
  gate cfg initialStrategy currentPositions = None ->
  (execute optimizeStrategy cfg env now initialStrategy currentPositions
           (Some walletBalance) rm).1 = Ok out ->
  forall r, r ∈ reasons (riskAssessment out) ->
    match r with
    | PositionSizeExceedsMax _ | MaxPositionsReached _ | AlreadyHavePosition _ =>
        False
    | _ => True
    end.
Proof.
  intros Hmax Hbal Hgate Hout r Hr.
  rewrite execute_cases, Hgate in Hout. simpl in Hout.
  destruct (optimizeStrategy _ currentPositions) as [optimized|e];
    [|discriminate].
  injection Hout as <-. cbn [riskAssessment] in Hr.
  apply gate_none in Hgate as (Hcount & Hdup & _).
  assert (Hsized : positionSize (sized cfg initialStrategy (Some walletBalance))
                   <= maxPositionSize cfg).
  { unfold sized, truthy.
    destruct (Qeq_bool walletBalance 0) eqn:E;
      [apply Qeq_bool_iff in E; contradiction|].
    apply Math_min_le_r. }
  pose proof (assessRisk_reason_inv cfg env now
                (sized cfg initialStrategy (Some walletBalance))
                currentPositions rm) as H.
  cbv zeta in H. destruct H as (_ & Hsize & Hcnt & Hdp).
  destruct r; try exact I.
  - apply Hsize in Hr. by apply Qlt_not_le in Hr.
  - apply Hcnt in Hr. lia.
  - apply Hdp in Hr.
    assert (hasDuplicate (sized cfg initialStrategy (Some walletBalance))
                         currentPositions
            = hasDuplicate initialStrategy currentPositions) as E.
    { unfold sized. by destruct (truthy (Some walletBalance)). }
    rewrite E, Hdup in Hr. discriminate.
Qed.

Lemma execute_checks_left_witness :
  Forall (fun r => match r with
                   | PositionSizeExceedsMax _ | MaxPositionsReached _
                   | AlreadyHavePosition _ => False
                   | _ => True
                   end)
    (reasons (assessRisk Scenario.cfg env_unset Scenario.jan15
                (sized Scenario.cfg
                   (setPositionSize Scenario.btc_long 5000) (Some 1000))
                [] (new Scenario.jan15)).1).
Proof.
  apply Forall_forall. intros r Hr.
  apply (execute_checks_left Scenario.keep Scenario.cfg env_unset Scenario.jan15
           (setPositionSize Scenario.btc_long 5000) [] 1000
           (new Scenario.jan15)
           {| optimizedStrategy :=
                sized Scenario.cfg (setPositionSize Scenario.btc_long 5000)
                      (Some 1000);
              riskAssessment :=
                (assessRisk Scenario.cfg env_unset Scenario.jan15
                   (sized Scenario.cfg
                      (setPositionSize Scenario.btc_long 5000) (Some 1000))
                   [] (new Scenario.jan15)).1 |}).
  - apply config_trading_max.
  - discriminate.
  - reflexivity.
  - reflexivity.
  - exact Hr.
Defined.

(** X11.  With [ClaudeService.optimizeStrategy] as its oracle, [execute]
    returns a strategy for the symbol and the side of the candidate it
    was given, whatever the model answered; and unless the returned
    recommendation is REJECT, that symbol is allow-listed, has no open
    position, and the open positions are fewer than the maximum. *)
Theorem admitted_strategy_symbol
    (answer : TradingStrategy -> list Position -> result ClaudeService.Optimizations)
    cfg env now initialStrategy currentPositions walletBalance rm out :
  (execute (fun s ps => ClaudeService.optimizeStrategy s (answer s ps))
           cfg env now initialStrategy currentPositions walletBalance rm).1
  = Ok out ->
  symbol (optimizedStrategy out) = symbol initialStrategy
  /\ side (optimizedStrategy out) = side initialStrategy
  /\ (recommendation (riskAssessment out) <> REJECT ->
      symbol initialStrategy ∈ allowedSymbols cfg
      /\ (forall p, p ∈ currentPositions ->
                    pos_symbol p <> symbol initialStrategy)
      /\ (Z.of_nat (length currentPositions) < maxConcurrentPositions cfg)%Z).
Proof.
  rewrite execute_cases.
  destruct (gate cfg initialStrategy currentPositions) as [reason|] eqn:Hgate.
  - intros [= <-]. simpl. split; [done|]. split; [done|]. by intros H.
  - simpl. unfold ClaudeService.optimizeStrategy.
    destruct (answer _ currentPositions) as [o|e]; [|discriminate].
    intros [= <-]. simpl.
    assert (Hs : forall x, symbol (sized cfg initialStrategy x) = symbol initialStrategy
                           /\ side (sized cfg initialStrategy x) = side initialStrategy).
    { intros x. unfold sized. by destruct (truthy x). }
    split; [apply Hs|]. split; [apply Hs|]. intros _.
    apply gate_none in Hgate as (Hcount & Hdup & Hsym).
    split; [exact Hsym|]. split; [|exact Hcount].
    intros p Hp Heq.
    assert (hasDuplicate initialStrategy currentPositions = true).
    { apply hasDuplicate_true. by exists p. }
    congruence.
Qed.

Lemma admitted_strategy_symbol_witness :
  let out :=
    {| optimizedStrategy :=
         {| symbol := "BTCUSDT"; side := LONG; entryPrice := 101;
            leverage := 3; positionSize := 40;
            stopLoss := {| sl_type := TRAILING; sl_percentage := 2 |};
            takeProfit := {| tp_type := TP_FIXED; tp_percentage := 5 |};
            confidence := 80; riskScore := 3 |};
       riskAssessment :=
         (assessRisk Scenario.cfg env_unset Scenario.jan15
            (sized Scenario.cfg Scenario.btc_long (Some 1000)) []
            (new Scenario.jan15)).1 |} in
  symbol (optimizedStrategy out) = symbol Scenario.btc_long
  /\ side (optimizedStrategy out) = side Scenario.btc_long.
Proof.
  intros out.
  destruct (admitted_strategy_symbol Samples.answer Scenario.cfg env_unset
              Scenario.jan15 Scenario.btc_long [] (Some 1000)
              (new Scenario.jan15) out) as (H1 & H2 & _).
  - reflexivity.
  - by split.
Defined.

End OptimizerGuarantees.

Section Alternatives.
Import Agent2Steps.

Lemma Math_floor_le (a : Q) : Math_floor a <= a.
Proof. apply Qfloor_le. Qed.

Lemma Math_ceil_ge (a : Q) : a <= Math_ceil a.
Proof. apply Qle_ceiling. Qed.

Lemma Math_max_cases (a b : Q) :
  a <= Math_max a b /\ b <= Math_max a b
  /\ (Math_max a b = a \/ Math_max a b = b).
Proof.
  unfold Math_max. destruct (Qle_bool a b) eqn:E.
  - apply Qle_bool_iff in E. repeat split; [exact E|apply Qle_refl|by right].
  - assert (b < a) by (apply Qgtb_true; unfold Qgtb; by rewrite E).
    repeat split; [apply Qle_refl|by apply Qlt_le_weak|by left].
Qed.

(** X12.  [generateAlternatives] for a strategy with leverage at least 1
    and a non-negative size: the first alternative is the conservative
    one, with leverage between 1 and the strategy's and a size not above
    the strategy's; a second, aggressive, alternative exists exactly when
    the leverage is below 15, with leverage between the strategy's and 20
    and a size not below the strategy's.  Every alternative keeps the
    symbol, the side and the entry price. *)
Theorem generateAlternatives_bounds strategy :
  1 <= leverage strategy -> 0 <= positionSize strategy ->
  exists conservative rest,
    generateAlternatives strategy = conservative :: rest
    /\ 1 <= leverage conservative
    /\ leverage conservative <= leverage strategy
    /\ positionSize conservative <= positionSize strategy
    /\ ((rest = [] /\ 15 <= leverage strategy)
        \/ (exists aggressive,
              rest = [aggressive]
              /\ leverage strategy < 15
              /\ leverage strategy <= leverage aggressive
              /\ leverage aggressive <= 20
              /\ positionSize strategy <= positionSize aggressive))
    /\ Forall (fun a => symbol a = symbol strategy
                        /\ side a = side strategy
                        /\ entryPrice a = entryPrice strategy)
              (generateAlternatives strategy).
Proof.
  intros Hlev Hsize. unfold generateAlternatives.
  eexists _, _. split; [reflexivity|]. simpl.
  pose proof (Math_max_cases 1 (Math_floor (leverage strategy / 2)))
    as (Hm1 & _ & Hm).
  pose proof (Math_floor_le (leverage strategy / 2)) as Hfloor.
  split; [exact Hm1|]. split.
  { destruct Hm as [-> | ->]; [exact Hlev|].
    eapply Qle_trans; [exact Hfloor|].
    apply Qle_shift_div_r; lra. }
  split; [lra|]. split.
  - destruct (Qltb (leverage strategy) 15) eqn:E.
    + apply Qltb_true in E. right. eexists. split; [reflexivity|]. simpl.
      split; [exact E|].
      pose proof (Math_ceil_ge (leverage strategy * 1.5)) as Hceil.
      split; [|split; [apply Math_min_le_l|lra]].
      unfold Math_min.
      destruct (Qle_bool 20 (Math_ceil (leverage strategy * 1.5))); lra.
    + apply Qltb_false in E. by left.
  - destruct (Qltb (leverage strategy) 15); repeat constructor.
Qed.

Lemma generateAlternatives_bounds_witness :
  exists conservative rest,
    generateAlternatives Scenario.btc_long = conservative :: rest
    /\ 1 <= leverage conservative.
Proof.
  destruct (generateAlternatives_bounds Scenario.btc_long)
    as (c & rest & H & H1 & _).
  - vm_compute. discriminate.
  - vm_compute. discriminate.
  - by exists c, rest.
Defined.

End Alternatives.

(** ** Opening a position *)

Section Opening.
Import Agent3Executor Agent3Trading.

(** X13.  [execute] on the path that opens a position: the plan says to
    execute, the exchange lists no open position for the symbol and the
    entry order is placed.  Then one trade is reported, the position of
    [executeTrade] is stored and returned, the symbol is subscribed and
    its timer armed, whether or not the protective orders could be
    placed.  The orders handed to the exchange are the entry order, the
    stop order and, only if the stop order was accepted, the target order;
    the protective orders are reduce-only, on the closing side, for the
    quantity of the entry order, at the stop and target stored in the
    position. *)
Theorem execute_opens_and_monitors strategy a d p orderId :
  plan a = Ok p -> shouldExecute p = true ->
  hasExistingPosition strategy (existing a) = false ->
  entryOrder a = Ok orderId ->
  let r := execute strategy a d in
  let position := newPosition (clock a) strategy in
  let entry := entryOrderParams strategy p in
  (exists trade,
     r.1 = Ok {| executedTrades := [trade];
                 activePosition := Some position; isActive := true |}
     /\ t_orderId trade = orderId
     /\ t_quantity trade = o_quantity entry)
  /\ activePositions (agent (world r.2)) !! symbol strategy = Some position
  /\ activeMonitoring (agent (world r.2)) !! symbol strategy = Some (timer a)
  /\ channel (symbol strategy) ∈ subscriptions (world r.2)
  /\ timer a ∈ intervals (world r.2)
  /\ placed r.2
     = placed d
       ++ entry :: stopLossOrder strategy
          :: match stopOrder a with
             | Ok _ => [takeProfitOrder strategy]
             | Throw _ => []
             end
  /\ (forall o, o = stopLossOrder strategy \/ o = takeProfitOrder strategy ->
        o_reduceOnly o = true
        /\ o_side o = exitSide (side strategy)
        /\ o_quantity o = o_quantity entry)
  /\ o_stopPrice (stopLossOrder strategy) = Some (pos_stopLoss position)
  /\ o_stopPrice (takeProfitOrder strategy) = Some (pos_takeProfit position).
Proof.
  intros Hplan Hshould Hexisting Hentry r position entry. subst r.
  assert (Hw : forall d0, world (setupTPSL strategy a d0) = world d0).
  { intros d0. unfold setupTPSL. by destruct (stopOrder a). }
  assert (Hp : forall d0,
            placed (setupTPSL strategy a d0)
            = placed d0 ++ stopLossOrder strategy
                :: match stopOrder a with
                   | Ok _ => [takeProfitOrder strategy]
                   | Throw _ => []
                   end).
  { intros d0. unfold setupTPSL, place.
    destruct (stopOrder a); simpl; by rewrite <- ?app_assoc. }
  unfold execute, executeTrade. rewrite Hplan, Hshould, Hexisting, Hentry.
  cbn [negb fst snd world placed]. rewrite Hw, Hp.
  cbn [world placed place startMonitoring setPosition setAgent agent
       activePositions activeMonitoring subscriptions intervals].
  rewrite !lookup_insert_eq.
  split; [eexists; split; [reflexivity|by split]|].
  split; [reflexivity|]. split; [reflexivity|].
  split; [apply elem_of_union_l, elem_of_singleton; reflexivity|].
  split; [apply elem_of_union_l, elem_of_singleton; reflexivity|].
  split; [by rewrite <- app_assoc|].
  split; [|by split].
  intros o [-> | ->]; by repeat split.
Qed.

End Opening.

Section OpeningFailures.
Import Agent3Executor Agent3Trading.

Lemma execute_opens_and_monitors_witness :
  placed (execute Scenario.btc_long Samples3.stop_refused Samples3.empty_desk).2
  = [ entryOrderParams Scenario.btc_long
        {| shouldExecute := true; executionType := None; limitPrice := None |};
      stopLossOrder Scenario.btc_long ]
  /\ activeMonitoring
       (agent (world (execute Scenario.btc_long Samples3.stop_refused
                        Samples3.empty_desk).2)) !! "BTCUSDT"%string
     = Some 7%Z.
Proof.
  destruct (execute_opens_and_monitors Scenario.btc_long Samples3.stop_refused
              Samples3.empty_desk
              {| shouldExecute := true; executionType := None;
                 limitPrice := None |} "1001")
    as (_ & _ & Hm & _ & _ & Hp & _); try reflexivity.
  split; [exact Hp|exact Hm].
Defined.

(** X14.  [execute] on every other path: when it throws, or returns
    without executing, the executor is as it was (no position stored, no
    monitoring started).  The only order that may have been handed to the
    exchange is the entry order, and then the error thrown is the one of
    that order. *)
Theorem execute_failure_leaves_executor strategy a d :
  let r := execute strategy a d in
  match r.1 with
  | Ok out =>
      isActive out = true
      \/ (out = {| executedTrades := []; activePosition := None;
                   isActive := false |}
          /\ r.2 = d)
  | Throw e =>
      world r.2 = world d
      /\ (placed r.2 = placed d
          \/ exists p,
               plan a = Ok p
               /\ entryOrder a = Throw e
               /\ placed r.2 = placed d ++ [entryOrderParams strategy p])
  end.
Proof.
  unfold execute, executeTrade.
  destruct (plan a) as [p|e]; [|by split; [|left]].
  destruct (shouldExecute p); simpl; [|by right].
  destruct (hasExistingPosition strategy (existing a)); [by split; [|left]|].
  destruct (entryOrder a) as [orderId|e] eqn:Hentry; simpl; [by left|].
  split; [reflexivity|]. right. by exists p.
Qed.

End OpeningFailures.

(** ** Monitoring *)

Section Monitoring.
Import Agent3Executor Agent3Trading.

Lemma stopMonitoring_unfold symbol w :
  stopMonitoring symbol w
  = {| agent := {| activeMonitoring := delete symbol (activeMonitoring (agent w));
                   activePositions := activePositions (agent w) |};
       subscriptions := subscriptions w ∖ {[ channel symbol ]};
       intervals :=
         intervals w ∖ match activeMonitoring (agent w) !! symbol with
                       | Some intervalId => {[ intervalId ]}
                       | None => ∅
                       end;
       closing := closing w; orders := orders w; risk := risk w |}.
Proof.
  unfold stopMonitoring.
  destruct (activeMonitoring (agent w) !! symbol) as [id|] eqn:E; simpl.
  - reflexivity.
  - rewrite delete_id by exact E. rewrite difference_empty_L.
    by destruct w as [[] ? ? ? ? ?].
Qed.

(** X15.  Starting and then stopping the monitoring of a symbol that was
    not monitored, with a fresh timer handle, restores the executor: no
    timer, subscription or map entry is left behind. *)
Theorem stopMonitoring_startMonitoring id symbol w :
  activeMonitoring (agent w) !! symbol = None ->
  channel symbol ∉ subscriptions w ->
  id ∉ intervals w ->
  stopMonitoring symbol (startMonitoring id symbol w) = w.
Proof.
  intros Hm Hs Hi. rewrite stopMonitoring_unfold. simpl.
  rewrite lookup_insert_eq, delete_insert_eq, delete_id by exact Hm.
  assert (({[channel symbol]} ∪ subscriptions w) ∖ {[channel symbol]}
          = subscriptions w) as ->.
  { apply set_eq. intros x.
    rewrite elem_of_difference, elem_of_union, elem_of_singleton.
    split; [tauto|]. intros Hx. split; [by right|]. by intros ->. }
  assert (({[id]} ∪ intervals w) ∖ {[id]} = intervals w) as ->.
  { apply set_eq. intros x.
    rewrite elem_of_difference, elem_of_union, elem_of_singleton.
    split; [tauto|]. intros Hx. split; [by right|]. by intros ->. }
  by destruct w as [[] ? ? ? ? ?].
Qed.

Lemma stopMonitoring_startMonitoring_witness :
  stopMonitoring "BTCUSDT" (startMonitoring 7 "BTCUSDT" Samples3.empty_world)
  = Samples3.empty_world.
Proof.
  apply stopMonitoring_startMonitoring.
  - reflexivity.
  - apply not_elem_of_empty.
  - apply not_elem_of_empty.
Defined.

End Monitoring.

Section StopAll.
Import Agent3Executor Agent3Trading.

Lemma stopMonitoring_list (l : list (string * Z)) : forall w,
  NoDup l.*1 ->
  (forall k id, (k, id) ∈ l -> activeMonitoring (agent w) !! k = Some id) ->
  let w' := fold_left (fun w entry => stopMonitoring entry.1 w) l w in
  activePositions (agent w') = activePositions (agent w)
  /\ closing w' = closing w /\ orders w' = orders w /\ risk w' = risk w
  /\ (forall k, activeMonitoring (agent w') !! k
                = if decide (k ∈ l.*1) then None
                  else activeMonitoring (agent w) !! k)
  /\ subscriptions w' ⊆ subscriptions w
  /\ intervals w' ⊆ intervals w
  /\ (forall k id, (k, id) ∈ l ->
        (id ∉ intervals w') /\ (channel k ∉ subscriptions w')).
Proof.
  induction l as [|[k0 id0] l IH]; intros w Hnd Hl; simpl.
  { do 4 (split; [reflexivity|]). split; [|split; [done|split; [done|]]].
    - intros k.
      first [ reflexivity
            | destruct (decide _) as [H|];
              [by apply elem_of_nil in H|reflexivity] ].
    - intros k id H. by apply elem_of_nil in H. }
  apply NoDup_cons in Hnd as [Hk0 Hnd].
  assert (H0 : activeMonitoring (agent w) !! k0 = Some id0).
  { apply Hl. apply list_elem_of_here. }
  set (w1 := stopMonitoring k0 w).
  assert (Hw1 : w1 = _) by apply stopMonitoring_unfold.
  rewrite H0 in Hw1.
  destruct (IH w1 Hnd) as (Hpos & Hcl & Hord & Hrisk & Hmon & Hsub & Hint & Hgone).
  { intros k id Hin. rewrite Hw1. simpl.
    rewrite lookup_delete_ne; [apply Hl; by apply list_elem_of_further|].
    intros ->. apply Hk0. apply list_elem_of_fmap. by exists (k, id). }
  assert (Hsub1 : subscriptions w1 ⊆ subscriptions w).
  { intros x Hx. rewrite Hw1 in Hx. simpl in Hx.
    by apply elem_of_difference in Hx as [Hx _]. }
  assert (Hint1 : intervals w1 ⊆ intervals w).
  { intros x Hx. rewrite Hw1 in Hx. simpl in Hx.
    by apply elem_of_difference in Hx as [Hx _]. }
  rewrite Hpos, Hcl, Hord, Hrisk.
  split; [by rewrite Hw1|]. split; [by rewrite Hw1|].
  split; [by rewrite Hw1|]. split; [by rewrite Hw1|].
  split; [|split; [|split]].
  - intros k. rewrite Hmon, Hw1. cbn [agent activeMonitoring].
    assert (Hcons : k ∈ k0 :: l.*1 <-> k = k0 \/ k ∈ l.*1)
      by apply elem_of_cons.
    destruct (decide (k ∈ l.*1)) as [Hin|Hnin];
      match goal with
      | |- context [decide (k ∈ ?L)] =>
          change L with (k0 :: l.*1);
          destruct (decide (k ∈ k0 :: l.*1)) as [Hin'|Hnin']
      end.
    + reflexivity.
    + destruct Hnin'. apply Hcons. by right.
    + apply Hcons in Hin' as [->|Hin']; [|done]. apply lookup_delete_eq.
    + apply lookup_delete_ne. intros ->. apply Hnin', Hcons. by left.
  - intros x Hx. by apply Hsub1, Hsub.
  - intros x Hx. by apply Hint1, Hint.
  - intros k id H.
    apply elem_of_cons in H as [[= -> ->]|H]; [|by apply (Hgone k id)].
    split; intros Hx.
    + apply Hint in Hx. rewrite Hw1 in Hx. simpl in Hx.
      by apply not_elem_of_removed in Hx.
    + apply Hsub in Hx. rewrite Hw1 in Hx. simpl in Hx.
      by apply not_elem_of_removed in Hx.
Qed.

(** X16.  [stopAllMonitoring] leaves no symbol monitored: the map of
    timers is empty, every timer it held is cleared and every monitored
    symbol is unsubscribed.  It closes nothing: the stored positions, the
    close requests and the daily counters are untouched. *)
Theorem stopAllMonitoring_clears w :
  let w' := stopAllMonitoring w in
  activeMonitoring (agent w') = ∅
  /\ (forall symbol id,
        activeMonitoring (agent w) !! symbol = Some id ->
        (id ∉ intervals w') /\ (channel symbol ∉ subscriptions w'))
  /\ activePositions (agent w') = activePositions (agent w)
  /\ orders w' = orders w
  /\ closing w' = closing w
  /\ risk w' = risk w.
Proof.
  intros w'. subst w'. unfold stopAllMonitoring.
  destruct (stopMonitoring_list (map_to_list (activeMonitoring (agent w))) w)
    as (Hpos & Hcl & Hord & Hrisk & Hmon & _ & _ & Hgone).
  { apply NoDup_fst_map_to_list. }
  { intros k id. apply elem_of_map_to_list. }
  split.
  { apply map_eq. intros k. rewrite Hmon, lookup_empty.
    destruct (decide _) as [|Hnin]; [done|].
    destruct (activeMonitoring (agent w) !! k) as [id|] eqn:E; [|done].
    destruct Hnin. apply list_elem_of_fmap. exists (k, id).
    split; [done|]. by apply elem_of_map_to_list. }
  split; [|done].
  intros symbol id H. apply Hgone. by apply elem_of_map_to_list.
Qed.

End StopAll.

Section StopAllWitness.
Import Agent3Executor Agent3Trading.

Lemma stopAllMonitoring_clears_witness :
  (1%Z ∉ intervals (stopAllMonitoring Scenario.monitoring_btc))
  /\ (channel "BTCUSDT" ∉ subscriptions (stopAllMonitoring Scenario.monitoring_btc)).
Proof.
  apply (stopAllMonitoring_clears Scenario.monitoring_btc). reflexivity.
Defined.

End StopAllWitness.

(** ** Closing a position *)

Section Closing.
Import RiskManager Agent3Executor Agent3Trading.

Lemma onPriceUpdate_stop_fires now symbol price w p :
  activePositions (agent w) !! symbol = Some p ->
  shouldTriggerStopLoss price (pos_stopLoss p) (pos_side p) = true ->
  let w' := onPriceUpdate now symbol price w in
  closing w' = closing w ++ [(symbol, STOP_LOSS)]
  /\ orders w' = orders w ++ [(symbol, pos_side p)]
  /\ exists p', activePositions (agent w') !! symbol = Some p'
                /\ pos_stopLoss p' = pos_stopLoss p
                /\ pos_side p' = pos_side p.
Proof.
  intros Hp Hstop w'. subst w'. unfold onPriceUpdate. rewrite Hp.
  cbn [updatePrice pos_stopLoss pos_side]. rewrite Hstop.
  unfold closePosition. cbn [setPosition setAgent agent activePositions].
  rewrite lookup_insert_eq. cbn [snd closing orders agent activePositions pos_side].
  split; [reflexivity|]. split; [reflexivity|].
  eexists. split; [apply lookup_insert_eq|]. by split.
Qed.

(** X17.  Close requests are not deduplicated: while the position is
    stored, every tick at which its stop triggers starts another close and
    sends another close request to the exchange, one per tick. *)
Theorem triggering_ticks_each_send_a_close symbol (ticks : list (Z * Q)) :
  forall w p,
  activePositions (agent w) !! symbol = Some p ->
  Forall (fun tick =>
            shouldTriggerStopLoss tick.2 (pos_stopLoss p) (pos_side p) = true)
         ticks ->
  let w' := onPriceUpdates symbol ticks w in
  orders w' = orders w ++ replicate (length ticks) (symbol, pos_side p)
  /\ closing w' = closing w ++ replicate (length ticks) (symbol, STOP_LOSS).
Proof.
  induction ticks as [|[now price] ticks IH]; intros w p Hp Hall.
  { simpl. by rewrite !app_nil_r. }
  apply Forall_cons in Hall as [Hstop Hall]. simpl in Hstop.
  destruct (onPriceUpdate_stop_fires now symbol price w p Hp Hstop)
    as (Hcl & Hord & p' & Hp' & Hsl & Hside).
  change (onPriceUpdates symbol ((now, price) :: ticks) w)
    with (onPriceUpdates symbol ticks (onPriceUpdate now symbol price w)).
  destruct (IH _ p' Hp') as [IHord IHcl].
  { by rewrite Hsl, Hside. }
  cbv zeta. rewrite IHord, IHcl, Hord, Hcl, Hside.
  simpl. by rewrite <- !app_assoc.
Qed.

Lemma triggering_ticks_each_send_a_close_witness :
  orders (onPriceUpdates "BTCUSDT" [(1%Z, 97); (2%Z, 96.5); (3%Z, 97.5)]
            Scenario.monitoring_btc)
  = [("BTCUSDT"%string, LONG); ("BTCUSDT"%string, LONG);
     ("BTCUSDT"%string, LONG)].
Proof.
  apply (triggering_ticks_each_send_a_close "BTCUSDT"
           [(1%Z, 97); (2%Z, 96.5); (3%Z, 97.5)]
           Scenario.monitoring_btc (newPosition 0 Scenario.btc_long)).
  - reflexivity.
  - repeat constructor.
Defined.

(** X18.  The two outcomes of a close request for a stored, monitored
    position.  Confirmed: the unrealized P&L of the position is added to
    the daily P&L (after the rollover check), the timer and the
    subscription are removed and the position is deleted.  Refused:
    nothing changes after the request; the position stays stored and
    monitored.  For a symbol without a stored position [closePosition]
    sends nothing. *)
Theorem closePosition_outcomes now symbol reason w p id e :
  activePositions (agent w) !! symbol = Some p ->
  activeMonitoring (agent w) !! symbol = Some id ->
  let w1 := (closePosition symbol reason w).2 in
  let confirmed := closePosition_resume now symbol p (Ok tt) w1 in
  let refused := closePosition_resume now symbol p (Throw e) w1 in
  (closePosition symbol reason w).1 = Some p
  /\ orders w1 = orders w ++ [(symbol, pos_side p)]
  /\ activePositions (agent confirmed) !! symbol = None
  /\ activeMonitoring (agent confirmed) !! symbol = None
  /\ (id ∉ intervals confirmed)
  /\ (channel symbol ∉ subscriptions confirmed)
  /\ risk confirmed = updateDailyPnL now (pos_unrealizedPnL p) (risk w)
  /\ orders confirmed = orders w1
  /\ refused = w1
  /\ activePositions (agent refused) !! symbol = Some p
  /\ activeMonitoring (agent refused) !! symbol = Some id
  /\ risk refused = risk w
  /\ (forall symbol',
        activePositions (agent w) !! symbol' = None ->
        closePosition symbol' reason w = (None, w)).
Proof.
  intros Hp Hm w1 confirmed refused. subst w1 confirmed refused.
  unfold closePosition. rewrite Hp. cbn [fst snd].
  unfold closePosition_resume. rewrite !stopMonitoring_unfold.
  cbn [setAgent agent activePositions activeMonitoring subscriptions
       intervals closing orders risk].
  rewrite Hm, !lookup_delete_eq.
  split; [reflexivity|]. split; [reflexivity|]. split; [reflexivity|].
  split; [reflexivity|]. split; [apply not_elem_of_removed|].
  split; [apply not_elem_of_removed|].
  split; [reflexivity|]. split; [reflexivity|]. split; [reflexivity|].
  split; [first [exact Hp|reflexivity]|].
  split; [first [exact Hm|reflexivity]|]. split; [reflexivity|].
  intros symbol' H. by rewrite H.
Qed.

Lemma closePosition_outcomes_witness :
  activePositions
    (agent (closePosition_resume Scenario.jan15 "BTCUSDT"
              (newPosition 0 Scenario.btc_long) (Ok tt)
              (closePosition "BTCUSDT" STOP_LOSS Scenario.monitoring_btc).2))
    !! "BTCUSDT"%string
  = None.
Proof.
  apply (closePosition_outcomes Scenario.jan15 "BTCUSDT" STOP_LOSS
           Scenario.monitoring_btc (newPosition 0 Scenario.btc_long) 1
           "refused"); reflexivity.
Defined.

End Closing.

(** ** Ticks and the rest of the executor *)

Section TickFrame.
Import RiskManager Agent3Executor Agent3Trading.

(** X19.  A position just built by [executeTrade] from a strategy with a
    positive entry price and positive stop and target percentages is not
    closed by a tick at its entry price: no close is started, the stop and
    the target stay where they were, and the unrealized P&L is zero. *)
Theorem fresh_position_survives_entry_tick opened now strategy w :
  0 < entryPrice strategy ->
  0 < sl_percentage (stopLoss strategy) ->
  0 < tp_percentage (takeProfit strategy) ->
  let position := newPosition opened strategy in
  let w0 := setPosition (symbol strategy) position w in
  let w' := onPriceUpdate now (symbol strategy) (entryPrice strategy) w0 in
  closing w' = closing w /\ orders w' = orders w
  /\ exists p',
       activePositions (agent w') !! symbol strategy = Some p'
       /\ pos_stopLoss p' = pos_stopLoss position
       /\ pos_takeProfit p' = pos_takeProfit position
       /\ pos_unrealizedPnL p' == 0.
Proof.
  intros He Hsl Htp position w0 w'.
  assert (Hq1 : 0 < sl_percentage (stopLoss strategy) / 100)
    by (apply Qlt_shift_div_l; lra).
  assert (Hq2 : 0 < tp_percentage (takeProfit strategy) / 100)
    by (apply Qlt_shift_div_l; lra).
  assert (Hstop : shouldTriggerStopLoss (entryPrice strategy)
                    (pos_stopLoss position) (pos_side position) = false).
  { subst position. cbn [newPosition pos_stopLoss pos_side].
    unfold shouldTriggerStopLoss, calculateStopLoss, Qgeb.
    set (q := sl_percentage (stopLoss strategy) / 100) in *. clearbody q.
    destruct (side strategy); apply not_true_iff_false;
      rewrite Qle_bool_iff; nra. }
  assert (Htake : shouldTriggerTakeProfit (entryPrice strategy)
                    (pos_takeProfit position) (pos_side position) = false).
  { subst position. cbn [newPosition pos_takeProfit pos_side].
    unfold shouldTriggerTakeProfit, calculateTakeProfit, Qgeb.
    set (q := tp_percentage (takeProfit strategy) / 100) in *. clearbody q.
    destruct (side strategy); apply not_true_iff_false;
      rewrite Qle_bool_iff; nra. }
  assert (Hpnl : pos_unrealizedPnL (updatePrice now (entryPrice strategy) position)
                 == 0).
  { subst position. cbn [updatePrice newPosition pos_unrealizedPnL
                         pos_entryPrice pos_size pos_leverage pos_side].
    unfold calculatePnL. destruct (side strategy); field; lra. }
  assert (Htrail : trailStop (entryPrice strategy)
                     (updatePrice now (entryPrice strategy) position)
                   = updatePrice now (entryPrice strategy) position).
  { unfold trailStop.
    assert (Qgtb (pos_unrealizedPnL
                    (updatePrice now (entryPrice strategy) position)) 5
            = false) as ->.
    { apply Qgtb_false. rewrite Hpnl. discriminate. }
    by rewrite andb_false_r. }
  subst w'. unfold onPriceUpdate. subst w0.
  cbn [setPosition setAgent agent activePositions].
  rewrite lookup_insert_eq.
  change (pos_stopLoss (updatePrice now (entryPrice strategy) position))
    with (pos_stopLoss position).
  change (pos_takeProfit (updatePrice now (entryPrice strategy) position))
    with (pos_takeProfit position).
  change (pos_side (updatePrice now (entryPrice strategy) position))
    with (pos_side position).
  rewrite Hstop, Htake, Htrail.
  cbn [setPosition setAgent agent activePositions closing orders].
  split; [reflexivity|]. split; [reflexivity|].
  eexists. split; [apply lookup_insert_eq|].
  split; [reflexivity|]. split; [reflexivity|]. exact Hpnl.
Qed.

Lemma fresh_position_survives_entry_tick_witness :
  closing (onPriceUpdate 1 "BTCUSDT" 100 Scenario.monitoring_btc) = [].
Proof.
  apply (fresh_position_survives_entry_tick 0 1 Scenario.btc_long
           Scenario.monitoring_btc); reflexivity.
Defined.

(** X20.  A tick of one symbol touches only the position stored for that
    symbol: the positions of the other symbols, the timers, the
    subscriptions and the daily counters are as before, and a tick for a
    symbol without a stored position changes nothing at all. *)
Theorem onPriceUpdate_frame now symbol price w :
  let w' := onPriceUpdate now symbol price w in
  (forall symbol', symbol' <> symbol ->
     activePositions (agent w') !! symbol'
     = activePositions (agent w) !! symbol')
  /\ activeMonitoring (agent w') = activeMonitoring (agent w)
  /\ subscriptions w' = subscriptions w
  /\ intervals w' = intervals w
  /\ risk w' = risk w
  /\ (activePositions (agent w) !! symbol = None -> w' = w)
  /\ (is_Some (activePositions (agent w) !! symbol)
      -> is_Some (activePositions (agent w') !! symbol)).
Proof.
  intros w'. subst w'. unfold onPriceUpdate.
  destruct (activePositions (agent w) !! symbol) as [p|] eqn:Hp.
  - set (q := updatePrice now price p).
    assert (Hset : forall x symbol',
              symbol' <> symbol ->
              activePositions (agent (setPosition symbol x w)) !! symbol'
              = activePositions (agent w) !! symbol').
    { intros x symbol' Hne. simpl. by rewrite lookup_insert_ne. }
    unfold closePosition.
    cbn [setPosition setAgent agent activePositions].
    rewrite lookup_insert_eq.
    destruct (shouldTriggerStopLoss price (pos_stopLoss q) (pos_side q));
      [|destruct (shouldTriggerTakeProfit price (pos_takeProfit q) (pos_side q))];
      cbn [snd agent activePositions activeMonitoring subscriptions intervals
           risk setPosition setAgent];
      (split; [intros symbol' Hne; rewrite ?lookup_insert_ne by done; reflexivity|]);
      (do 4 (split; [reflexivity|])); (split; [discriminate|]); intros _;
      rewrite ?insert_insert_eq, lookup_insert_eq; by eexists.
  - repeat split; try reflexivity. intros [x Hx]. discriminate.
Qed.

Lemma onPriceUpdate_frame_witness :
  onPriceUpdate 1 "ETHUSDT" 4000 Scenario.monitoring_btc
  = Scenario.monitoring_btc.
Proof.
  apply (onPriceUpdate_frame 1 "ETHUSDT" 4000 Scenario.monitoring_btc).
  reflexivity.
Defined.

End TickFrame.

(** ** Conversation history *)

Section History.
Import AgentOrchestrator Orchestration.

Lemma findIndex_Some {A} (f : A -> bool) (l : list A) : forall k,
  findIndex f l = Some k
  <-> (exists x, l !! k = Some x /\ f x = true)
      /\ (forall j y, (j < k)%nat -> l !! j = Some y -> f y = false).
Proof.
  induction l as [|a l IH]; intros k; simpl.
  { split; [discriminate|]. intros [(x & H & _) _]. discriminate. }
  destruct (f a) eqn:Ha.
  - split.
    + intros [= <-]. split; [by exists a|]. intros j y Hj. lia.
    + intros [(x & Hx & Hfx) Hbefore]. destruct k as [|k]; [done|].
      pose proof (Hbefore 0%nat a ltac:(lia) eq_refl). congruence.
  - destruct (findIndex f l) as [i|] eqn:Hi; simpl.
    + split.
      * intros [= <-]. destruct (proj1 (IH i) eq_refl) as [Hx Hbefore].
        split; [exact Hx|]. intros [|j] y Hj Hy; simpl in Hy.
        -- by injection Hy as <-.
        -- apply (Hbefore j); [lia|done].
      * intros [(x & Hx & Hfx) Hbefore]. destruct k as [|k].
        { simpl in Hx. injection Hx as <-. congruence. }
        assert (Hk : Some i = Some k); [|by injection Hk as ->].
        apply IH. split; [by exists x|].
        intros j y Hj Hy. apply (Hbefore (S j)); [lia|done].
    + split; [discriminate|].
      intros [(x & Hx & Hfx) Hbefore]. destruct k as [|k].
      { simpl in Hx. injection Hx as <-. congruence. }
      assert (Hk : None = Some k); [|discriminate].
      apply IH. split; [by exists x|].
      intros j y Hj Hy. apply (Hbefore (S j)); [lia|done].
Qed.

Lemma findIndex_is_Some {A} (f : A -> bool) (l : list A) x :
  x ∈ l -> f x = true -> is_Some (findIndex f l).
Proof.
  induction l as [|a l IH]; intros Hin Hf; [by apply elem_of_nil in Hin|].
  simpl. destruct (f a) eqn:Ha; [by eexists|].
  apply elem_of_cons in Hin as [->|Hin]; [congruence|].
  destruct (IH Hin Hf) as [k ->]. by eexists.
Qed.

Lemma filterIndexed_elem {A} (f : A -> nat -> bool) (l : list A) : forall i x,
  x ∈ filterIndexed f i l
  <-> exists j, l !! j = Some x /\ f x (i + j)%nat = true.
Proof.
  induction l as [|a l IH]; intros i x; simpl.
  { split; [intros H; by apply elem_of_nil in H|]. intros (j & H & _).
    discriminate. }
  assert (Hrest : x ∈ filterIndexed f (S i) l
                  <-> exists j, l !! j = Some x /\ f x (i + S j)%nat = true).
  { rewrite IH. split; intros (j & Hj & Hf); exists j;
      (split; [done|]); by replace (i + S j)%nat with (S i + j)%nat in * by lia. }
  destruct (f a i) eqn:Ha.
  - rewrite elem_of_cons, Hrest. split.
    + intros [->|(j & Hj & Hf)].
      * exists 0%nat. split; [done|]. by rewrite Nat.add_0_r.
      * by exists (S j).
    + intros ([|j] & Hj & Hf); simpl in Hj.
      * left. by injection Hj.
      * right. by exists j.
  - rewrite Hrest. split.
    + intros (j & Hj & Hf). by exists (S j).
    + intros ([|j] & Hj & Hf); simpl in Hj.
      * injection Hj as <-. rewrite Nat.add_0_r in Hf. congruence.
      * by exists j.
Qed.

(** The entries kept by [unique]: those that are the first of their
    timestamp. *)
Lemma unique_elem (allHistory : list AgentMessage) m :
  m ∈ unique allHistory
  <-> exists k, allHistory !! k = Some m
                /\ forall j y, (j < k)%nat -> allHistory !! j = Some y ->
                               msg_timestamp y <> msg_timestamp m.
Proof.
  unfold unique. rewrite filterIndexed_elem. split.
  - intros (k & Hk & Hf). exists k. split; [done|].
    simpl in Hf. apply bool_decide_eq_true in Hf.
    apply findIndex_Some in Hf as [_ Hbefore].
    intros j y Hj Hy Heq. specialize (Hbefore j y Hj Hy).
    apply Z.eqb_neq in Hbefore. done.
  - intros (k & Hk & Hbefore). exists k. split; [done|].
    simpl. apply bool_decide_eq_true. apply findIndex_Some. split.
    + exists m. split; [done|]. apply Z.eqb_refl.
    + intros j y Hj Hy. apply Z.eqb_neq. by apply (Hbefore j).
Qed.

Lemma unique_timestamps_aux (allHistory l2 : list AgentMessage) : forall l1,
  allHistory = l1 ++ l2 ->
  NoDup (msg_timestamp <$>
           filterIndexed
             (fun msg index =>
                bool_decide
                  (findIndex (fun m => (msg_timestamp m =? msg_timestamp msg)%Z)
                             allHistory = Some index))
             (length l1) l2).
Proof.
  induction l2 as [|x l2 IH]; intros l1 Hall; simpl; [constructor|].
  assert (Hrest := IH (l1 ++ [x])).
  rewrite length_app, Nat.add_1_r in Hrest. simpl in Hrest.
  specialize (Hrest ltac:(by rewrite Hall, <- app_assoc)).
  destruct (bool_decide _) eqn:Hx; [|exact Hrest].
  rewrite fmap_cons. apply NoDup_cons. split; [|exact Hrest].
  intros Hin. apply list_elem_of_fmap in Hin as (y & Hts & Hy).
  apply filterIndexed_elem in Hy as (j & Hj & Hf).
  apply bool_decide_eq_true in Hf.
  apply findIndex_Some in Hf as [_ Hbefore].
  specialize (Hbefore (length l1) x).
  rewrite Hall in Hbefore.
  rewrite lookup_app_r, Nat.sub_diag in Hbefore by lia.
  specialize (Hbefore ltac:(lia) eq_refl).
  apply Z.eqb_neq in Hbefore. congruence.
Qed.

Lemma unique_timestamps (allHistory : list AgentMessage) :
  NoDup (msg_timestamp <$> unique allHistory).
Proof. apply (unique_timestamps_aux allHistory allHistory []). reflexivity. Qed.

Lemma strictly_newer_first (l : list AgentMessage) :
  StronglySorted newerFirst l -> NoDup (msg_timestamp <$> l) ->
  StronglySorted (fun a b => (msg_timestamp b < msg_timestamp a)%Z) l.
Proof.
  induction l as [|a l IH]; intros Hs Hnd; [constructor|].
  apply StronglySorted_inv in Hs as [Hs Hall].
  rewrite fmap_cons in Hnd. apply NoDup_cons in Hnd as [Ha Hnd].
  constructor; [by apply IH|].
  apply Forall_forall. intros b Hb.
  assert (Hle : newerFirst a b).
  { rewrite Forall_forall in Hall. by apply Hall. }
  unfold newerFirst in Hle.
  assert (msg_timestamp b <> msg_timestamp a).
  { intros Heq. apply Ha. rewrite <- Heq. apply list_elem_of_fmap. by exists b. }
  lia.
Qed.

#[local] Instance newerFirst_total : Total newerFirst.
Proof. intros a b. unfold newerFirst. lia. Qed.

#[local] Instance newerFirst_trans : Transitive newerFirst.
Proof. intros a b c. unfold newerFirst. lia. Qed.

(** X21.  [getConversationHistory] returns the entries strictly newest
    first, hence at most one entry per timestamp; a timestamp occurs in the
    result exactly when it occurs in the history file or in the session;
    and each entry returned is the first one with its timestamp in the
    file followed by the session, so that of two entries with one
    timestamp only the earlier is shown. *)
Theorem getConversationHistory_sorted_unique (s : t) :
  let allHistory := conversationsFile s ++ conversationHistory s in
  let shown := getConversationHistory s in
  StronglySorted (fun a b => (msg_timestamp b < msg_timestamp a)%Z) shown
  /\ (forall time,
        time ∈ msg_timestamp <$> shown <-> time ∈ msg_timestamp <$> allHistory)
  /\ (forall m,
        m ∈ shown
        <-> exists k, allHistory !! k = Some m
                      /\ forall j y, (j < k)%nat -> allHistory !! j = Some y ->
                                     msg_timestamp y <> msg_timestamp m).
Proof.
  intros allHistory shown.
  assert (Hperm : shown ≡ₚ unique allHistory)
    by apply merge_sort_Permutation.
  assert (Hmem : forall m, m ∈ shown <-> m ∈ unique allHistory).
  { intros m. by rewrite Hperm. }
  split.
  { apply strictly_newer_first.
    - apply StronglySorted_merge_sort; apply _.
    - rewrite Hperm. apply unique_timestamps. }
  split; [|intros m; rewrite Hmem; apply unique_elem].
  intros time. rewrite !list_elem_of_fmap. split.
  - intros (m & -> & Hm). exists m. split; [done|].
    apply Hmem, unique_elem in Hm as (k & Hk & _).
    by eapply list_elem_of_lookup_2.
  - intros (m & -> & Hm).
    destruct (findIndex_is_Some
                (fun y => (msg_timestamp y =? msg_timestamp m)%Z)
                allHistory m Hm (Z.eqb_refl _)) as [k Hk].
    apply findIndex_Some in Hk as [(x & Hx & Hfx) Hbefore].
    apply Z.eqb_eq in Hfx. exists x. split; [done|].
    apply Hmem, unique_elem. exists k. split; [done|].
    intros j y Hj Hy. rewrite Hfx. apply Z.eqb_neq. by apply (Hbefore j).
Qed.

End History.

(** ** What a cycle logs and touches *)

Section CycleEffects.
Import AgentOrchestrator Orchestration.

Variable agent1_execute : string -> result TradingStrategy.
Variable getWalletBalance : result Q.
Variable optimizeStrategy :
  TradingStrategy -> list Position -> result TradingStrategy.
Variable clock : AgentType -> Z.
Variable today : Date.
Variable cfg : TradingConfig.
Variable env : ProcessEnv.

Local Abbreviation cycle agent3_execute manual :=
  (runCycle agent1_execute getWalletBalance optimizeStrategy agent3_execute
            clock today cfg env manual).

Lemma saveConversation_world message s :
  world (saveConversation message s) = world s.
Proof. unfold saveConversation. by destruct (fileWritable s). Qed.

Lemma saveConversation_failures message s :
  cycleFailures (saveConversation message s) = cycleFailures s.
Proof. unfold saveConversation. by destruct (fileWritable s). Qed.

Lemma saveConversation_running message s :
  isRunning (saveConversation message s) = isRunning s.
Proof. unfold saveConversation. by destruct (fileWritable s). Qed.

Lemma alter_last {A} (f : A -> A) (l : list A) (x : A) :
  alter f (pred (length (l ++ [x]))) (l ++ [x]) = l ++ [f x].
Proof.
  rewrite length_app. simpl.
  replace (pred (length l + 1)) with (length l + 0)%nat by lia.
  by rewrite alter_app_r.
Qed.

Ltac cycle_cases agent3_execute manual :=
  unfold runCycle, stage3, agent2_execute, try_catch, bind, await, ret,
    logConversation, amendLogged, getWorld, putWorld, reportCycleFailed;
  destruct (agent1_execute _) as [initialStrategy|e]; cbn [fst snd];
  [destruct getWalletBalance as [walletBalance|e]; cbn [fst snd];
   [rewrite !saveConversation_world; cbn [world];
    destruct (Agent2Optimizer.execute _ _ _ _ _ _ _ _) as [r rm];
    destruct r as [agent2Output|e]; cbn [fst snd];
    [destruct (bool_decide (_ = REJECT));
     [|try destruct manual;
       [|rewrite ?saveConversation_world; cbn [world];
         try (destruct (agent3_execute _ _) as [r3 w3];
              destruct r3 as [[]|e]; cbn [fst snd])..]]|]|]|].

Ltac history :=
  simpl;
  repeat (rewrite ?saveConversation_history, ?alter_last, <- ?app_assoc;
          simpl).

Ltac finish :=
  eexists; history;
  split; [reflexivity|]; split; [simpl; tauto|];
  simpl; repeat (constructor; [simpl; tauto|]); constructor.

(** X22.  One cycle appends at most three entries to the conversation
    history, in the order agent1, agent2, agent3: entries are appended
    only after the stages before them were logged.  Entries for agent1
    and agent2 always have status success; only the entry for agent3 can
    have status error. *)
Theorem runCycle_entries agent3_execute manual symbol s :
  exists rest,
    conversationHistory
      (runCycle agent1_execute getWalletBalance optimizeStrategy
                agent3_execute clock today cfg env manual symbol s).2
    = conversationHistory s ++ rest
    /\ (msg_agent <$> rest = []
        \/ msg_agent <$> rest = [agent1]
        \/ msg_agent <$> rest = [agent1; agent2]
        \/ msg_agent <$> rest = [agent1; agent2; agent3])
    /\ Forall (fun m => msg_status m = SUCCESS
                        \/ (msg_agent m = agent3 /\ msg_status m = ERROR))
              rest.
Proof.
  cycle_cases agent3_execute manual;
    [by finish..|].
  exists []. simpl. rewrite app_nil_r.
  split; [reflexivity|]. split; [by left|constructor].
Qed.

(** The cycle leaves the running flag alone. *)
Lemma runCycle_isRunning agent3_execute manual symbol s :
  isRunning (cycle agent3_execute manual symbol s).2 = isRunning s.
Proof.
  cycle_cases agent3_execute manual; simpl;
    by rewrite ?saveConversation_running; simpl;
       rewrite ?saveConversation_running; simpl;
       rewrite ?saveConversation_running.
Qed.

(** X23.  With [manualApprovalRequired] set, a cycle stops after stage 2:
    it does not depend on the executor, and it leaves the stored
    positions, the timers, the subscriptions, the close requests and the
    orders as they were.  Only the daily counters of the risk manager can
    change.  The cycle logs at most the entries of agent1 and agent2. *)
Theorem runCycle_manual_approval agent3_execute agent3_execute' symbol s :
  let cycle agent3_execute :=
    runCycle agent1_execute getWalletBalance optimizeStrategy agent3_execute
             clock today cfg env true symbol s in
  let after := (cycle agent3_execute).2 in
  cycle agent3_execute = cycle agent3_execute'
  /\ Agent3Executor.agent (world after) = Agent3Executor.agent (world s)
  /\ Agent3Executor.subscriptions (world after)
     = Agent3Executor.subscriptions (world s)
  /\ Agent3Executor.intervals (world after)
     = Agent3Executor.intervals (world s)
  /\ Agent3Executor.closing (world after) = Agent3Executor.closing (world s)
  /\ Agent3Executor.orders (world after) = Agent3Executor.orders (world s)
  /\ (length (conversationHistory after)
      <= length (conversationHistory s) + 2)%nat.
Proof.
  intros cycle after. subst after cycle. cbv beta. split; [reflexivity|].
  cycle_cases agent3_execute true; history;
    repeat (rewrite ?saveConversation_world; simpl);
    rewrite ?length_app; simpl; repeat split; lia.
Qed.

(** X24.  Starting a stopped service runs one cycle at once, on the
    state with the running flag set: the state after [start] is the state
    this cycle leaves, the flag is still set and, with auto trading
    enabled, the cycle timer is installed; a second [start] then does
    nothing.  [stop] clears the flag,
    the cycle timer and all monitoring, and closes nothing: the stored
    positions, the close requests, the orders and the conversation history
    stay; a second [stop] does nothing. *)
Theorem start_then_stop agent3_execute manual autoTradingEnabled timer
    symbol v :
  isRunning (core v) = false ->
  let run := start (cycle agent3_execute manual) autoTradingEnabled timer in
  let started := (run symbol v).2 in
  let stopped := stop started in
  (run symbol v).1 = Ok tt
  /\ core started
     = (runCycle agent1_execute getWalletBalance optimizeStrategy
                 agent3_execute clock today cfg env manual symbol
                 (setRunning true (core v))).2
  /\ isRunning (core started) = true
  /\ cycleInterval started
     = (if autoTradingEnabled then Some timer else cycleInterval v)
  /\ run symbol started = (Ok tt, started)
  /\ isRunning (core stopped) = false
  /\ cycleInterval stopped = None
  /\ Agent3Executor.activeMonitoring
       (Agent3Executor.agent (world (core stopped))) = ∅
  /\ Agent3Executor.activePositions
       (Agent3Executor.agent (world (core stopped)))
     = Agent3Executor.activePositions
         (Agent3Executor.agent (world (core started)))
  /\ Agent3Executor.closing (world (core stopped))
     = Agent3Executor.closing (world (core started))
  /\ Agent3Executor.orders (world (core stopped))
     = Agent3Executor.orders (world (core started))
  /\ conversationHistory (core stopped) = conversationHistory (core started)
  /\ stop stopped = stopped.
Proof.
  intros Hidle run started stopped.
  pose proof (runCycle_never_throws agent1_execute getWalletBalance
                optimizeStrategy agent3_execute clock today cfg env manual
                symbol (setRunning true (core v))) as Hok.
  pose proof (runCycle_isRunning agent3_execute manual symbol
                (setRunning true (core v))) as Hrun.
  assert (Hstart : run symbol v
                   = (Ok tt,
                      {| core := (cycle agent3_execute manual symbol
                                    (setRunning true (core v))).2;
                         cycleInterval :=
                           if autoTradingEnabled then Some timer
                           else cycleInterval v |})).
  { subst run. unfold start. rewrite Hidle.
    destruct (cycle agent3_execute manual symbol (setRunning true (core v)))
      as [r s1]. simpl in Hok. by rewrite Hok. }
  assert (Hstarted : isRunning (core started) = true).
  { subst started. rewrite Hstart. simpl. by rewrite Hrun. }
  assert (Hstopped : stopped
                     = {| core :=
                            setRunning false
                              (setWorld
                                 (Agent3Trading.stopAllMonitoring
                                    (world (core started)))
                                 (core started));
                          cycleInterval := None |}).
  { subst stopped. unfold stop. by rewrite Hstarted. }
  split; [by rewrite Hstart|].
  split; [subst started; by rewrite Hstart|]. split; [exact Hstarted|].
  split; [subst started; by rewrite Hstart|].
  split; [subst run; unfold start; by rewrite Hstarted|].
  rewrite Hstopped. cbn [core cycleInterval setRunning setWorld isRunning
                           world conversationHistory].
  split; [reflexivity|]. split; [reflexivity|].
  unfold Agent3Trading.stopAllMonitoring.
  destruct (stopMonitoring_list
              (map_to_list (Agent3Executor.activeMonitoring
                              (Agent3Executor.agent (world (core started)))))
              (world (core started)))
    as (Hpos & Hcl & Hord & _ & Hmon & _).
  { apply NoDup_fst_map_to_list. }
  { intros k id. apply elem_of_map_to_list. }
  split.
  { apply map_eq. intros k. rewrite Hmon, lookup_empty.
    destruct (decide _) as [|Hnin]; [done|].
    destruct (Agent3Executor.activeMonitoring
                (Agent3Executor.agent (world (core started))) !! k)
      as [id|] eqn:E; [|done].
    destruct Hnin. apply list_elem_of_fmap. exists (k, id).
    split; [done|]. by apply elem_of_map_to_list. }
  do 4 (split; [done|]).
  unfold stop. reflexivity.
Qed.

End CycleEffects.

Section CycleEffectsWitness.
Import AgentOrchestrator Orchestration.

Lemma start_then_stop_witness :
  let v := {| core := AgentOrchestrator.new (RiskManager.new Scenario.jan15);
              cycleInterval := None |} in
  isRunning
    (core (stop (start (runCycle Scenario.oracle_btc Scenario.wallet
                          Scenario.keep Scenario.idle Scenario.still
                          Scenario.jan15 Scenario.cfg env_unset false)
                       true 7 "BTCUSDT" v).2))
  = false.
Proof.
  intros v.
  apply (start_then_stop Scenario.oracle_btc Scenario.wallet Scenario.keep
           Scenario.still Scenario.jan15 Scenario.cfg env_unset
           Scenario.idle false true 7 "BTCUSDT" v).
  reflexivity.
Defined.

End CycleEffectsWitness.


(** ** The history files *)

Section HistoryFiles.
Import AgentOrchestrator.

(** X25.  [saveConversation] never touches the session's history; when
    the file can be written, the saved message is the last entry of the
    file, the file holds the last 1000 entries of what it held followed
    by the message, and never more than 1000. *)
Theorem saveConversation_keeps_last_1000 message s :
  fileWritable s = true ->
  let s' := saveConversation message s in
  conversationHistory s' = conversationHistory s
  /\ last (conversationsFile s') = Some message
  /\ conversationsFile s' `suffix_of` conversationsFile s ++ [message]
  /\ length (conversationsFile s')
     = Nat.min 1000 (S (length (conversationsFile s))).
Proof.
  intros Hw s'. subst s'. unfold saveConversation. rewrite Hw. cbn zeta.
  set (conversations := conversationsFile s ++ [message]).
  assert (Hlen : length conversations = S (length (conversationsFile s))).
  { subst conversations. rewrite length_app. simpl. lia. }
  destruct (1000 <? length conversations)%nat eqn:Hcap;
    cbn [conversationHistory conversationsFile].
  - apply Nat.ltb_lt in Hcap.
    split; [reflexivity|]. split; [|split].
    + rewrite last_lookup, length_drop, lookup_drop.
      replace (length conversations - 1000
               + pred (length conversations
                       - (length conversations - 1000)))%nat
        with (length (conversationsFile s)) by lia.
      subst conversations. by rewrite lookup_app_r, Nat.sub_diag by lia.
    + apply suffix_drop.
    + rewrite length_drop. lia.
  - apply Nat.ltb_ge in Hcap.
    split; [reflexivity|]. split; [|split].
    + subst conversations. apply last_snoc.
    + done.
    + lia.
Qed.

Lemma saveConversation_keeps_last_1000_witness :
  let message :=
    {| msg_agent := agent1; msg_timestamp := 5; msg_status := SUCCESS;
       msg_data := NullData; msg_nextAgent := None; msg_error := None |} in
  last (conversationsFile
          (saveConversation message
             (AgentOrchestrator.new (RiskManager.new Scenario.jan15))))
  = Some message.
Proof.
  intros message.
  apply (saveConversation_keeps_last_1000 message
           (AgentOrchestrator.new (RiskManager.new Scenario.jan15))).
  reflexivity.
Defined.

End HistoryFiles.


(** ** The history of positions *)

Section PositionsFile.
Import Orchestration HistoryManager.

Lemma strictEq_refl a : strictEq a a = true.
Proof.
  destruct a as [[s|q]|]; simpl; [by apply bool_decide_eq_true| |done].
  apply Qeq_bool_iff. reflexivity.
Qed.

Lemma strictEq_other a b c :
  strictEq a b = true -> strictEq c b = false -> strictEq c a = false.
Proof.
  destruct a as [[s|q]|], b as [[s'|q']|], c as [[s''|q'']|]; simpl;
    try done.
  - rewrite !bool_decide_eq_true, !bool_decide_eq_false. congruence.
  - intros H1 H2. apply Qeq_bool_iff in H1.
    destruct (Qeq_bool q'' q) eqn:E; [|done].
    apply Qeq_bool_iff in E. rewrite <- H2. symmetry. apply Qeq_bool_iff.
    by rewrite E.
Qed.

Lemma strictEq_sym a b : strictEq a b = strictEq b a.
Proof.
  destruct a as [[s|q]|], b as [[s'|q']|]; simpl; try done.
  - apply bool_decide_ext. split; congruence.
  - destruct (Qeq_bool q q') eqn:E, (Qeq_bool q' q) eqn:E'; try done.
    + apply Qeq_bool_iff in E. rewrite <- E'. symmetry.
      apply Qeq_bool_iff. by symmetry.
    + apply Qeq_bool_iff in E'. rewrite <- E. apply Qeq_bool_iff.
      by symmetry.
Qed.

Lemma findIndex_None {A} (f : A -> bool) (l : list A) :
  findIndex f l = None <-> forall x, x ∈ l -> f x = false.
Proof.
  induction l as [|a l IH]; simpl.
  { split; [|done]. intros _ x H. by apply elem_of_nil in H. }
  destruct (f a) eqn:Ha.
  - split; [done|]. intros H. rewrite H in Ha; [done|]. apply list_elem_of_here.
  - destruct (findIndex f l) as [i|]; simpl.
    + split; [done|]. intros H.
      assert (Hn : Some i = None :> option nat); [|done].
      apply IH. intros x Hx. apply H. by apply list_elem_of_further.
    + split; [|done]. intros _ x Hx.
      apply elem_of_cons in Hx as [->|Hx]; [done|].
      by apply IH.
Qed.

Lemma findIndex_lt {A} (f : A -> bool) (l : list A) k :
  findIndex f l = Some k -> (k < length l)%nat.
Proof.
  intros H. apply findIndex_Some in H as [(x & Hx & _) _].
  by eapply lookup_lt_Some.
Qed.

(** Replacing an entry by one that answers the test in the same way does
    not move the first index. *)
Lemma findIndex_insert {A} (f : A -> bool) (l : list A) i x y :
  l !! i = Some y -> f x = f y ->
  findIndex f (<[i := x]> l) = findIndex f l.
Proof.
  revert i. induction l as [|a l IH]; intros i Hi Hf; [done|].
  destruct i as [|i]; simpl in *.
  - injection Hi as ->. by rewrite Hf.
  - destruct (f a); [done|]. by rewrite (IH i).
Qed.

Lemma findIndex_snoc {A} (f : A -> bool) (l : list A) x :
  findIndex f (l ++ [x])
  = match findIndex f l with
    | Some k => Some k
    | None => if f x then Some (length l) else None
    end.
Proof.
  induction l as [|a l IH]; simpl; [by destruct (f x)|].
  destruct (f a); [done|]. rewrite IH.
  destruct (findIndex f l); [done|]. by destruct (f x).
Qed.

(** Dropping a prefix without a match moves the first index with it. *)
Lemma findIndex_drop {A} (f : A -> bool) (l : list A) : forall n k,
  findIndex f l = Some k -> (n <= k)%nat ->
  findIndex f (drop n l) = Some (k - n)%nat.
Proof.
  induction l as [|a l IH]; intros n k H Hn; [done|].
  destruct n as [|n]; [by rewrite Nat.sub_0_r|].
  simpl in H. destruct (f a); [injection H as <-; lia|].
  destruct (findIndex f l) as [i|] eqn:Hi; [|done].
  injection H as <-. simpl. apply IH; [done|lia].
Qed.

(** What [savePosition] leaves in a writable file of at most 500
    entries. *)
Lemma savePosition_spec now position h :
  fileWritable h = true ->
  (length (positionsFile h) <= 500)%nat ->
  let byId (id : option Value) := fun p : Entry => strictEq (p !! "id") id in
  let before := findIndex (byId (position !! "id")) (positionsFile h) in
  let stored := positionsFile (savePosition now position h) in
  (length stored <= 500)%nat
  /\ (exists index,
        findIndex (byId (position !! "id")) stored = Some index
        /\ stored !! index
           = Some (<[(match before with
                      | Some _ => "updatedAt"
                      | None => "createdAt"
                      end)
                     := Str now]> position))
  /\ (is_Some before -> length stored = length (positionsFile h))
  /\ (forall id,
        (length (positionsFile h) < 500)%nat ->
        strictEq id (position !! "id") = false ->
        exists index,
          findIndex (byId id) stored = index
          /\ findIndex (byId id) (positionsFile h) = index
          /\ forall i, index = Some i -> stored !! i = positionsFile h !! i).
Proof.
  intros Hw Hlen byId before stored.
  subst stored. unfold savePosition, writeFile, getPositions. rewrite Hw.
  cbn zeta. fold (byId (position !! "id")). fold before.
  cbn [positionsFile].
  assert (Hid : forall key, key <> "id" ->
                  byId (position !! "id") (<[key := Str now]> position)
                  = true).
  { intros key Hkey. subst byId. cbv beta.
    rewrite lookup_insert_ne by done. apply strictEq_refl. }
  destruct before as [existingIndex|] eqn:Hbefore; subst before.
  - (* an entry with this id is stored *)
    pose proof Hbefore as Hfound.
    apply findIndex_Some in Hfound as [(old & Hold & Hmatch) _].
    rewrite length_insert.
    destruct (500 <? length (positionsFile h))%nat eqn:Hcap;
      [apply Nat.ltb_lt in Hcap; lia|].
    rewrite !length_insert.
    split; [done|]. split; [|split; [done|]].
    + exists existingIndex. split.
      * rewrite (findIndex_insert _ _ _ _ old); [done..|].
        rewrite Hmatch. by apply Hid.
      * apply list_lookup_insert_eq. by eapply lookup_lt_Some.
    + intros id _ Hother. eexists. split; [reflexivity|].
      assert (Hold' : byId id old = false).
      { subst byId. cbv beta. rewrite strictEq_sym.
        by apply (strictEq_other _ (position !! "id")). }
      assert (Hnew : byId id (<["updatedAt" := Str now]> position) = false).
      { subst byId. cbv beta. rewrite lookup_insert_ne by done.
        by rewrite strictEq_sym. }
      split.
      * symmetry. apply (findIndex_insert _ _ _ _ old); [done|].
        by rewrite Hnew, Hold'.
      * intros i Hi.
        destruct (decide (i = existingIndex)) as [->|Hne].
        -- rewrite (findIndex_insert _ _ _ _ old) in Hi
             by (done || by rewrite Hnew, Hold').
           apply findIndex_Some in Hi as [(x & Hx & Hfx) _].
           rewrite Hold in Hx. injection Hx as <-. congruence.
        -- by apply list_lookup_insert_ne.
  - (* a new id *)
    set (created := <["createdAt" := Str now]> position).
    assert (Hnew : findIndex (byId (position !! "id"))
                     (positionsFile h ++ [created])
                   = Some (length (positionsFile h))).
    { rewrite findIndex_snoc, Hbefore. subst created. by rewrite Hid. }
    rewrite length_app. simpl length.
    destruct (500 <? length (positionsFile h) + 1)%nat eqn:Hcap.
    + apply Nat.ltb_lt in Hcap.
      assert (Hfull : length (positionsFile h) = 500%nat) by lia.
      split; [rewrite length_drop, length_app; simpl; lia|].
      split; [|split; [by intros [? ?]|intros id Hlt; lia]].
      exists (length (positionsFile h) - (length (positionsFile h) + 1 - 500))%nat.
      split; [apply findIndex_drop; [done|lia]|].
      rewrite lookup_drop.
      replace (length (positionsFile h) + 1 - 500
               + (length (positionsFile h)
                  - (length (positionsFile h) + 1 - 500)))%nat
        with (length (positionsFile h)) by lia.
      by rewrite lookup_app_r, Nat.sub_diag by lia.
    + apply Nat.ltb_ge in Hcap.
      split; [rewrite length_app; simpl; lia|].
      split; [|split; [by intros [? ?]|]].
      * exists (length (positionsFile h)). split; [done|].
        by rewrite lookup_app_r, Nat.sub_diag by lia.
      * intros id _ Hother. eexists. split; [reflexivity|].
        assert (Hc : byId id created = false).
        { subst byId created. cbv beta. rewrite lookup_insert_ne by done.
          by rewrite strictEq_sym. }
        rewrite findIndex_snoc, Hc.
        destruct (findIndex (byId id) (positionsFile h)) as [k|] eqn:Hk;
          [|done].
        split; [done|]. intros i [= <-]. apply lookup_app_l.
        by eapply findIndex_lt.
Qed.

Lemma savePosition_writable now position h :
  fileWritable (savePosition now position h) = fileWritable h.
Proof.
  unfold savePosition, writeFile. by destruct (fileWritable h) eqn:E.
Qed.

Lemma alter_insert {A} (f : A -> A) (l : list A) : forall i x,
  l !! i = Some x -> alter f i l = <[i := f x]> l.
Proof.
  induction l as [|a l IH]; intros [|i] x H; try done; simpl in *.
  - by injection H as ->.
  - f_equal. by apply IH.
Qed.

(** X26.  After [savePosition] on a writable file of at most 500
    entries, the file still has at most 500 entries and the first entry
    with the position's id is the position just saved, carrying the time
    of the call as [updatedAt] when an entry with this id was already
    stored (that entry is replaced, so what it held is gone) and as
    [createdAt] otherwise.  Below 500 entries, looking up any other id
    gives what it gave before. *)
Theorem savePosition_found now position h :
  fileWritable h = true ->
  (length (positionsFile h) <= 500)%nat ->
  let byId (id : option Value) := fun p : Entry => strictEq (p !! "id") id in
  let before := findIndex (byId (position !! "id")) (positionsFile h) in
  let stored := positionsFile (savePosition now position h) in
  (length stored <= 500)%nat
  /\ (exists index,
        findIndex (byId (position !! "id")) stored = Some index
        /\ stored !! index
           = Some (<[(match before with
                      | Some _ => "updatedAt"
                      | None => "createdAt"
                      end)
                     := Str now]> position))
  /\ (is_Some before -> length stored = length (positionsFile h))
  /\ (forall id,
        (length (positionsFile h) < 500)%nat ->
        strictEq id (position !! "id") = false ->
        exists index,
          findIndex (byId id) stored = index
          /\ findIndex (byId id) (positionsFile h) = index
          /\ forall i, index = Some i -> stored !! i = positionsFile h !! i).
Proof. apply savePosition_spec. Qed.

Lemma savePosition_found_witness :
  let position : Entry := {[ "id" := Str "p1" ]} in
  let h := {| positionsFile := []; fileWritable := true |} in
  (length (positionsFile (savePosition "2024-01-15" position h)) <= 500)%nat.
Proof.
  intros position h.
  refine (proj1 (savePosition_found "2024-01-15" position h _ _));
    [reflexivity|simpl; lia].
Defined.

(** X27.  Saving a position with id [id] and then closing this id leaves
    the number of stored positions unchanged, and the first entry with
    the id is the saved position marked as closed: status 'CLOSED', the
    final P&L and the closing time given, and every other field of the
    position as it was saved. *)
Theorem closePosition_after_savePosition now later id finalPnL position h :
  fileWritable h = true ->
  (length (positionsFile h) <= 500)%nat ->
  position !! "id" = Some (Str id) ->
  let saved := savePosition now position h in
  let closed := closePosition later id finalPnL saved in
  length (positionsFile closed) = length (positionsFile saved)
  /\ exists index entry,
       findIndex (fun p : Entry => strictEq (p !! "id") (Some (Str id)))
                 (positionsFile closed) = Some index
       /\ positionsFile closed !! index = Some entry
       /\ entry !! "status" = Some (Str "CLOSED")
       /\ entry !! "finalPnL" = Some (Num finalPnL)
       /\ entry !! "closedAt" = Some (Str later)
       /\ forall key,
            key ∉ ["status"; "finalPnL"; "closedAt"; "createdAt"; "updatedAt"]
            -> entry !! key = position !! key.
Proof.
  intros Hw Hlen Hid saved closed.
  destruct (savePosition_spec now position h Hw Hlen)
    as (_ & (index & Hindex & Hentry) & _).
  rewrite Hid in Hindex. fold saved in Hindex, Hentry.
  set (stamp := match findIndex _ (positionsFile h) with
                | Some _ => "updatedAt" | None => "createdAt" end) in Hentry.
  assert (Hstamp : stamp = "updatedAt" \/ stamp = "createdAt").
  { subst stamp. destruct (findIndex _ (positionsFile h)); auto. }
  assert (Hclosed :
    positionsFile closed
    = <[index := <["closedAt" := Str later]>
                   (<["finalPnL" := Num finalPnL]>
                      (<["status" := Str "CLOSED"]>
                         (<[stamp := Str now]> position)))]>
        (positionsFile saved)).
  { subst closed. unfold closePosition, getPositions, writeFile.
    rewrite Hindex. subst saved. rewrite savePosition_writable, Hw.
    cbn [positionsFile]. exact (alter_insert _ _ _ _ Hentry). }
  rewrite Hclosed. split; [apply length_insert|].
  eexists index, _. split; [|split].
  - rewrite (findIndex_insert _ _ _ _ _ Hentry); [done|].
    rewrite !lookup_insert_ne by done.
    destruct Hstamp as [-> | ->]; by rewrite !lookup_insert_ne by done.
  - apply list_lookup_insert_eq. by eapply lookup_lt_Some.
  - split; [|split; [|split]].
    + rewrite lookup_insert_ne by done.
      rewrite lookup_insert_ne by done. apply lookup_insert_eq.
    + rewrite lookup_insert_ne by done. apply lookup_insert_eq.
    + apply lookup_insert_eq.
    + intros key Hkey.
      rewrite !lookup_insert_ne; [done|..];
        intros <-; apply Hkey; destruct Hstamp as [-> | ->];
        repeat first [apply list_elem_of_here | apply list_elem_of_further].
Qed.

Lemma closePosition_after_savePosition_witness :
  let position : Entry := {[ "id" := Str "p1" ]} in
  let h := {| positionsFile := []; fileWritable := true |} in
  length
    (positionsFile
       (closePosition "2024-01-16" "p1" 4
          (savePosition "2024-01-15" position h)))
  = length (positionsFile (savePosition "2024-01-15" position h)).
Proof.
  intros position h.
  refine (proj1 (closePosition_after_savePosition "2024-01-15" "2024-01-16"
                   "p1" 4 position h _ _ _));
    [reflexivity|simpl; lia|reflexivity].
Defined.

End PositionsFile.


(** ** Placing an order *)

Section CreateOrderProperties.
Import Agent3Trading AsterService.

(** X28.  [createOrder] sends the order's parameters first, a price
    being sent only where the order's is truthy, and at most one more
    request.  The second request is sent exactly when the first was
    refused with code -1111, or with code -2019 while the available
    balance is not below 20; after -2019 it asks for the quantity '0.001'
    whatever quantity the order had, after -1111 it keeps the quantity
    and rewrites the prices.  Symbol, side, type and the flags are never
    changed.  An order id is returned exactly when the last request sent
    was answered with it. *)
Theorem createOrder_requests replies availableBalance toFixed2 order posted :
  let out := createOrder replies availableBalance toFixed2 order posted in
  let params := orderParams order in
  let margin :=
    bool_decide (refusalCode (replies (length posted)) = Some (-2019)%Z) in
  let precision :=
    bool_decide (refusalCode (replies (length posted)) = Some (-1111)%Z) in
  let funded :=
    match availableBalance with
    | Some balance => negb (Qltb balance 20)
    | None => true
    end in
  out.2
  = posted ++ params
      :: (if margin && funded then [setMinimumQuantity params]
          else if precision then [adjustPrecision toFixed2 params]
          else [])
  /\ ord_price params = whenTruthy (ord_price order)
  /\ ord_stopPrice params = whenTruthy (ord_stopPrice order)
  /\ ord_quantity params = ord_quantity order
  /\ ord_quantity (setMinimumQuantity params) = Text "0.001"
  /\ ord_quantity (adjustPrecision toFixed2 params) = ord_quantity order
  /\ (forall orderId,
        out.1 = inl orderId
        <-> replies (pred (length out.2)) = Placed orderId)
  /\ Forall (fun p => ord_symbol p = ord_symbol order
                      /\ ord_side p = ord_side order
                      /\ ord_type p = ord_type order
                      /\ ord_timeInForce p = ord_timeInForce order
                      /\ ord_reduceOnly p = ord_reduceOnly order
                      /\ ord_postOnly p = ord_postOnly order)
            (drop (length posted) out.2).
Proof.
  intros out params margin precision funded.
  assert (Hcore :
    out.2
    = posted ++ params
        :: (if margin && funded then [setMinimumQuantity params]
            else if precision then [adjustPrecision toFixed2 params]
            else [])
    /\ (forall orderId,
          out.1 = inl orderId
          <-> replies (pred (length out.2)) = Placed orderId)
    /\ Forall (fun p => ord_symbol p = ord_symbol order
                        /\ ord_side p = ord_side order
                        /\ ord_type p = ord_type order
                        /\ ord_timeInForce p = ord_timeInForce order
                        /\ ord_reduceOnly p = ord_reduceOnly order
                        /\ ord_postOnly p = ord_postOnly order)
              (drop (length posted) out.2)).
  { subst out margin precision funded. unfold createOrder, post.
    fold params. rewrite !length_app. simpl length.
    destruct (replies (length posted)) as [orderId|code message] eqn:Hfirst;
      cbn [refusalCode].
    { rewrite !bool_decide_eq_false_2 by done. cbn [andb fst snd].
      rewrite length_app. simpl length.
      replace (pred (length posted + 1)%nat) with (length posted) by lia.
      rewrite Hfirst, drop_app_length.
      split; [done|]. split; [intros id; split; congruence|].
      by repeat constructor. }
    destruct (bool_decide (code = Some (-2019)%Z)) eqn:Hmargin.
    - apply bool_decide_eq_true in Hmargin as ->.
      rewrite (bool_decide_eq_false_2 (Some (-2019)%Z = Some (-1111)%Z))
        by done.
      assert (Hretry :
        forall q,
          let out :=
            match replies (length posted + 1)%nat with
            | Placed orderId => (inl orderId, (posted ++ [params]) ++ [q])
            | Refused code message =>
                (inr (MarginError (RequestError code message)),
                 (posted ++ [params]) ++ [q])
            end in
          out.2 = posted ++ [params; q]
          /\ forall id, out.1 = inl id
                        <-> replies (pred (length out.2)) = Placed id).
      { intros q.
        destruct (replies (length posted + 1)%nat) as [id'|c m] eqn:Hsecond;
          cbn [fst snd]; rewrite <- app_assoc; (split; [done|]);
          intros id; rewrite length_app; simpl length;
          replace (pred (length posted + 2)%nat) with (length posted + 1)%nat
            by lia;
          rewrite Hsecond; split; congruence. }
      destruct availableBalance as [balance|]; cbn [andb].
      + destruct (Qltb balance 20); cbn [negb].
        * cbn [fst snd]. rewrite length_app. simpl length.
          replace (pred (length posted + 1)%nat) with (length posted) by lia.
          rewrite Hfirst, drop_app_length.
          split; [done|]. split; [intros id; split; congruence|].
          by repeat constructor.
        * destruct (Hretry (setMinimumQuantity params)) as [-> Hid].
          split; [done|]. split; [exact Hid|].
          rewrite drop_app_length. by repeat constructor.
      + destruct (Hretry (setMinimumQuantity params)) as [-> Hid].
        split; [done|]. split; [exact Hid|].
        rewrite drop_app_length. by repeat constructor.
    - apply bool_decide_eq_false in Hmargin. cbn [andb].
      destruct (bool_decide (code = Some (-1111)%Z)) eqn:Hprecision.
      + destruct (replies (length posted + 1)%nat) as [id'|c m] eqn:Hsecond;
          cbn [fst snd]; rewrite <- app_assoc; (split; [done|]);
          (split;
           [intros id; rewrite length_app; simpl length;
            replace (pred (length posted + 2)%nat) with (length posted + 1)%nat
              by lia;
            rewrite Hsecond; split; congruence
           |rewrite drop_app_length; by repeat constructor]).
      + cbn [fst snd]. rewrite length_app. simpl length.
        replace (pred (length posted + 1)%nat) with (length posted) by lia.
        rewrite Hfirst, drop_app_length.
        split; [done|]. split; [intros id; split; congruence|].
        by repeat constructor. }
  destruct Hcore as (Hsent & Hid & Hkept).
  split; [exact Hsent|]. do 5 (split; [reflexivity|]).
  split; [exact Hid|exact Hkept].
Qed.

End CreateOrderProperties.


Section CreateOrderRetries.
Import Agent3Trading AsterService.

(** X30.  What [createOrder] throws.  After a margin refusal (-2019)
    every failure is rethrown as a margin error: with the balance as its
    cause when the available balance is below 20, in which case nothing
    more is sent, and otherwise with the refusal of the second request as
    its cause.  After any other refusal the error thrown is the refusal
    of the last request sent. *)
Theorem createOrder_errors replies availableBalance toFixed2 order posted
    error :
  let out := createOrder replies availableBalance toFixed2 order posted in
  out.1 = inr error ->
  let first := replies (length posted) in
  let second := replies (S (length posted)) in
  if bool_decide (refusalCode first = Some (-2019)%Z) then
    (exists balance,
       availableBalance = Some balance /\ balance < 20
       /\ error = MarginError (BalanceError balance)
       /\ out.2 = posted ++ [orderParams order])
    \/ (exists code message,
          second = Refused code message
          /\ error = MarginError (RequestError code message)
          /\ length out.2 = S (S (length posted)))
  else
    exists code message,
      error = RequestError code message
      /\ replies (pred (length out.2)) = Refused code message.
Proof.
  intros out Herr first second. subst out first second.
  unfold createOrder, post in *. rewrite !length_app in *.
  simpl length in *.
  replace (length posted + 1)%nat with (S (length posted)) in * by lia.
  destruct (replies (length posted)) as [orderId|code message] eqn:Hfirst;
    [discriminate Herr|].
  cbn [refusalCode].
  destruct (bool_decide (code = Some (-2019)%Z)) eqn:Hmargin.
  - destruct availableBalance as [balance|].
    + destruct (Qltb balance 20) eqn:Hlow.
      * left. exists balance. injection Herr as <-.
        split; [done|]. split; [|done].
        unfold Qltb in Hlow. apply negb_true_iff in Hlow.
        apply Qnot_le_lt. intros Hle. apply Qle_bool_iff in Hle.
        congruence.
      * right.
        destruct (replies (S (length posted))) as [id|c m];
          [discriminate Herr|].
        injection Herr as <-. exists c, m. cbn [snd].
        rewrite !length_app. simpl. split; [done|]. split; [done|lia].
    + right.
      destruct (replies (S (length posted))) as [id|c m];
        [discriminate Herr|].
      injection Herr as <-. exists c, m. cbn [snd].
      rewrite !length_app. simpl. split; [done|]. split; [done|lia].
  - destruct (bool_decide (code = Some (-1111)%Z)).
    + destruct (replies (S (length posted))) as [id|c m] eqn:Hsecond;
        [discriminate Herr|].
      injection Herr as <-. exists c, m. cbn [snd].
      rewrite !length_app. simpl length.
      replace (pred (length posted + 1 + 1)) with (S (length posted))
        by lia.
      done.
    + injection Herr as <-. exists code, message. cbn [snd].
      rewrite length_app. simpl length.
      replace (pred (length posted + 1)) with (length posted) by lia.
      done.
Qed.

End CreateOrderRetries.

Section CreateOrderWitness.
Import Agent3Trading AsterService.

Lemma createOrder_errors_witness :
  let replies (n : nat) := Refused (Some (-2019)%Z) "Margin is insufficient." in
  let order :=
    {| ord_symbol := "BTCUSDT"; ord_side := BUY; ord_type := MARKET;
       ord_quantity := Text "1"; ord_price := None; ord_stopPrice := None;
       ord_timeInForce := false; ord_reduceOnly := false;
       ord_postOnly := false |} in
  let out := createOrder replies (Some 5) (fun _ => "0.00"%string) order [] in
  (exists balance,
     Some 5 = Some balance /\ balance < 20
     /\ MarginError (BalanceError 5) = MarginError (BalanceError balance)
     /\ out.2 = [] ++ [orderParams order])
  \/ (exists code message,
        replies 1%nat = Refused code message
        /\ MarginError (BalanceError 5)
           = MarginError (RequestError code message)
        /\ length out.2 = 2%nat).
Proof.
  intros replies order out.
  exact (createOrder_errors replies (Some 5) (fun _ => "0.00"%string) order []
           (MarginError (BalanceError 5)) eq_refl).
Defined.

End CreateOrderWitness.
